(** * Resource handlers of the AWS provider: GuardDuty threat intel set,
      EMR studio and SSM activation

    A shallow embedding of the three resource handlers
    ([internal/service/guardduty/threatintelset.go],
    [internal/service/emr/studio.go] and the SSM activation resource) and of
    the properties their specification states.

    A handler is a program over the remote management API: every SDK call is
    an event of a free monad, and the handler's result is the resource data
    it leaves behind together with the diagnostics it returns.  Running a
    handler against a remote service yields the result, the service's final
    state and the trace of calls that were made. *)

From stdpp Require Import base strings gmap list.
From Stdlib Require Import ZArith Ascii String DecimalString.

Set Warnings "-register-all".

Open Scope string_scope.
Open Scope list_scope.

(** ** Go's [strings] package *)

Module strings.

(** [strings.HasPrefix(s, prefix)]. *)
Fixpoint HasPrefix (s prefix : string) : bool :=
  match prefix, s with
  | EmptyString, _ => true
  | String _ _, EmptyString => false
  | String a p, String b r => Ascii.eqb a b && HasPrefix r p
  end.

(** [strings.Contains(s, substr)]. *)
Fixpoint Contains (s substr : string) : bool :=
  HasPrefix s substr ||
  match s with
  | EmptyString => false
  | String _ r => Contains r substr
  end.

(** [strings.Split(s, sep)] for a separator of one byte, the only way the
    handlers call it: the pieces between the occurrences of [sep], so that
    a string with [n] separators has [n + 1] pieces and the empty string
    has the single piece [""]. *)
Fixpoint Split (s : string) (sep : ascii) : list string :=
  match s with
  | EmptyString => [EmptyString]
  | String c r =>
      if Ascii.eqb c sep then EmptyString :: Split r sep
      else match Split r sep with
           | h :: t => String c h :: t
           | [] => [String c EmptyString]
           end
  end.

(** Number of occurrences of the byte [sep] in [s]. *)
Fixpoint Count (s : string) (sep : ascii) : nat :=
  match s with
  | EmptyString => O
  | String c r => (if Ascii.eqb c sep then 1 else 0) + Count r sep
  end.

End strings.

(** ** Errors and diagnostics *)

(** An error of the AWS SDK ([awserr.Error]): a code and a message. *)
Record awserr := { Code : string; Message : string }.

(** Go's [error] values the handlers see: SDK errors, errors built with
    [fmt.Errorf] (format and arguments kept apart) and the errors of the
    plugin SDK's [retry] package. *)
Inductive error :=
| AwsError (e : awserr)
| Errorf (format : string) (args : list string)
| NotFoundError (message : string)
| UnexpectedStateError (state : string) (expected : list string)
| TimeoutError (lastError : option error) (lastState : string)
    (timeout : Z) (expected : list string).

(** An argument of a [%s] verb. *)
Inductive fmtArg :=
| ArgS (s : string)
| ArgE (e : error).

Inductive Severity := SevError | SevWarning.

(** One diagnostic.  The summary is kept as the format string and its
    arguments, so an error that is passed to [%s] is found unchanged in
    [Args]. *)
Record Diagnostic := {
  DiagSeverity : Severity;
  Format : string;
  Args : list fmtArg
}.

Abbreviation Diagnostics := (list Diagnostic).

(** [sdkdiag.AppendErrorf(diags, format, a...)]. *)
Definition AppendErrorf (diags : Diagnostics) (format : string)
    (a : list fmtArg) : Diagnostics :=
  diags ++ [{| DiagSeverity := SevError; Format := format; Args := a |}].

(** [diags.HasError()]. *)
Definition HasError (diags : Diagnostics) : bool :=
  existsb (fun x => match DiagSeverity x with SevError => true | _ => false end)
    diags.

Module tfawserr.

(** [tfawserr.ErrMessageContains(err, code, message)]; [err] may be nil. *)
Definition ErrMessageContains (err : option error) (code message : string)
    : bool :=
  match err with
  | Some (AwsError e) =>
      String.eqb (Code e) code && strings.Contains (Message e) message
  | _ => false
  end.

(** [tfawserr.ErrCodeEquals(err, code)]. *)
Definition ErrCodeEquals (err : option error) (code : string) : bool :=
  match err with
  | Some (AwsError e) => String.eqb (Code e) code
  | _ => false
  end.

End tfawserr.

Module tfresource.

(** [tfresource.NotFound(err)]: the error is a [retry.NotFoundError]. *)
Definition NotFound (err : option error) : bool :=
  match err with
  | Some (NotFoundError _) => true
  | _ => false
  end.

(** [tfresource.TimedOut(err)]: the error is a [retry.TimeoutError] that
    carries no last error. *)
Definition TimedOut (err : option error) : bool :=
  match err with
  | Some (TimeoutError None _ _ _) => true
  | _ => false
  end.

End tfresource.

(** ** The composite identifier of a threat intel set *)

Definition ThreatIntelSetIDFormat : string :=
  "GuardDuty ThreatIntelSet ID must be of the form <Detector ID>:<ThreatIntelSet ID>, was provided: %s".

(** [DecodeThreatIntelSetID(id)], with its three named results. *)
Definition DecodeThreatIntelSetID (id : string)
    : string * string * option error :=
  let parts := strings.Split id ":" in
  if negb (Nat.eqb (List.length parts) 2) then
    ("", "", Some (Errorf ThreatIntelSetIDFormat [id]))
  else
    let threatIntelSetID := nth 1 parts "" in
    let detectorID := nth 0 parts "" in
    (threatIntelSetID, detectorID, None).

(** [fmt.Sprintf("%s:%s", detectorID, threatIntelSetID)], the identifier the
    create handler stores. *)
Definition EncodeThreatIntelSetID (detectorID threatIntelSetID : string)
    : string :=
  detectorID +:+ ":" +:+ threatIntelSetID.

(** ** Go's [time] package: RFC 3339 timestamps *)

Module time.

(** A [time.Time], kept as the civil date and clock it shows in its own
    zone, which is what [Format] prints.  The year is a signed integer, as
    in Go; [Offset] is the zone's offset in seconds east of UTC. *)
Record Time := {
  Year : Z; Month : nat; Day : nat;
  Hour : nat; Minute : nat; Second : nat;
  Nanosecond : Z;
  Offset : Z
}.

(** The zero [Time]: January 1, year 1, 00:00:00 UTC. *)
Definition zero : Time :=
  {| Year := 1%Z; Month := 1; Day := 1; Hour := 0; Minute := 0; Second := 0;
     Nanosecond := 0%Z; Offset := 0%Z |}.

Definition isDigit (c : ascii) : bool :=
  let n := nat_of_ascii c in Nat.leb 48 n && Nat.leb n 57.

Definition digitVal (c : ascii) : nat := nat_of_ascii c - 48.

(** [getnum(s, fixed)]: a number of one or two digits, of exactly two when
    [fixed]. *)
Definition getnum (s : string) (fixed : bool) : option (nat * string) :=
  match s with
  | String a r =>
      if isDigit a then
        match r with
        | String b r' =>
            if isDigit b then Some (digitVal a * 10 + digitVal b, r')
            else if fixed then None else Some (digitVal a, r)
        | EmptyString => if fixed then None else Some (digitVal a, r)
        end
      else None
  | EmptyString => None
  end.

(** The four-digit year of the layout element [2006]. *)
Definition getyear (s : string) : option (nat * string) :=
  match s with
  | String a (String b (String c (String d r))) =>
      if isDigit a && isDigit b && isDigit c && isDigit d
      then Some (digitVal a * 1000 + digitVal b * 100
                 + digitVal c * 10 + digitVal d, r)
      else None
  | _ => None
  end.

(** A literal byte of the layout. *)
Definition expect (c : ascii) (s : string) : option string :=
  match s with
  | String a r => if Ascii.eqb a c then Some r else None
  | EmptyString => None
  end.

(** The leading digits of [s], at most [n] of them kept as a number scaled
    to [n] places, and the rest of [s] after all leading digits. *)
Fixpoint fraction (n : nat) (s : string) : Z * string :=
  match s with
  | String a r =>
      if isDigit a then
        match n with
        | O => fraction O r
        | S n' =>
            let '(v, rest) := fraction n' r in
            ((Z.of_nat (digitVal a) * 10 ^ Z.of_nat n' + v)%Z, rest)
        end
      else (0%Z, s)
  | EmptyString => (0%Z, s)
  end.

(** A fractional second, accepted after the seconds although the layout
    has none: a period or comma followed by at least one digit. *)
Definition parseFraction (s : string) : Z * string :=
  match s with
  | String p (String a r) =>
      if (Ascii.eqb p "." || Ascii.eqb p ",") && isDigit a
      then fraction 9 (String a r)
      else (0%Z, s)
  | _ => (0%Z, s)
  end.

Definition isLeap (year : nat) : bool :=
  Nat.eqb (year mod 4) 0
  && (negb (Nat.eqb (year mod 100) 0) || Nat.eqb (year mod 400) 0).

Definition daysIn (m year : nat) : nat :=
  match m with
  | 2 => if isLeap year then 29 else 28
  | 4 | 6 | 9 | 11 => 30
  | _ => 31
  end.

(** The zone of the layout element [Z07:00]: [Z], or a sign, two digits,
    a colon and two digits; the offset is returned in seconds. *)
Definition parseZone (s : string) : option (Z * string) :=
  match s with
  | String "Z" r => Some (0%Z, r)
  | String sign (String h1 (String h2 (String ":" (String m1 (String m2 r))))) =>
      '(hr, _) ← getnum (String h1 (String h2 "")) true;
      '(mm, _) ← getnum (String m1 (String m2 "")) true;
      if Nat.ltb 24 hr || Nat.ltb 60 mm then None
      else
        let zoneOffset := (Z.of_nat (hr * 60 + mm) * 60)%Z in
        if Ascii.eqb sign "+" then Some (zoneOffset, r)
        else if Ascii.eqb sign "-" then Some ((- zoneOffset)%Z, r)
        else None
  | _ => None
  end.

(** [time.Parse(time.RFC3339, value)]; [None] stands for a parse error. *)
Definition ParseRFC3339 (value : string) : option Time :=
  '(year, value) ← getyear value;
  value ← expect "-" value;
  '(month, value) ← getnum value true;
  if Nat.eqb month 0 || Nat.ltb 12 month then None else
  value ← expect "-" value;
  '(day, value) ← getnum value true;
  value ← expect "T" value;
  '(hour, value) ← getnum value false;
  if Nat.leb 24 hour then None else
  value ← expect ":" value;
  '(min, value) ← getnum value true;
  if Nat.leb 60 min then None else
  value ← expect ":" value;
  '(sec, value) ← getnum value true;
  if Nat.leb 60 sec then None else
  let '(nsec, value) := parseFraction value in
  '(zoneOffset, value) ← parseZone value;
  match value with
  | EmptyString =>
      if Nat.ltb day 1 || Nat.ltb (daysIn month year) day then None
      else Some {| Year := Z.of_nat year; Month := month; Day := day;
                   Hour := hour; Minute := min; Second := sec;
                   Nanosecond := nsec; Offset := zoneOffset |}
  | _ => None
  end.

(** [time.Parse] as the handlers use it, the error dropped: a value that
    does not parse gives the zero [Time]. *)
Definition Parse (value : string) : Time :=
  default zero (ParseRFC3339 value).

(** [appendInt(b, x, width)]: a minus sign when [x] is negative, then all
    the decimal digits of the absolute value of [x], with zeros in front of
    them while they are fewer than [width].  A number that needs more than
    [width] digits is written in full: the year 10000 prints as [10000]. *)
Definition appendInt (x : Z) (width : nat) : string :=
  let digits := NilZero.string_of_uint (N.to_uint (Z.to_N (Z.abs x))) in
  (if Z.ltb x 0 then "-" else "")
  +:+ string_of_list_ascii
        (repeat "0"%char (width - String.length digits))
  +:+ digits.

(** [appendInt(b, x, 2)] and [appendInt(b, x, 4)]. *)
Definition pad2 (n : nat) : string := appendInt (Z.of_nat n) 2.

Definition pad4 (year : Z) : string := appendInt year 4.

(** [t.Format(time.RFC3339)]: the layout has no fractional seconds.  A zero
    offset prints as [Z]; any other offset is cut to whole minutes (Go's
    [offset / 60], which rounds toward zero) and printed as a sign, the
    hours and the minutes. *)
Definition Format (t : Time) : string :=
  pad4 (Year t) +:+ "-" +:+ pad2 (Month t) +:+ "-" +:+ pad2 (Day t)
  +:+ "T" +:+ pad2 (Hour t) +:+ ":" +:+ pad2 (Minute t) +:+ ":"
  +:+ pad2 (Second t)
  +:+ (if Z.eqb (Offset t) 0 then "Z"
       else
         let zone := Z.quot (Offset t) 60 in
         let minutes := Z.to_nat (Z.abs zone) in
         (if Z.ltb zone 0 then "-" else "+")
         +:+ pad2 (minutes / 60) +:+ ":" +:+ pad2 (minutes mod 60)).

End time.

(** ** The resource data of the plugin SDK *)

(** The values a schema attribute holds. *)
Inductive Value :=
| VString (s : string)
| VBool (b : bool)
| VInt (n : Z)
| VSet (xs : gset string)
| VMap (m : gmap string string).

#[global] Instance Value_eq_dec : EqDecision Value.
Proof. solve_decision. Defined.

(** A value that equals the zero value of its type counts as unset. *)
Definition isZero (v : Value) : bool :=
  match v with
  | VString s => String.eqb s ""
  | VBool b => negb b
  | VInt n => Z.eqb n 0
  | VSet xs => bool_decide (xs = ∅)
  | VMap m => bool_decide (m = ∅)
  end.

(** [schema.ResourceData]: the identifier, whether the resource is being
    created in this operation, the prior state, and the attribute values
    that [Get] reads and [Set] writes. *)
Record ResourceData := {
  Id : string;
  IsNewResource : bool;
  state : gmap string Value;
  attrs : gmap string Value
}.

Definition lookupAttr (m : gmap string Value) (key : string) : option Value :=
  match m !! key with
  | Some v => if isZero v then None else Some v
  | None => None
  end.

(** [d.GetOk(key)]: the value, when it is set to something else than the
    zero value. *)
Definition GetOk (d : ResourceData) (key : string) : option Value :=
  lookupAttr (attrs d) key.

(** [d.Get(key).(string)] and its siblings: the zero value when unset. *)
Definition GetString (d : ResourceData) (key : string) : string :=
  match GetOk d key with Some (VString s) => s | _ => "" end.

Definition GetBool (d : ResourceData) (key : string) : bool :=
  match GetOk d key with Some (VBool b) => b | _ => false end.

Definition GetInt (d : ResourceData) (key : string) : Z :=
  match GetOk d key with Some (VInt n) => n | _ => 0%Z end.

Definition GetSet (d : ResourceData) (key : string) : gset string :=
  match GetOk d key with Some (VSet xs) => xs | _ => ∅ end.

Definition GetMap (d : ResourceData) (key : string) : gmap string string :=
  match GetOk d key with Some (VMap m) => m | _ => ∅ end.

(** [d.GetChange(key)]: the old and the new value. *)
Definition GetChange (d : ResourceData) (key : string)
    : option Value * option Value :=
  (lookupAttr (state d) key, lookupAttr (attrs d) key).

Definition mapOf (v : option Value) : gmap string string :=
  match v with Some (VMap m) => m | _ => ∅ end.

(** [d.HasChange(key)]. *)
Definition HasChange (d : ResourceData) (key : string) : bool :=
  let '(o, n) := GetChange d key in
  negb (bool_decide (o = n)).

(** [d.HasChanges(keys...)]. *)
Definition HasChanges (d : ResourceData) (keys : list string) : bool :=
  existsb (HasChange d) keys.

(** [d.HasChangesExcept(keys...)]: some attribute outside [keys] changed. *)
Definition HasChangesExcept (d : ResourceData) (keys : list string) : bool :=
  existsb
    (fun attr => negb (existsb (String.eqb attr) keys) && HasChange d attr)
    (elements (dom (state d) ∪ dom (attrs d))).

(** [d.SetId(v)]. *)
Definition SetId (d : ResourceData) (v : string) : ResourceData :=
  {| Id := v; IsNewResource := IsNewResource d;
     state := state d; attrs := attrs d |}.

(** [d.Set(key, value)]; a nil pointer ([None]) leaves the attribute at its
    zero value. *)
Definition SetAttr (d : ResourceData) (key : string) (value : option Value)
    : ResourceData :=
  {| Id := Id d; IsNewResource := IsNewResource d; state := state d;
     attrs := match value with
              | Some v => <[key := v]> (attrs d)
              | None => delete key (attrs d)
              end |}.

(** ** Tags *)

Module tftags.

(** The ignore configuration of the provider: exact keys and key prefixes. *)
Record IgnoreConfigT := {
  Keys : list string;
  KeyPrefixes : list string
}.

(** Modelled from the spec: [internal/tags] is not among the sources.
    [MergeTags] builds the full tag set out of the provider's default tags
    and the tags of the resource, the resource's winning; the result holds
    every tag of the resource. *)
Definition MergeTags (defaultTags tags : gmap string string)
    : gmap string string :=
  tags ∪ defaultTags.

(** Modelled from the spec: [internal/tags] is not among the sources.
    [IgnoreAWS] drops the tags whose key has the reserved prefix. *)
Definition IgnoreAWS (tags : gmap string string) : gmap string string :=
  filter (fun kv => strings.HasPrefix kv.1 "aws:" = false) tags.

(** Modelled from the spec: [internal/tags] is not among the sources.
    [IgnoreConfig] drops the tags the provider is configured to ignore. *)
Definition IgnoreConfig (config : IgnoreConfigT) (tags : gmap string string)
    : gmap string string :=
  filter (fun kv =>
            existsb (String.eqb kv.1) (Keys config) = false
            /\ existsb (strings.HasPrefix kv.1) (KeyPrefixes config) = false)
    tags.

(** Modelled from the spec: [internal/tags] is not among the sources.
    [RemoveDefaultConfig] removes the default-injected tags: the entries
    that the default tags hold with the same key and value. *)
Definition RemoveDefaultConfig (defaultTags tags : gmap string string)
    : gmap string string :=
  filter (fun kv => defaultTags !! kv.1 <> Some kv.2) tags.

End tftags.

(** The provider's client, as far as the handlers read it. *)
Record AWSClient := {
  DefaultTagsConfig : gmap string string;
  IgnoreTagsConfig : tftags.IgnoreConfigT;
  Partition : string;
  Region : string;
  AccountID : string
}.

(** ** The remote management API *)

(** The outcome of a call: Go's pair of a response and an error. *)
Inductive result (E A : Type) : Type :=
| Ok (a : A)
| Fail (e : E).

Arguments Ok {E A} a.
Arguments Fail {E A} e.

(** [aws.StringValue(p)]. *)
Definition StringValue (p : option string) : string := default "" p.

(** Request and response shapes of the GuardDuty API. *)
Module guardduty.

Definition ThreatIntelSetStatusInactive : string := "INACTIVE".
Definition ThreatIntelSetStatusActivating : string := "ACTIVATING".
Definition ThreatIntelSetStatusActive : string := "ACTIVE".
Definition ThreatIntelSetStatusDeactivating : string := "DEACTIVATING".
Definition ThreatIntelSetStatusDeletePending : string := "DELETE_PENDING".
Definition ThreatIntelSetStatusDeleted : string := "DELETED".

Definition ErrCodeBadRequestException : string := "BadRequestException".

Module CreateThreatIntelSetInput.
Record t := {
  Activate : bool;
  DetectorId : string;
  Format : string;
  Location : string;
  Name : string;
  Tags : option (gmap string string)
}.
End CreateThreatIntelSetInput.

Module CreateThreatIntelSetOutput.
Record t := { ThreatIntelSetId : option string }.
End CreateThreatIntelSetOutput.

Module GetThreatIntelSetInput.
Record t := { DetectorId : string; ThreatIntelSetId : string }.
End GetThreatIntelSetInput.

Module GetThreatIntelSetOutput.
Record t := {
  Format : option string;
  Location : option string;
  Name : option string;
  Status : option string;
  Tags : gmap string string
}.
End GetThreatIntelSetOutput.

Module UpdateThreatIntelSetInput.
Record t := {
  Activate : option bool;
  DetectorId : string;
  Location : option string;
  Name : option string;
  ThreatIntelSetId : string
}.
End UpdateThreatIntelSetInput.

Module DeleteThreatIntelSetInput.
Record t := { DetectorId : string; ThreatIntelSetId : string }.
End DeleteThreatIntelSetInput.

End guardduty.

(** Request and response shapes of the EMR API. *)
Module emr.

Definition ErrCodeInternalServerException : string := "InternalServerException".
Definition ErrCodeInvalidRequestException : string := "InvalidRequestException".

Module CreateStudioInput.
Record t := {
  AuthMode : string;
  DefaultS3Location : string;
  Description : option string;
  EngineSecurityGroupId : string;
  IdpAuthUrl : option string;
  IdpRelayStateParameterName : option string;
  Name : string;
  ServiceRole : string;
  SubnetIds : list string;
  Tags : option (gmap string string);
  UserRole : option string;
  VpcId : string;
  WorkspaceSecurityGroupId : string
}.
End CreateStudioInput.

Module CreateStudioOutput.
Record t := { StudioId : option string; Url : option string }.
End CreateStudioOutput.

Module Studio.
Record t := {
  AuthMode : option string;
  DefaultS3Location : option string;
  Description : option string;
  EngineSecurityGroupId : option string;
  IdpAuthUrl : option string;
  IdpRelayStateParameterName : option string;
  Name : option string;
  ServiceRole : option string;
  StudioArn : option string;
  SubnetIds : list string;
  Tags : gmap string string;
  Url : option string;
  UserRole : option string;
  VpcId : option string;
  WorkspaceSecurityGroupId : option string
}.
End Studio.

Module UpdateStudioInput.
Record t := {
  DefaultS3Location : option string;
  Description : option string;
  Name : option string;
  StudioId : string;
  SubnetIds : option (list string)
}.
End UpdateStudioInput.

Module DeleteStudioInput.
Record t := { StudioId : string }.
End DeleteStudioInput.

End emr.

(** Request and response shapes of the SSM API. *)
Module ssm.

Module CreateActivationInput.
Record t := {
  DefaultInstanceName : option string;
  Description : option string;
  ExpirationDate : option time.Time;
  IamRole : string;
  RegistrationLimit : option Z;
  Tags : option (gmap string string)
}.

(** Assignments to one field of the request. *)
Definition setDefaultInstanceName (i : t) (v : string) : t :=
  {| DefaultInstanceName := Some v; Description := Description i;
     ExpirationDate := ExpirationDate i; IamRole := IamRole i;
     RegistrationLimit := RegistrationLimit i; Tags := Tags i |}.

Definition setDescription (i : t) (v : string) : t :=
  {| DefaultInstanceName := DefaultInstanceName i; Description := Some v;
     ExpirationDate := ExpirationDate i; IamRole := IamRole i;
     RegistrationLimit := RegistrationLimit i; Tags := Tags i |}.

Definition setExpirationDate (i : t) (v : time.Time) : t :=
  {| DefaultInstanceName := DefaultInstanceName i;
     Description := Description i;
     ExpirationDate := Some v; IamRole := IamRole i;
     RegistrationLimit := RegistrationLimit i; Tags := Tags i |}.

Definition setIamRole (i : t) (v : string) : t :=
  {| DefaultInstanceName := DefaultInstanceName i;
     Description := Description i;
     ExpirationDate := ExpirationDate i; IamRole := v;
     RegistrationLimit := RegistrationLimit i; Tags := Tags i |}.

Definition setRegistrationLimit (i : t) (v : Z) : t :=
  {| DefaultInstanceName := DefaultInstanceName i;
     Description := Description i;
     ExpirationDate := ExpirationDate i; IamRole := IamRole i;
     RegistrationLimit := Some v; Tags := Tags i |}.

Definition setTags (i : t) (v : gmap string string) : t :=
  {| DefaultInstanceName := DefaultInstanceName i;
     Description := Description i;
     ExpirationDate := ExpirationDate i; IamRole := IamRole i;
     RegistrationLimit := RegistrationLimit i; Tags := Some v |}.

End CreateActivationInput.

Module CreateActivationOutput.
Record t := { ActivationCode : option string; ActivationId : option string }.
End CreateActivationOutput.

Module DescribeActivationsFilter.
Record t := { FilterKey : string; FilterValues : list string }.
End DescribeActivationsFilter.

Module DescribeActivationsInput.
Record t := {
  Filters : list DescribeActivationsFilter.t;
  MaxResults : Z
}.
End DescribeActivationsInput.

Module Activation.
Record t := {
  DefaultInstanceName : option string;
  Description : option string;
  ExpirationDate : option time.Time;
  Expired : option bool;
  IamRole : option string;
  RegistrationLimit : option Z;
  RegistrationsCount : option Z;
  Tags : gmap string string
}.
End Activation.

Module DescribeActivationsOutput.
Record t := { ActivationList : list Activation.t }.
End DescribeActivationsOutput.

Module DeleteActivationInput.
Record t := { ActivationId : string }.
End DeleteActivationInput.

End ssm.

Inductive Service := GuardDuty | EMR | SSM.

(** The calls a handler can make.  [FindStudioByID] and [UpdateTags] are
    helpers of the provider that wrap the describe call and the tagging
    calls of a service; each is taken as one exchange with the service. *)
Inductive Call : Type :=
| CreateThreatIntelSetWithContext (input : guardduty.CreateThreatIntelSetInput.t)
| GetThreatIntelSetWithContext (input : guardduty.GetThreatIntelSetInput.t)
| UpdateThreatIntelSetWithContext (input : guardduty.UpdateThreatIntelSetInput.t)
| DeleteThreatIntelSetWithContext (input : guardduty.DeleteThreatIntelSetInput.t)
| CreateStudioWithContext (input : emr.CreateStudioInput.t)
| FindStudioByID (id : string)
| UpdateStudioWithContext (input : emr.UpdateStudioInput.t)
| DeleteStudioWithContext (input : emr.DeleteStudioInput.t)
| CreateActivationWithContext (input : ssm.CreateActivationInput.t)
| DescribeActivationsWithContext (input : ssm.DescribeActivationsInput.t)
| DeleteActivationWithContext (input : ssm.DeleteActivationInput.t)
| UpdateTags (svc : Service) (identifier : string)
    (oldTags newTags : gmap string string).

(** What the service answers to each call.  SDK calls fail with an SDK
    error; the finder can also fail with a [NotFoundError]. *)
Definition Resp (c : Call) : Type :=
  match c with
  | CreateThreatIntelSetWithContext _ =>
      result awserr guardduty.CreateThreatIntelSetOutput.t
  | GetThreatIntelSetWithContext _ =>
      result awserr guardduty.GetThreatIntelSetOutput.t
  | UpdateThreatIntelSetWithContext _ => result awserr unit
  | DeleteThreatIntelSetWithContext _ => result awserr unit
  | CreateStudioWithContext _ => result awserr emr.CreateStudioOutput.t
  | FindStudioByID _ => result error emr.Studio.t
  | UpdateStudioWithContext _ => result awserr unit
  | DeleteStudioWithContext _ => result awserr unit
  | CreateActivationWithContext _ => result awserr ssm.CreateActivationOutput.t
  | DescribeActivationsWithContext _ =>
      result awserr ssm.DescribeActivationsOutput.t
  | DeleteActivationWithContext _ => result awserr unit
  | UpdateTags _ _ _ _ => result error unit
  end.

(** ** Handlers as programs over the API *)

(** A program: it returns, panics (a nil dereference, an index out of
    range), or makes a call and goes on with the answer. *)
Inductive Prog (A : Type) : Type :=
| Ret (a : A)
| Panic (msg : string)
| Do (c : Call) (k : Resp c -> Prog A).

Arguments Ret {A} a.
Arguments Panic {A} msg.
Arguments Do {A} c k.

Fixpoint bind {A B : Type} (p : Prog A) (f : A -> Prog B) : Prog B :=
  match p with
  | Ret a => f a
  | Panic msg => Panic msg
  | Do c k => Do c (fun r => bind (k r) f)
  end.

#[global] Instance Prog_ret : MRet Prog := fun A a => Ret a.
#[global] Instance Prog_bind : MBind Prog := fun A B f p => bind p f.

Definition call (c : Call) : Prog (Resp c) := Do c Ret.

(** [*p]: dereferencing a nil pointer panics. *)
Definition deref {A : Type} (p : option A) : Prog A :=
  match p with
  | Some a => Ret a
  | None => Panic "invalid memory address or nil pointer dereference"
  end.

(** [l[i]]: an index out of range panics. *)
Definition index {A : Type} (l : list A) (i : nat) : Prog A :=
  match l !! i with
  | Some a => Ret a
  | None => Panic "index out of range"
  end.

(** A remote service: a state and its answer to every call. *)
Record Remote (S : Type) := {
  respond : forall c : Call, S -> Resp c * S
}.

Arguments respond {S} _ c _.

(** One exchange: the call and the answer it got. *)
Inductive Event := Ev (c : Call) (r : Resp c).

Inductive Outcome (A : Type) : Type :=
| Returned (a : A)
| Panicked (msg : string).

Arguments Returned {A} a.
Arguments Panicked {A} msg.

(** Running a program against a service: the outcome, the service's final
    state, and the exchanges in the order they happened. *)
Fixpoint run {S A : Type} (srv : Remote S) (p : Prog A) (s : S)
    : Outcome A * S * list Event :=
  match p with
  | Ret a => (Returned a, s, [])
  | Panic msg => (Panicked msg, s, [])
  | Do c k =>
      let '(r, s') := respond srv c s in
      let '(o, s'', t) := run srv (k r) s' in
      (o, s'', Ev c r :: t)
  end.

(** The calls of a trace. *)
Definition calls (t : list Event) : list Call :=
  map (fun e => match e with Ev c _ => c end) t.

(** ** The plugin SDK's [retry] package *)

Module retry.

(** Durations, in milliseconds. *)
Definition Millisecond : Z := 1.
Definition Second : Z := 1000.
Definition Minute : Z := 60000.

(** [retry.StateChangeConf], as far as the handlers fill it. *)
Record StateChangeConf := {
  Pending : list string;
  Target : list string;
  Timeout : Z;
  MinTimeout : Z
}.

(** The refreshes that fit into the timeout when one is made at the start
    and one after every further minimum interval. *)
Definition polls (conf : StateChangeConf) : nat :=
  S (Z.to_nat (Timeout conf / MinTimeout conf)).

(** The poll loop, with [n] refreshes left before the timeout. *)
Fixpoint waitLoop {R : Type} (n : nat) (conf : StateChangeConf)
    (refresh : Prog (option R * string * option error)) (lastState : string)
    : Prog (option R * option error) :=
  match n with
  | O =>
      Ret (None,
           Some (TimeoutError None lastState (Timeout conf) (Target conf)))
  | S n' =>
      r ← refresh;
      let '(res, currentState, err) := r in
      match err with
      | Some err => Ret (res, Some err)
      | None =>
          if existsb (String.eqb currentState) (Target conf) then
            Ret (res, None)
          else if existsb (String.eqb currentState) (Pending conf) then
            waitLoop n' conf refresh currentState
          else
            Ret (res,
                 Some (UnexpectedStateError currentState (Target conf)))
      end
  end.

(** Modelled from the spec: the plugin SDK's [retry] package is not among
    the sources.  [conf.WaitForStateContext(ctx)] polls the status
    sequentially, with a fixed minimum interval and an overall timeout: a
    refresh that fails ends the wait with its error, a status of the target
    set ends it with success, a status of the pending set waits for the next
    refresh, any other status is an error, and when the timeout elapses
    while the status is still pending the wait ends with a timeout error.
    A refresh is taken to answer at once, so the refresh number [k] happens
    at [k * MinTimeout]. *)
Definition WaitForStateContext {R : Type} (conf : StateChangeConf)
    (refresh : Prog (option R * string * option error))
    : Prog (option R * option error) :=
  waitLoop (polls conf) conf refresh "".

(** [retry.RetryError]. *)
Record RetryError := { Err : error; Retryable : bool }.

(** [retry.RetryableError(err)] and [retry.NonRetryableError(err)]. *)
Definition RetryableError (err : option error) : option RetryError :=
  Some {| Err := default (Errorf "empty retryable error received" []) err;
          Retryable := true |}.

Definition NonRetryableError (err : option error) : option RetryError :=
  Some {| Err := default (Errorf "empty non-retryable error received" []) err;
          Retryable := false |}.

(** The retry loop, with [n] attempts left in the window; [r] is the
    variable the function assigns its result to and [resultErr] the error of
    the last attempt. *)
Fixpoint retryLoop {R : Type} (n : nat) (timeout : Z)
    (f : R -> Prog (R * option RetryError)) (r : R)
    (resultErr : option error) : Prog (R * option error) :=
  match n with
  | O =>
      Ret (r,
           match resultErr with
           | Some err => Some err
           | None => Some (TimeoutError None "" timeout ["success"])
           end)
  | S n' =>
      x ← f r;
      let '(r', rerr) := x in
      match rerr with
      | None => Ret (r', None)
      | Some rerr =>
          if Retryable rerr then retryLoop n' timeout f r' (Some (Err rerr))
          else Ret (r', Some (Err rerr))
      end
  end.

(** Modelled from the spec: the plugin SDK's [retry] package is not among
    the sources.  [retry.RetryContext(ctx, timeout, f)] retries [f] for a
    bounded window: it stops with success as soon as [f] returns nil, stops
    with the error of [f] as soon as that is not retryable, and calls [f]
    again after a retryable error while the window lasts; when the window
    closes it returns the error of the last attempt, or a timeout error when
    there was none.  The attempts are spaced like the refreshes of a state
    change with a minimum interval of 500 milliseconds. *)
Definition RetryContext {R : Type} (timeout : Z)
    (f : R -> Prog (R * option RetryError)) (r : R)
    : Prog (R * option error) :=
  retryLoop
    (polls {| Pending := ["retryableerror"]; Target := ["success"];
              Timeout := timeout; MinTimeout := 500 * Millisecond |})
    timeout f r None.

End retry.

(** Go's [resp, err := call(...)]. *)
Definition unpack {A : Type} (r : result awserr A) : option A * option error :=
  match r with
  | Ok a => (Some a, None)
  | Fail e => (None, Some (AwsError e))
  end.

(** [arn.ARN{...}.String()]. *)
Definition ARNString (partition service region accountID resource : string)
    : string :=
  "arn:" +:+ partition +:+ ":" +:+ service +:+ ":" +:+ region +:+ ":"
  +:+ accountID +:+ ":" +:+ resource.

(** ** GuardDuty threat intel set *)

Definition threatintelsetRefreshStatusFunc
    (threatIntelSetID detectorID : string)
    : Prog (option guardduty.GetThreatIntelSetOutput.t * string * option error) :=
  let input :=
    {| guardduty.GetThreatIntelSetInput.DetectorId := detectorID;
       guardduty.GetThreatIntelSetInput.ThreatIntelSetId := threatIntelSetID |} in
  r ← call (GetThreatIntelSetWithContext input);
  match r with
  | Fail err => Ret (None, "failed", Some (AwsError err))
  | Ok resp =>
      status ← deref (guardduty.GetThreatIntelSetOutput.Status resp);
      Ret (Some resp, status, None)
  end.

(** The [stateConf] of [resourceThreatIntelSetCreate], but for its
    [Refresh]. *)
Definition createStateConf : retry.StateChangeConf :=
  {| retry.Pending := [guardduty.ThreatIntelSetStatusActivating;
                       guardduty.ThreatIntelSetStatusDeactivating];
     retry.Target := [guardduty.ThreatIntelSetStatusActive;
                      guardduty.ThreatIntelSetStatusInactive];
     retry.Timeout := 5 * retry.Minute;
     retry.MinTimeout := 3 * retry.Second |}.

(** The [stateConf] of [resourceThreatIntelSetDelete], but for its
    [Refresh]. *)
Definition deleteStateConf : retry.StateChangeConf :=
  {| retry.Pending := [guardduty.ThreatIntelSetStatusActive;
                       guardduty.ThreatIntelSetStatusActivating;
                       guardduty.ThreatIntelSetStatusInactive;
                       guardduty.ThreatIntelSetStatusDeactivating;
                       guardduty.ThreatIntelSetStatusDeletePending];
     retry.Target := [guardduty.ThreatIntelSetStatusDeleted];
     retry.Timeout := 5 * retry.Minute;
     retry.MinTimeout := 3 * retry.Second |}.

Definition threatIntelSetNotOwned : string :=
  "The request is rejected because the input detectorId is not owned by the current account.".

Definition resourceThreatIntelSetRead (d : ResourceData) (meta : AWSClient)
    : Prog (ResourceData * Diagnostics) :=
  let diags : Diagnostics := [] in
  let defaultTagsConfig := DefaultTagsConfig meta in
  let ignoreTagsConfig := IgnoreTagsConfig meta in
  let '(threatIntelSetId, detectorId, err) := DecodeThreatIntelSetID (Id d) in
  match err with
  | Some err =>
      Ret (d, AppendErrorf diags
                "reading GuardDuty Threat Intel Set (%s): %s"
                [ArgS (Id d); ArgE err])
  | None =>
      let input :=
        {| guardduty.GetThreatIntelSetInput.DetectorId := detectorId;
           guardduty.GetThreatIntelSetInput.ThreatIntelSetId := threatIntelSetId |} in
      r ← call (GetThreatIntelSetWithContext input);
      match r with
      | Fail err =>
          if tfawserr.ErrMessageContains (Some (AwsError err))
               guardduty.ErrCodeBadRequestException threatIntelSetNotOwned
          then Ret (SetId d "", diags)
          else Ret (d, AppendErrorf diags
                         "reading GuardDuty Threat Intel Set (%s): %s"
                         [ArgS (Id d); ArgE (AwsError err)])
      | Ok resp =>
          let arn :=
            ARNString (Partition meta) "guardduty" (Region meta)
              (AccountID meta)
              ("detector/" +:+ detectorId +:+ "/threatintelset/"
               +:+ threatIntelSetId) in
          let d := SetAttr d "arn" (Some (VString arn)) in
          let d := SetAttr d "detector_id" (Some (VString detectorId)) in
          let d := SetAttr d "format"
                     (VString <$> guardduty.GetThreatIntelSetOutput.Format resp) in
          let d := SetAttr d "location"
                     (VString <$> guardduty.GetThreatIntelSetOutput.Location resp) in
          let d := SetAttr d "name"
                     (VString <$> guardduty.GetThreatIntelSetOutput.Name resp) in
          let d := SetAttr d "activate"
                     (Some (VBool
                        (String.eqb
                           (StringValue (guardduty.GetThreatIntelSetOutput.Status resp))
                           guardduty.ThreatIntelSetStatusActive))) in
          let tags :=
            tftags.IgnoreConfig ignoreTagsConfig
              (tftags.IgnoreAWS (guardduty.GetThreatIntelSetOutput.Tags resp)) in
          let d := SetAttr d "tags"
                     (Some (VMap (tftags.RemoveDefaultConfig defaultTagsConfig tags))) in
          let d := SetAttr d "tags_all" (Some (VMap tags)) in
          Ret (d, diags)
      end
  end.

Definition resourceThreatIntelSetCreate (d : ResourceData) (meta : AWSClient)
    : Prog (ResourceData * Diagnostics) :=
  let diags : Diagnostics := [] in
  let defaultTagsConfig := DefaultTagsConfig meta in
  let tags := tftags.MergeTags defaultTagsConfig (GetMap d "tags") in
  let detectorID := GetString d "detector_id" in
  let name := GetString d "name" in
  let input :=
    {| guardduty.CreateThreatIntelSetInput.DetectorId := detectorID;
       guardduty.CreateThreatIntelSetInput.Name := name;
       guardduty.CreateThreatIntelSetInput.Format := GetString d "format";
       guardduty.CreateThreatIntelSetInput.Location := GetString d "location";
       guardduty.CreateThreatIntelSetInput.Activate := GetBool d "activate";
       guardduty.CreateThreatIntelSetInput.Tags :=
         if Nat.ltb 0 (size tags) then Some (tftags.IgnoreAWS tags) else None |} in
  r ← call (CreateThreatIntelSetWithContext input);
  match r with
  | Fail err =>
      Ret (d, AppendErrorf diags "creating GuardDuty Threat Intel Set (%s): %s"
                [ArgS name; ArgE (AwsError err)])
  | Ok resp =>
      threatIntelSetId ←
        deref (guardduty.CreateThreatIntelSetOutput.ThreatIntelSetId resp);
      let stateConf := createStateConf in
      w ← retry.WaitForStateContext stateConf
            (threatintelsetRefreshStatusFunc threatIntelSetId detectorID);
      match w.2 with
      | Some err =>
          Ret (d, AppendErrorf diags
                    "creating GuardDuty Threat Intel Set (%s): waiting for completion: %s"
                    [ArgS name; ArgE err])
      | None =>
          let d :=
            SetId d
              (EncodeThreatIntelSetID detectorID
                 (StringValue
                    (guardduty.CreateThreatIntelSetOutput.ThreatIntelSetId resp))) in
          x ← resourceThreatIntelSetRead d meta;
          Ret (x.1, diags ++ x.2)
      end
  end.

Definition resourceThreatIntelSetUpdate (d : ResourceData) (meta : AWSClient)
    : Prog (ResourceData * Diagnostics) :=
  let diags : Diagnostics := [] in
  let '(threatIntelSetID, detectorId, err) := DecodeThreatIntelSetID (Id d) in
  match err with
  | Some err =>
      Ret (d, AppendErrorf diags
                "updating GuardDuty Threat Intel Set (%s): %s"
                [ArgS (Id d); ArgE err])
  | None =>
      let tagsAndRead : Prog (ResourceData * Diagnostics) :=
        err ← (if HasChange d "tags_all" then
                 let '(o, n) := GetChange d "tags_all" in
                 r ← call (UpdateTags GuardDuty (GetString d "arn")
                             (mapOf o) (mapOf n));
                 Ret (match r with Ok _ => None | Fail err => Some err end)
               else Ret None);
        match err with
        | Some err =>
            Ret (d, AppendErrorf diags
                      "updating GuardDuty Threat Intel Set (%s): setting tags: %s"
                      [ArgS (Id d); ArgE err])
        | None =>
            x ← resourceThreatIntelSetRead d meta;
            Ret (x.1, diags ++ x.2)
        end in
      if HasChanges d ["activate"; "location"; "name"] then
        let input :=
          {| guardduty.UpdateThreatIntelSetInput.DetectorId := detectorId;
             guardduty.UpdateThreatIntelSetInput.ThreatIntelSetId := threatIntelSetID;
             guardduty.UpdateThreatIntelSetInput.Name :=
               if HasChange d "name" then Some (GetString d "name") else None;
             guardduty.UpdateThreatIntelSetInput.Location :=
               if HasChange d "location" then Some (GetString d "location")
               else None;
             guardduty.UpdateThreatIntelSetInput.Activate :=
               if HasChange d "activate" then Some (GetBool d "activate")
               else None |} in
        r ← call (UpdateThreatIntelSetWithContext input);
        match r with
        | Fail err =>
            Ret (d, AppendErrorf diags
                      "updating GuardDuty Threat Intel Set (%s): %s"
                      [ArgS (Id d); ArgE (AwsError err)])
        | Ok _ => tagsAndRead
        end
      else tagsAndRead
  end.

(** The format ["waiting for GuardDuty ThreatIntelSet status to be
    \"%s\": %s"] of the delete handler. *)
Definition waitingForStatusFormat : string :=
  "waiting for GuardDuty ThreatIntelSet status to be "
  +:+ String (ascii_of_nat 34) "%s" +:+ String (ascii_of_nat 34) ": %s".

Definition resourceThreatIntelSetDelete (d : ResourceData) (meta : AWSClient)
    : Prog (ResourceData * Diagnostics) :=
  let diags : Diagnostics := [] in
  let '(threatIntelSetID, detectorId, err) := DecodeThreatIntelSetID (Id d) in
  match err with
  | Some err =>
      Ret (d, AppendErrorf diags
                "deleting GuardDuty Threat Intel Set (%s): %s"
                [ArgS (Id d); ArgE err])
  | None =>
      let input :=
        {| guardduty.DeleteThreatIntelSetInput.DetectorId := detectorId;
           guardduty.DeleteThreatIntelSetInput.ThreatIntelSetId := threatIntelSetID |} in
      r ← call (DeleteThreatIntelSetWithContext input);
      match r with
      | Fail err =>
          Ret (d, AppendErrorf diags
                    "deleting GuardDuty Threat Intel Set (%s): %s"
                    [ArgS (Id d); ArgE (AwsError err)])
      | Ok _ =>
          let stateConf := deleteStateConf in
          w ← retry.WaitForStateContext stateConf
                (threatintelsetRefreshStatusFunc threatIntelSetID detectorId);
          match w.2 with
          | Some err =>
              Ret (d, AppendErrorf diags
                        waitingForStatusFormat
                        [ArgS guardduty.ThreatIntelSetStatusDeleted; ArgE err])
          | None => Ret (d, diags)
          end
      end
  end.

(** ** EMR studio *)

Section StudioHandlers.

(** [propagationTimeout], a constant of the package. *)
Variable propagationTimeout : Z.

(** The request of [resourceStudioCreate]. *)
Definition createStudioInput (d : ResourceData) (meta : AWSClient)
    : emr.CreateStudioInput.t :=
  let defaultTagsConfig := DefaultTagsConfig meta in
  let tags := tftags.MergeTags defaultTagsConfig (GetMap d "tags") in
  {| emr.CreateStudioInput.AuthMode := GetString d "auth_mode";
     emr.CreateStudioInput.DefaultS3Location := GetString d "default_s3_location";
     emr.CreateStudioInput.EngineSecurityGroupId :=
       GetString d "engine_security_group_id";
     emr.CreateStudioInput.Name := GetString d "name";
     emr.CreateStudioInput.ServiceRole := GetString d "service_role";
     emr.CreateStudioInput.SubnetIds := elements (GetSet d "subnet_ids");
     emr.CreateStudioInput.VpcId := GetString d "vpc_id";
     emr.CreateStudioInput.WorkspaceSecurityGroupId :=
       GetString d "workspace_security_group_id";
     emr.CreateStudioInput.Description :=
       match GetOk d "description" with
       | Some _ => Some (GetString d "description")
       | None => None
       end;
     emr.CreateStudioInput.IdpAuthUrl :=
       match GetOk d "idp_auth_url" with
       | Some _ => Some (GetString d "idp_auth_url")
       | None => None
       end;
     emr.CreateStudioInput.IdpRelayStateParameterName :=
       match GetOk d "idp_relay_state_parameter_name" with
       | Some _ => Some (GetString d "idp_relay_state_parameter_name")
       | None => None
       end;
     emr.CreateStudioInput.UserRole :=
       match GetOk d "user_role" with
       | Some _ => Some (GetString d "user_role")
       | None => None
       end;
     emr.CreateStudioInput.Tags :=
       if Nat.ltb 0 (size tags) then Some (tftags.IgnoreAWS tags) else None |}.

Definition resourceStudioRead (d : ResourceData) (meta : AWSClient)
    : Prog (ResourceData * Diagnostics) :=
  let diags : Diagnostics := [] in
  let defaultTagsConfig := DefaultTagsConfig meta in
  let ignoreTagsConfig := IgnoreTagsConfig meta in
  r ← call (FindStudioByID (Id d));
  let '(studio, err) :=
    match r with
    | Ok studio => (Some studio, None)
    | Fail err => (None, Some err)
    end in
  if negb (IsNewResource d) && tfresource.NotFound err then
    Ret (SetId d "", diags)
  else
    match err with
    | Some err =>
        Ret (d, AppendErrorf diags "reading EMR Studio (%s): %s"
                  [ArgS (Id d); ArgE err])
    | None =>
        studio ← deref studio;
        let d := SetAttr d "arn" (VString <$> emr.Studio.StudioArn studio) in
        let d := SetAttr d "auth_mode" (VString <$> emr.Studio.AuthMode studio) in
        let d := SetAttr d "default_s3_location"
                   (VString <$> emr.Studio.DefaultS3Location studio) in
        let d := SetAttr d "description"
                   (VString <$> emr.Studio.Description studio) in
        let d := SetAttr d "engine_security_group_id"
                   (VString <$> emr.Studio.EngineSecurityGroupId studio) in
        let d := SetAttr d "idp_auth_url"
                   (VString <$> emr.Studio.IdpAuthUrl studio) in
        let d := SetAttr d "idp_relay_state_parameter_name"
                   (VString <$> emr.Studio.IdpRelayStateParameterName studio) in
        let d := SetAttr d "name" (VString <$> emr.Studio.Name studio) in
        let d := SetAttr d "service_role"
                   (VString <$> emr.Studio.ServiceRole studio) in
        let d := SetAttr d "url" (VString <$> emr.Studio.Url studio) in
        let d := SetAttr d "user_role" (VString <$> emr.Studio.UserRole studio) in
        let d := SetAttr d "vpc_id" (VString <$> emr.Studio.VpcId studio) in
        let d := SetAttr d "workspace_security_group_id"
                   (VString <$> emr.Studio.WorkspaceSecurityGroupId studio) in
        let d := SetAttr d "subnet_ids"
                   (Some (VSet (list_to_set (emr.Studio.SubnetIds studio)))) in
        let tags :=
          tftags.IgnoreConfig ignoreTagsConfig
            (tftags.IgnoreAWS (emr.Studio.Tags studio)) in
        let d := SetAttr d "tags"
                   (Some (VMap (tftags.RemoveDefaultConfig defaultTagsConfig tags))) in
        let d := SetAttr d "tags_all" (Some (VMap tags)) in
        Ret (d, diags)
    end.

Definition studioNoAssumeRole : string :=
  "entity does not have permissions to assume role".

Definition studioNoAccess : string :=
  "Service role does not have permission to access".

Definition resourceStudioCreate (d : ResourceData) (meta : AWSClient)
    : Prog (ResourceData * Diagnostics) :=
  let diags : Diagnostics := [] in
  let input := createStudioInput d meta in
  x ← retry.RetryContext propagationTimeout
        (fun result : option emr.CreateStudioOutput.t =>
           r ← call (CreateStudioWithContext input);
           let '(result, err) := unpack r in
           if tfawserr.ErrMessageContains err
                emr.ErrCodeInvalidRequestException studioNoAssumeRole
           then Ret (result, retry.RetryableError err)
           else if tfawserr.ErrMessageContains err
                     emr.ErrCodeInvalidRequestException studioNoAccess
           then Ret (result, retry.RetryableError err)
           else match err with
                | Some _ => Ret (result, retry.NonRetryableError err)
                | None => Ret (result, None)
                end)
        None;
  let '(result, err) := x in
  x ← (if tfresource.TimedOut err then
         r ← call (CreateStudioWithContext input); Ret (unpack r)
       else Ret (result, err));
  let '(result, err) := x in
  match err with
  | Some err => Ret (d, AppendErrorf diags "creating EMR Studio: %s" [ArgE err])
  | None =>
      result ← deref result;
      let d := SetId d (StringValue (emr.CreateStudioOutput.StudioId result)) in
      x ← resourceStudioRead d meta;
      Ret (x.1, diags ++ x.2)
  end.

Definition resourceStudioUpdate (d : ResourceData) (meta : AWSClient)
    : Prog (ResourceData * Diagnostics) :=
  let diags : Diagnostics := [] in
  let input : option emr.UpdateStudioInput.t :=
    if HasChangesExcept d ["tags"; "tags_all"] then
      Some
        {| emr.UpdateStudioInput.StudioId := Id d;
           emr.UpdateStudioInput.Description :=
             if HasChange d "description" then Some (GetString d "description")
             else None;
           emr.UpdateStudioInput.Name :=
             if HasChange d "name" then Some (GetString d "name") else None;
           emr.UpdateStudioInput.DefaultS3Location :=
             if HasChange d "default_s3_location"
             then Some (GetString d "default_s3_location") else None;
           emr.UpdateStudioInput.SubnetIds :=
             if HasChange d "subnet_ids"
             then Some (elements (GetSet d "subnet_ids")) else None |}
    else None in
  err ← (if HasChange d "tags_all" then
           let '(o, n) := GetChange d "tags_all" in
           r ← call (UpdateTags EMR (Id d) (mapOf o) (mapOf n));
           Ret (match r with Ok _ => None | Fail err => Some err end)
         else Ret None);
  match err with
  | Some err =>
      Ret (d, AppendErrorf diags "updating EMR Studio (%s) tags: %s"
                [ArgS (Id d); ArgE err])
  | None =>
      x ← resourceStudioRead d meta;
      Ret (x.1, diags ++ x.2)
  end.

Definition resourceStudioDelete (d : ResourceData) (meta : AWSClient)
    : Prog (ResourceData * Diagnostics) :=
  let diags : Diagnostics := [] in
  let request := {| emr.DeleteStudioInput.StudioId := Id d |} in
  r ← call (DeleteStudioWithContext request);
  let '(_, err) := unpack r in
  match err with
  | Some e =>
      if tfawserr.ErrCodeEquals err emr.ErrCodeInternalServerException then
        Ret (d, diags)
      else
        Ret (d, AppendErrorf diags "deleting EMR Studio (%s): %s"
                  [ArgS (Id d); ArgE e])
  | None => Ret (d, diags)
  end.

End StudioHandlers.

(** ** SSM activation *)

Section ActivationHandlers.

(** [propagationTimeout], a constant of the package. *)
Variable propagationTimeout : Z.

(** The request of [resourceActivationCreate]: the literal, then the
    assignments in the order of the source. *)
Definition createActivationInput (d : ResourceData) (meta : AWSClient)
    : ssm.CreateActivationInput.t :=
  let defaultTagsConfig := DefaultTagsConfig meta in
  let tags := tftags.MergeTags defaultTagsConfig (GetMap d "tags") in
  let activationInput :=
    {| ssm.CreateActivationInput.IamRole := GetString d "name";
       ssm.CreateActivationInput.DefaultInstanceName := None;
       ssm.CreateActivationInput.Description := None;
       ssm.CreateActivationInput.ExpirationDate := None;
       ssm.CreateActivationInput.RegistrationLimit := None;
       ssm.CreateActivationInput.Tags := None |} in
  let activationInput :=
    match GetOk d "name" with
    | Some _ =>
        ssm.CreateActivationInput.setDefaultInstanceName activationInput
          (GetString d "name")
    | None => activationInput
    end in
  let activationInput :=
    match GetOk d "description" with
    | Some _ =>
        ssm.CreateActivationInput.setDescription activationInput
          (GetString d "description")
    | None => activationInput
    end in
  let activationInput :=
    match GetOk d "expiration_date" with
    | Some v =>
        let t := time.Parse (match v with VString s => s | _ => "" end) in
        ssm.CreateActivationInput.setExpirationDate activationInput t
    | None => activationInput
    end in
  let activationInput :=
    match GetOk d "iam_role" with
    | Some _ =>
        ssm.CreateActivationInput.setIamRole activationInput
          (GetString d "iam_role")
    | None => activationInput
    end in
  let activationInput :=
    match GetOk d "registration_limit" with
    | Some _ =>
        ssm.CreateActivationInput.setRegistrationLimit activationInput
          (GetInt d "registration_limit")
    | None => activationInput
    end in
  if Nat.ltb 0 (size tags) then
    ssm.CreateActivationInput.setTags activationInput (tftags.IgnoreAWS tags)
  else activationInput.

Definition resourceActivationRead (d : ResourceData) (meta : AWSClient)
    : Prog (ResourceData * Diagnostics) :=
  let diags : Diagnostics := [] in
  let defaultTagsConfig := DefaultTagsConfig meta in
  let ignoreTagsConfig := IgnoreTagsConfig meta in
  let params :=
    {| ssm.DescribeActivationsInput.Filters :=
         [{| ssm.DescribeActivationsFilter.FilterKey := "ActivationIds";
             ssm.DescribeActivationsFilter.FilterValues := [Id d] |}];
       ssm.DescribeActivationsInput.MaxResults := 1 |} in
  r ← call (DescribeActivationsWithContext params);
  match r with
  | Fail err =>
      Ret (d, AppendErrorf diags "reading SSM activation: %s"
                [ArgE (AwsError err)])
  | Ok resp =>
      if negb (IsNewResource d)
         && Nat.eqb
              (List.length (ssm.DescribeActivationsOutput.ActivationList resp)) 0
      then Ret (SetId d "", diags)
      else
        activation ← index (ssm.DescribeActivationsOutput.ActivationList resp) 0;
        let d := SetAttr d "name"
                   (VString <$> ssm.Activation.DefaultInstanceName activation) in
        let d := SetAttr d "description"
                   (VString <$> ssm.Activation.Description activation) in
        let d := SetAttr d "expiration_date"
                   (Some (VString
                      (time.Format
                         (default time.zero
                            (ssm.Activation.ExpirationDate activation))))) in
        let d := SetAttr d "expired"
                   (VBool <$> ssm.Activation.Expired activation) in
        let d := SetAttr d "iam_role"
                   (VString <$> ssm.Activation.IamRole activation) in
        let d := SetAttr d "registration_limit"
                   (VInt <$> ssm.Activation.RegistrationLimit activation) in
        let d := SetAttr d "registration_count"
                   (VInt <$> ssm.Activation.RegistrationsCount activation) in
        let tags :=
          tftags.IgnoreConfig ignoreTagsConfig
            (tftags.IgnoreAWS (ssm.Activation.Tags activation)) in
        let d := SetAttr d "tags"
                   (Some (VMap (tftags.RemoveDefaultConfig defaultTagsConfig tags))) in
        let d := SetAttr d "tags_all" (Some (VMap tags)) in
        Ret (d, diags)
  end.

Definition activationNotExistingRole : string := "Not existing role".

Definition resourceActivationCreate (d : ResourceData) (meta : AWSClient)
    : Prog (ResourceData * Diagnostics) :=
  let diags : Diagnostics := [] in
  let activationInput := createActivationInput d meta in
  x ← retry.RetryContext propagationTimeout
        (fun resp : option ssm.CreateActivationOutput.t =>
           r ← call (CreateActivationWithContext activationInput);
           let '(resp, err) := unpack r in
           if tfawserr.ErrMessageContains err
                "ValidationException" activationNotExistingRole
           then Ret (resp, retry.RetryableError err)
           else match err with
                | Some _ => Ret (resp, retry.NonRetryableError err)
                | None => Ret (resp, None)
                end)
        None;
  let '(resp, err) := x in
  x ← (if tfresource.TimedOut err then
         r ← call (CreateActivationWithContext activationInput); Ret (unpack r)
       else Ret (resp, err));
  let '(resp, err) := x in
  match err with
  | Some err =>
      Ret (d, AppendErrorf diags "creating SSM activation: %s" [ArgE err])
  | None =>
      resp ← deref resp;
      match ssm.CreateActivationOutput.ActivationId resp with
      | None => Ret (d, AppendErrorf diags "ActivationId was nil" [])
      | Some activationId =>
          let d := SetId d activationId in
          let d := SetAttr d "activation_code"
                     (VString <$> ssm.CreateActivationOutput.ActivationCode resp) in
          x ← resourceActivationRead d meta;
          Ret (x.1, diags ++ x.2)
      end
  end.

Definition resourceActivationDelete (d : ResourceData) (meta : AWSClient)
    : Prog (ResourceData * Diagnostics) :=
  let diags : Diagnostics := [] in
  let params := {| ssm.DeleteActivationInput.ActivationId := Id d |} in
  r ← call (DeleteActivationWithContext params);
  match r with
  | Fail err =>
      Ret (d, AppendErrorf diags "deleting SSM activation: %s"
                [ArgE (AwsError err)])
  | Ok _ => Ret (d, diags)
  end.

End ActivationHandlers.

(** ** The three handlers side by side *)

Inductive Handler :=
| ThreatIntelSetResource
| StudioResource
| ActivationResource.

Definition resourceRead (h : Handler) (d : ResourceData) (meta : AWSClient)
    : Prog (ResourceData * Diagnostics) :=
  match h with
  | ThreatIntelSetResource => resourceThreatIntelSetRead d meta
  | StudioResource => resourceStudioRead d meta
  | ActivationResource => resourceActivationRead d meta
  end.

Definition resourceDelete (h : Handler) (d : ResourceData) (meta : AWSClient)
    : Prog (ResourceData * Diagnostics) :=
  match h with
  | ThreatIntelSetResource => resourceThreatIntelSetDelete d meta
  | StudioResource => resourceStudioDelete d meta
  | ActivationResource => resourceActivationDelete d meta
  end.

(** The error of an exchange that failed. *)
Definition failure (ev : Event) : option error :=
  match ev with
  | Ev c r =>
      match c return Resp c -> option error with
      | FindStudioByID _ | UpdateTags _ _ _ _ =>
          fun r => match r with Fail e => Some e | Ok _ => None end
      | _ =>
          fun r => match r with Fail e => Some (AwsError e) | Ok _ => None end
      end r
  end.

(** The "not found" answer each read handler looks for: the rejected
    detector of GuardDuty, the finder's [NotFoundError], the empty list of
    activations. *)
Definition notFound (ev : Event) : bool :=
  match ev with
  | Ev c r =>
      match c return Resp c -> bool with
      | GetThreatIntelSetWithContext _ =>
          fun r =>
            match r with
            | Fail e =>
                tfawserr.ErrMessageContains (Some (AwsError e))
                  guardduty.ErrCodeBadRequestException threatIntelSetNotOwned
            | Ok _ => false
            end
      | FindStudioByID _ =>
          fun r =>
            match r with
            | Fail e => tfresource.NotFound (Some e)
            | Ok _ => false
            end
      | DescribeActivationsWithContext _ =>
          fun r =>
            match r with
            | Ok resp =>
                Nat.eqb
                  (List.length (ssm.DescribeActivationsOutput.ActivationList resp))
                  0
            | Fail _ => false
            end
      | _ => fun _ => false
      end r
  end.

(** The patterns the create handlers retry on. *)
Definition studioRetryable (e : awserr) : bool :=
  tfawserr.ErrMessageContains (Some (AwsError e))
    emr.ErrCodeInvalidRequestException studioNoAssumeRole
  || tfawserr.ErrMessageContains (Some (AwsError e))
       emr.ErrCodeInvalidRequestException studioNoAccess.

Definition activationRetryable (e : awserr) : bool :=
  tfawserr.ErrMessageContains (Some (AwsError e))
    "ValidationException" activationNotExistingRole.

(** The attempts that fit into the window of [retry.RetryContext]: one at
    the start and one after every further 500 milliseconds of [timeout]. *)
Definition attempts (timeout : Z) : nat :=
  retry.polls
    {| retry.Pending := ["retryableerror"]; retry.Target := ["success"];
       retry.Timeout := timeout;
       retry.MinTimeout := 500 * retry.Millisecond |}.

(** An error diagnostic. *)
Definition errorDiag (format : string) (a : list fmtArg) : Diagnostic :=
  {| DiagSeverity := SevError; Format := format; Args := a |}.

(** ** Services and resources to run the handlers on *)

(** A service that accepts everything and remembers nothing. *)
Definition agreeable : Remote unit :=
  {| respond := fun c _ =>
       (match c return Resp c with
        | CreateThreatIntelSetWithContext _ =>
            Ok {| guardduty.CreateThreatIntelSetOutput.ThreatIntelSetId := None |}
        | GetThreatIntelSetWithContext _ =>
            Ok {| guardduty.GetThreatIntelSetOutput.Format := None;
                  guardduty.GetThreatIntelSetOutput.Location := None;
                  guardduty.GetThreatIntelSetOutput.Name := None;
                  guardduty.GetThreatIntelSetOutput.Status := None;
                  guardduty.GetThreatIntelSetOutput.Tags := ∅ |}
        | UpdateThreatIntelSetWithContext _ => Ok tt
        | DeleteThreatIntelSetWithContext _ => Ok tt
        | CreateStudioWithContext _ =>
            Ok {| emr.CreateStudioOutput.StudioId := None;
                  emr.CreateStudioOutput.Url := None |}
        | FindStudioByID _ => Fail (NotFoundError "")
        | UpdateStudioWithContext _ => Ok tt
        | DeleteStudioWithContext _ => Ok tt
        | CreateActivationWithContext _ =>
            Ok {| ssm.CreateActivationOutput.ActivationCode := None;
                  ssm.CreateActivationOutput.ActivationId := None |}
        | DescribeActivationsWithContext _ =>
            Ok {| ssm.DescribeActivationsOutput.ActivationList := [] |}
        | DeleteActivationWithContext _ => Ok tt
        | UpdateTags _ _ _ _ => Ok tt
        end, tt) |}.

Definition emptyClient : AWSClient :=
  {| DefaultTagsConfig := ∅;
     IgnoreTagsConfig := {| tftags.Keys := []; tftags.KeyPrefixes := [] |};
     Partition := "aws"; Region := "eu-west-1"; AccountID := "123456789012" |}.

Definition resourceWithId (id : string) (isNew : bool) : ResourceData :=
  {| Id := id; IsNewResource := isNew; state := ∅; attrs := ∅ |}.

(** A service that fails every call with the same error. *)
Definition rejecting (e : awserr) : Remote unit :=
  {| respond := fun c _ =>
       (match c return Resp c with
        | FindStudioByID _ => Fail (AwsError e)
        | UpdateTags _ _ _ _ => Fail (AwsError e)
        | CreateThreatIntelSetWithContext _ => Fail e
        | GetThreatIntelSetWithContext _ => Fail e
        | UpdateThreatIntelSetWithContext _ => Fail e
        | DeleteThreatIntelSetWithContext _ => Fail e
        | CreateStudioWithContext _ => Fail e
        | UpdateStudioWithContext _ => Fail e
        | DeleteStudioWithContext _ => Fail e
        | CreateActivationWithContext _ => Fail e
        | DescribeActivationsWithContext _ => Fail e
        | DeleteActivationWithContext _ => Fail e
        end, tt) |}.

(** A service that fails its successive calls with the errors of [errs],
    one after the other, and every further call with [last]; its state
    counts the calls. *)
Definition failingInTurn (errs : list awserr) (last : awserr) : Remote nat :=
  {| respond := fun c n =>
       ((respond (rejecting (nth n errs last)) c tt).1, S n) |}.

(** The description of a threat intel set that has the status [st]. *)
Definition statusOutput (st : string) : guardduty.GetThreatIntelSetOutput.t :=
  {| guardduty.GetThreatIntelSetOutput.Format := None;
     guardduty.GetThreatIntelSetOutput.Location := None;
     guardduty.GetThreatIntelSetOutput.Name := None;
     guardduty.GetThreatIntelSetOutput.Status := Some st;
     guardduty.GetThreatIntelSetOutput.Tags := ∅ |}.

(** A GuardDuty service that reports the statuses [obs 0], [obs 1], ... to
    the successive reads of a threat intel set, and accepts every other
    call; its state counts the reads. *)
Definition observe (obs : nat -> string) : Remote nat :=
  {| respond := fun c n =>
       match c return Resp c * nat with
       | GetThreatIntelSetWithContext _ =>
           (Ok (statusOutput (obs n)), S n)
       | CreateThreatIntelSetWithContext _ =>
           (Ok {| guardduty.CreateThreatIntelSetOutput.ThreatIntelSetId :=
                    Some "tis1" |}, n)
       | c' => ((respond agreeable c' tt).1, n)
       end |}.

(** A studio whose name changes from "old" to "new" and nothing else. *)
Definition renamedStudio : ResourceData :=
  {| Id := "es-1"; IsNewResource := false;
     state := {[ "name" := VString "old" ]};
     attrs := {[ "name" := VString "new" ]} |}.

(** A delete handler polls when, for some resource and some service, it
    makes a further call after the delete call. *)
Definition deletePolls (h : Handler) : Prop :=
  exists (d : ResourceData) (meta : AWSClient) (srv : Remote nat) (s : nat),
    (1 < List.length (run srv (resourceDelete h d meta) s).2)%nat.

(** The call is none of the update calls of the EMR API. *)
Definition notUpdateStudio (c : Call) : Prop :=
  match c with
  | UpdateStudioWithContext _ => False
  | _ => True
  end.

(** The error GuardDuty answers for a detector that is gone. *)
Definition detectorNotOwned : awserr :=
  {| Code := guardduty.ErrCodeBadRequestException;
     Message := threatIntelSetNotOwned |}.

(** Errors of the services, for running the handlers. *)
Definition roleNotReady : awserr :=
  {| Code := emr.ErrCodeInvalidRequestException;
     Message := "Service role does not have permission to access the bucket" |}.

Definition accessDenied : awserr :=
  {| Code := "AccessDeniedException"; Message := "not authorized" |}.

Definition notExistingRole : awserr :=
  {| Code := "ValidationException"; Message := "Not existing role: r" |}.

Definition internalServerError : awserr :=
  {| Code := emr.ErrCodeInternalServerException; Message := "gone" |}.

(** The one remote error a delete handler drops: the studio's, on the error
    code [InternalServerException]. *)
Definition swallowed (h : Handler) (err : error) : bool :=
  match h with
  | StudioResource =>
      tfawserr.ErrCodeEquals (Some err) emr.ErrCodeInternalServerException
  | _ => false
  end.

(** The exchanges of [n] successive status reads of a threat intel set
    against [observe obs], the first of them being read number [k]. *)
Fixpoint reads (threatIntelSetID detectorID : string) (obs : nat -> string)
    (k n : nat) : list Event :=
  match n with
  | O => []
  | S n' =>
      Ev (GetThreatIntelSetWithContext
            {| guardduty.GetThreatIntelSetInput.DetectorId := detectorID;
               guardduty.GetThreatIntelSetInput.ThreatIntelSetId :=
                 threatIntelSetID |})
         (Ok (statusOutput (obs k)))
      :: reads threatIntelSetID detectorID obs (S k) n'
  end.

(** No status is both pending and a target. *)
Definition disjointStates (conf : retry.StateChangeConf) : Prop :=
  forall st : string,
    In st (retry.Pending conf) -> ~ In st (retry.Target conf).

(** The statuses ACTIVATING, ACTIVATING, ACTIVE, ACTIVE, ... of a threat
    intel set that becomes active at the third read. *)
Definition activeAtThirdRead (k : nat) : string :=
  if Nat.ltb k 2 then guardduty.ThreatIntelSetStatusActivating
  else guardduty.ThreatIntelSetStatusActive.

(** The statuses of a threat intel set whose deletion never completes. *)
Definition deletePendingForever (k : nat) : string :=
  guardduty.ThreatIntelSetStatusDeletePending.

(** What the echoing service has stored: the requests it was created with. *)
Record Stored := {
  storedThreatIntelSet : option guardduty.CreateThreatIntelSetInput.t;
  storedStudio : option emr.CreateStudioInput.t;
  storedActivation : option ssm.CreateActivationInput.t
}.

Definition nothingStored : Stored :=
  {| storedThreatIntelSet := None; storedStudio := None;
     storedActivation := None |}.

(** The threat intel set the echoing service describes for a request: the
    submitted values, and the status that the submitted activation flag
    leads to. *)
Definition echoThreatIntelSet (x : guardduty.CreateThreatIntelSetInput.t)
    : guardduty.GetThreatIntelSetOutput.t :=
  {| guardduty.GetThreatIntelSetOutput.Format :=
       Some (guardduty.CreateThreatIntelSetInput.Format x);
     guardduty.GetThreatIntelSetOutput.Location :=
       Some (guardduty.CreateThreatIntelSetInput.Location x);
     guardduty.GetThreatIntelSetOutput.Name :=
       Some (guardduty.CreateThreatIntelSetInput.Name x);
     guardduty.GetThreatIntelSetOutput.Status :=
       Some (if guardduty.CreateThreatIntelSetInput.Activate x
             then guardduty.ThreatIntelSetStatusActive
             else guardduty.ThreatIntelSetStatusInactive);
     guardduty.GetThreatIntelSetOutput.Tags :=
       default ∅ (guardduty.CreateThreatIntelSetInput.Tags x) |}.

Definition echoStudio (x : emr.CreateStudioInput.t) : emr.Studio.t :=
  {| emr.Studio.AuthMode := Some (emr.CreateStudioInput.AuthMode x);
     emr.Studio.DefaultS3Location :=
       Some (emr.CreateStudioInput.DefaultS3Location x);
     emr.Studio.Description := emr.CreateStudioInput.Description x;
     emr.Studio.EngineSecurityGroupId :=
       Some (emr.CreateStudioInput.EngineSecurityGroupId x);
     emr.Studio.IdpAuthUrl := emr.CreateStudioInput.IdpAuthUrl x;
     emr.Studio.IdpRelayStateParameterName :=
       emr.CreateStudioInput.IdpRelayStateParameterName x;
     emr.Studio.Name := Some (emr.CreateStudioInput.Name x);
     emr.Studio.ServiceRole := Some (emr.CreateStudioInput.ServiceRole x);
     emr.Studio.StudioArn := Some "arn:aws:elasticmapreduce:::studio/es-1";
     emr.Studio.SubnetIds := emr.CreateStudioInput.SubnetIds x;
     emr.Studio.Tags := default ∅ (emr.CreateStudioInput.Tags x);
     emr.Studio.Url := Some "https://es-1.emrstudio-prod.amazonaws.com";
     emr.Studio.UserRole := emr.CreateStudioInput.UserRole x;
     emr.Studio.VpcId := Some (emr.CreateStudioInput.VpcId x);
     emr.Studio.WorkspaceSecurityGroupId :=
       Some (emr.CreateStudioInput.WorkspaceSecurityGroupId x) |}.

Definition echoActivation (x : ssm.CreateActivationInput.t)
    : ssm.Activation.t :=
  {| ssm.Activation.DefaultInstanceName :=
       ssm.CreateActivationInput.DefaultInstanceName x;
     ssm.Activation.Description := ssm.CreateActivationInput.Description x;
     ssm.Activation.ExpirationDate :=
       ssm.CreateActivationInput.ExpirationDate x;
     ssm.Activation.Expired := Some false;
     ssm.Activation.IamRole := Some (ssm.CreateActivationInput.IamRole x);
     ssm.Activation.RegistrationLimit :=
       ssm.CreateActivationInput.RegistrationLimit x;
     ssm.Activation.RegistrationsCount := Some 0%Z;
     ssm.Activation.Tags := default ∅ (ssm.CreateActivationInput.Tags x) |}.

(** The identifiers the echoing service hands out. *)
Definition echoThreatIntelSetId : string := "tis1".
Definition echoStudioId : string := "es-1".
Definition echoActivationId : string := "act-1".

Definition asksFor (input : ssm.DescribeActivationsInput.t) (id : string)
    : bool :=
  match ssm.DescribeActivationsInput.Filters input with
  | [f] =>
      String.eqb (ssm.DescribeActivationsFilter.FilterKey f) "ActivationIds"
      && match ssm.DescribeActivationsFilter.FilterValues f with
         | [v] => String.eqb v id
         | _ => false
         end
  | _ => false
  end.

(** A remote service that stores the values submitted on create and echoes
    them back when the resource is described. *)
Definition echo : Remote Stored :=
  {| respond := fun c st =>
       match c return Resp c * Stored with
       | CreateThreatIntelSetWithContext input =>
           (Ok {| guardduty.CreateThreatIntelSetOutput.ThreatIntelSetId :=
                    Some echoThreatIntelSetId |},
            {| storedThreatIntelSet := Some input;
               storedStudio := storedStudio st;
               storedActivation := storedActivation st |})
       | GetThreatIntelSetWithContext input =>
           match storedThreatIntelSet st with
           | Some x =>
               if String.eqb (guardduty.GetThreatIntelSetInput.DetectorId input)
                    (guardduty.CreateThreatIntelSetInput.DetectorId x)
                  && String.eqb
                       (guardduty.GetThreatIntelSetInput.ThreatIntelSetId input)
                       echoThreatIntelSetId
               then (Ok (echoThreatIntelSet x), st)
               else (Fail detectorNotOwned, st)
           | None => (Fail detectorNotOwned, st)
           end
       | CreateStudioWithContext input =>
           (Ok {| emr.CreateStudioOutput.StudioId := Some echoStudioId;
                  emr.CreateStudioOutput.Url := None |},
            {| storedThreatIntelSet := storedThreatIntelSet st;
               storedStudio := Some input;
               storedActivation := storedActivation st |})
       | FindStudioByID id =>
           match storedStudio st with
           | Some x =>
               if String.eqb id echoStudioId then (Ok (echoStudio x), st)
               else (Fail (NotFoundError "Studio does not exist"), st)
           | None => (Fail (NotFoundError "Studio does not exist"), st)
           end
       | CreateActivationWithContext input =>
           (Ok {| ssm.CreateActivationOutput.ActivationCode := Some "code";
                  ssm.CreateActivationOutput.ActivationId :=
                    Some echoActivationId |},
            {| storedThreatIntelSet := storedThreatIntelSet st;
               storedStudio := storedStudio st;
               storedActivation := Some input |})
       | DescribeActivationsWithContext input =>
           match storedActivation st with
           | Some x =>
               if asksFor input echoActivationId
               then (Ok {| ssm.DescribeActivationsOutput.ActivationList :=
                             [echoActivation x] |}, st)
               else (Ok {| ssm.DescribeActivationsOutput.ActivationList := [] |},
                     st)
           | None =>
               (Ok {| ssm.DescribeActivationsOutput.ActivationList := [] |}, st)
           end
       | c' => ((respond agreeable c' tt).1, st)
       end |}.

(** An activation with a role and an expiration date that carries a
    fraction of a second. *)
Definition activationWithFraction : ResourceData :=
  {| Id := ""; IsNewResource := true; state := ∅;
     attrs := {[ "name" := VString "web";
                 "iam_role" := VString "service-role";
                 "expiration_date" := VString "2030-01-01T00:00:00.5Z" ]} |}.

(** The same activation with the expiration date to the second. *)
Definition activationToTheSecond : ResourceData :=
  {| Id := ""; IsNewResource := true; state := ∅;
     attrs := {[ "name" := VString "web";
                 "iam_role" := VString "service-role";
                 "description" := VString "web servers";
                 "registration_limit" := VInt 5;
                 "expiration_date" := VString "2030-01-01T00:00:00Z" ]} |}.

(** An activation without a role of its own. *)
Definition activationWithoutRole : ResourceData :=
  {| Id := ""; IsNewResource := true; state := ∅;
     attrs := {[ "name" := VString "web" ]} |}.

Definition activeThreatIntelSet : ResourceData :=
  {| Id := ""; IsNewResource := true; state := ∅;
     attrs := {[ "detector_id" := VString "det";
                 "name" := VString "bad-ips";
                 "format" := VString "TXT";
                 "location" := VString "https://s3.amazonaws.com/b/ips.txt";
                 "activate" := VBool true ]} |}.

Definition taggedStudio : ResourceData :=
  {| Id := ""; IsNewResource := true; state := ∅;
     attrs := {[ "name" := VString "studio";
                 "auth_mode" := VString "SSO";
                 "default_s3_location" := VString "s3://bucket/studio";
                 "engine_security_group_id" := VString "sg-1";
                 "service_role" := VString "arn:aws:iam::123456789012:role/emr";
                 "subnet_ids" := VSet {[ "subnet-1"; "subnet-2" ]};
                 "vpc_id" := VString "vpc-1";
                 "workspace_security_group_id" := VString "sg-2";
                 "tags" := VMap {[ "team" := "data" ]} ]} |}.

Definition clientWithDefaultTags : AWSClient :=
  {| DefaultTagsConfig := {[ "env" := "prod" ]};
     IgnoreTagsConfig := {| tftags.Keys := []; tftags.KeyPrefixes := [] |};
     Partition := "aws"; Region := "eu-west-1"; AccountID := "123456789012" |}.

(** The echoing service after the tagged studio was created by a provider
    with default tags. *)
Definition taggedStudioStored : Stored :=
  {| storedThreatIntelSet := None;
     storedStudio := Some (createStudioInput taggedStudio clientWithDefaultTags);
     storedActivation := None |}.

(** ** The calls and the attributes of the handlers, spelled out *)

(** The request of [resourceThreatIntelSetUpdate]: only the attributes that
    changed are filled in. *)
Definition updateThreatIntelSetInput (d : ResourceData)
    (threatIntelSetID detectorId : string)
    : guardduty.UpdateThreatIntelSetInput.t :=
  {| guardduty.UpdateThreatIntelSetInput.DetectorId := detectorId;
     guardduty.UpdateThreatIntelSetInput.ThreatIntelSetId := threatIntelSetID;
     guardduty.UpdateThreatIntelSetInput.Name :=
       if HasChange d "name" then Some (GetString d "name") else None;
     guardduty.UpdateThreatIntelSetInput.Location :=
       if HasChange d "location" then Some (GetString d "location") else None;
     guardduty.UpdateThreatIntelSetInput.Activate :=
       if HasChange d "activate" then Some (GetBool d "activate") else None |}.

(** The tagging call of an update handler, when [tags_all] changed. *)
Definition updateTagsCalls (svc : Service) (identifier : string)
    (d : ResourceData) : list Call :=
  if HasChange d "tags_all" then
    [UpdateTags svc identifier (mapOf (GetChange d "tags_all").1)
       (mapOf (GetChange d "tags_all").2)]
  else [].

(** The calls of [resourceThreatIntelSetUpdate] when nothing fails, in
    their order: the update of the changed attributes, the update of the
    tags, the read. *)
Definition threatIntelSetUpdateCalls (d : ResourceData) : list Call :=
  let '(threatIntelSetID, detectorId, _) := DecodeThreatIntelSetID (Id d) in
  (if HasChanges d ["activate"; "location"; "name"] then
     [UpdateThreatIntelSetWithContext
        (updateThreatIntelSetInput d threatIntelSetID detectorId)]
   else [])
  ++ updateTagsCalls GuardDuty (GetString d "arn") d
  ++ [GetThreatIntelSetWithContext
        {| guardduty.GetThreatIntelSetInput.DetectorId := detectorId;
           guardduty.GetThreatIntelSetInput.ThreatIntelSetId :=
             threatIntelSetID |}].

(** The calls of [resourceStudioUpdate] when nothing fails. *)
Definition studioUpdateCalls (d : ResourceData) : list Call :=
  updateTagsCalls EMR (Id d) d ++ [FindStudioByID (Id d)].

(** No exchange of the trace failed. *)
Definition allSucceeded (t : list Event) : Prop :=
  Forall (fun ev => failure ev = None) t.

(** A sequence of [d.Set] calls. *)
Definition assign (d : ResourceData) (l : list (string * option Value))
    : ResourceData :=
  foldl (fun d kv => SetAttr d kv.1 kv.2) d l.

(** What the read of a threat intel set stores for the description [resp]
    of the set [threatIntelSetId] of the detector [detectorId]. *)
Definition threatIntelSetAttributes (meta : AWSClient)
    (threatIntelSetId detectorId : string)
    (resp : guardduty.GetThreatIntelSetOutput.t)
    : list (string * option Value) :=
  let tags :=
    tftags.IgnoreConfig (IgnoreTagsConfig meta)
      (tftags.IgnoreAWS (guardduty.GetThreatIntelSetOutput.Tags resp)) in
  [("arn",
    Some (VString
            (ARNString (Partition meta) "guardduty" (Region meta)
               (AccountID meta)
               ("detector/" +:+ detectorId +:+ "/threatintelset/"
                +:+ threatIntelSetId))));
   ("detector_id", Some (VString detectorId));
   ("format", VString <$> guardduty.GetThreatIntelSetOutput.Format resp);
   ("location", VString <$> guardduty.GetThreatIntelSetOutput.Location resp);
   ("name", VString <$> guardduty.GetThreatIntelSetOutput.Name resp);
   ("activate",
    Some (VBool
            (String.eqb
               (StringValue (guardduty.GetThreatIntelSetOutput.Status resp))
               guardduty.ThreatIntelSetStatusActive)));
   ("tags",
    Some (VMap (tftags.RemoveDefaultConfig (DefaultTagsConfig meta) tags)));
   ("tags_all", Some (VMap tags))].

(** What the read of a studio stores for the description [studio]. *)
Definition studioAttributes (meta : AWSClient) (studio : emr.Studio.t)
    : list (string * option Value) :=
  let tags :=
    tftags.IgnoreConfig (IgnoreTagsConfig meta)
      (tftags.IgnoreAWS (emr.Studio.Tags studio)) in
  [("arn", VString <$> emr.Studio.StudioArn studio);
   ("auth_mode", VString <$> emr.Studio.AuthMode studio);
   ("default_s3_location", VString <$> emr.Studio.DefaultS3Location studio);
   ("description", VString <$> emr.Studio.Description studio);
   ("engine_security_group_id",
    VString <$> emr.Studio.EngineSecurityGroupId studio);
   ("idp_auth_url", VString <$> emr.Studio.IdpAuthUrl studio);
   ("idp_relay_state_parameter_name",
    VString <$> emr.Studio.IdpRelayStateParameterName studio);
   ("name", VString <$> emr.Studio.Name studio);
   ("service_role", VString <$> emr.Studio.ServiceRole studio);
   ("url", VString <$> emr.Studio.Url studio);
   ("user_role", VString <$> emr.Studio.UserRole studio);
   ("vpc_id", VString <$> emr.Studio.VpcId studio);
   ("workspace_security_group_id",
    VString <$> emr.Studio.WorkspaceSecurityGroupId studio);
   ("subnet_ids", Some (VSet (list_to_set (emr.Studio.SubnetIds studio))));
   ("tags",
    Some (VMap (tftags.RemoveDefaultConfig (DefaultTagsConfig meta) tags)));
   ("tags_all", Some (VMap tags))].

(** What the read of an activation stores for the description
    [activation]. *)
Definition activationAttributes (meta : AWSClient)
    (activation : ssm.Activation.t) : list (string * option Value) :=
  let tags :=
    tftags.IgnoreConfig (IgnoreTagsConfig meta)
      (tftags.IgnoreAWS (ssm.Activation.Tags activation)) in
  [("name", VString <$> ssm.Activation.DefaultInstanceName activation);
   ("description", VString <$> ssm.Activation.Description activation);
   ("expiration_date",
    Some (VString
            (time.Format
               (default time.zero (ssm.Activation.ExpirationDate activation)))));
   ("expired", VBool <$> ssm.Activation.Expired activation);
   ("iam_role", VString <$> ssm.Activation.IamRole activation);
   ("registration_limit", VInt <$> ssm.Activation.RegistrationLimit activation);
   ("registration_count",
    VInt <$> ssm.Activation.RegistrationsCount activation);
   ("tags",
    Some (VMap (tftags.RemoveDefaultConfig (DefaultTagsConfig meta) tags)));
   ("tags_all", Some (VMap tags))].

(** The attributes a read handler writes. *)
Definition readKeys (h : Handler) : list string :=
  match h with
  | ThreatIntelSetResource =>
      ["arn"; "detector_id"; "format"; "location"; "name"; "activate";
       "tags"; "tags_all"]
  | StudioResource =>
      ["arn"; "auth_mode"; "default_s3_location"; "description";
       "engine_security_group_id"; "idp_auth_url";
       "idp_relay_state_parameter_name"; "name"; "service_role"; "url";
       "user_role"; "vpc_id"; "workspace_security_group_id"; "subnet_ids";
       "tags"; "tags_all"]
  | ActivationResource =>
      ["name"; "description"; "expiration_date"; "expired"; "iam_role";
       "registration_limit"; "registration_count"; "tags"; "tags_all"]
  end.

(** The request of [resourceActivationRead]. *)
Definition describeActivationsInput (id : string)
    : ssm.DescribeActivationsInput.t :=
  {| ssm.DescribeActivationsInput.Filters :=
       [{| ssm.DescribeActivationsFilter.FilterKey := "ActivationIds";
           ssm.DescribeActivationsFilter.FilterValues := [id] |}];
     ssm.DescribeActivationsInput.MaxResults := 1 |}.

(** The value an attribute holds after a sequence of [d.Set] calls, given
    the value it held before: that of the last call on this attribute. *)
Fixpoint assigned (key : string) (l : list (string * option Value))
    (before : option Value) : option Value :=
  match l with
  | [] => before
  | (k, v) :: l' => assigned key l' (if String.eqb k key then v else before)
  end.

(** The call of an exchange. *)
Definition callOf (ev : Event) : Call :=
  match ev with Ev c _ => c end.

(** The call reads a threat intel set. *)
Definition isThreatIntelSetRead (c : Call) : bool :=
  match c with
  | GetThreatIntelSetWithContext _ => true
  | _ => false
  end.

(** A threat intel set whose name changes from "old" to "new" and whose
    tags gain an entry. *)
Definition renamedThreatIntelSet : ResourceData :=
  {| Id := "det:tis1"; IsNewResource := false;
     state := {[ "name" := VString "old";
                 "arn" := VString "arn:aws:guardduty:::detector/det/threatintelset/tis1";
                 "location" := VString "https://s3.amazonaws.com/b/ips.txt" ]};
     attrs := {[ "name" := VString "new";
                 "arn" := VString "arn:aws:guardduty:::detector/det/threatintelset/tis1";
                 "location" := VString "https://s3.amazonaws.com/b/ips.txt";
                 "tags_all" := VMap {[ "team" := "data" ]} ]} |}.

(** The message of a nil pointer dereference. *)
Definition nilDereference : string :=
  "invalid memory address or nil pointer dereference".

(** The request of [resourceThreatIntelSetCreate]. *)
Definition createThreatIntelSetInput (d : ResourceData) (meta : AWSClient)
    : guardduty.CreateThreatIntelSetInput.t :=
  let tags := tftags.MergeTags (DefaultTagsConfig meta) (GetMap d "tags") in
  {| guardduty.CreateThreatIntelSetInput.DetectorId :=
       GetString d "detector_id";
     guardduty.CreateThreatIntelSetInput.Name := GetString d "name";
     guardduty.CreateThreatIntelSetInput.Format := GetString d "format";
     guardduty.CreateThreatIntelSetInput.Location := GetString d "location";
     guardduty.CreateThreatIntelSetInput.Activate := GetBool d "activate";
     guardduty.CreateThreatIntelSetInput.Tags :=
       if Nat.ltb 0 (size tags) then Some (tftags.IgnoreAWS tags) else None |}.

(** The statuses of a threat intel set that went into the ERROR status. *)
Definition errorForever (k : nat) : string := "ERROR".

(** A studio whose tags change and nothing else. *)
Definition retaggedStudio : ResourceData :=
  {| Id := "es-1"; IsNewResource := false;
     state := {[ "name" := VString "studio";
                 "tags_all" := VMap {[ "team" := "data" ]} ]};
     attrs := {[ "name" := VString "studio";
                 "tags_all" := VMap {[ "team" := "ml" ]} ]} |}.

(** ** The schemas of the resources *)

Module schema.

(** [schema.ValueType]. *)
Inductive ValueType := TypeBool | TypeInt | TypeString | TypeSet | TypeMap.

(** The validation functions the schemas name. *)
Inductive Validation :=
| StringInSlice (valid : list string) (ignoreCase : bool)
| StringLenBetween (min max : nat)
| IsRFC3339Time
| ValidARN.

(** [schema.Schema], as far as the resources fill it. *)
Record Schema := {
  SchemaType : ValueType;
  Required : bool;
  Optional : bool;
  Computed : bool;
  ForceNew : bool;
  MinItems : nat;
  MaxItems : nat;
  ValidateFunc : option Validation
}.

(** A schema of the given type with no field set. *)
Definition ofType (t : ValueType) : Schema :=
  {| SchemaType := t; Required := false; Optional := false;
     Computed := false; ForceNew := false; MinItems := 0; MaxItems := 0;
     ValidateFunc := None |}.

Definition required (a : Schema) : Schema :=
  {| SchemaType := SchemaType a; Required := true; Optional := Optional a;
     Computed := Computed a; ForceNew := ForceNew a; MinItems := MinItems a;
     MaxItems := MaxItems a; ValidateFunc := ValidateFunc a |}.

Definition optional (a : Schema) : Schema :=
  {| SchemaType := SchemaType a; Required := Required a; Optional := true;
     Computed := Computed a; ForceNew := ForceNew a; MinItems := MinItems a;
     MaxItems := MaxItems a; ValidateFunc := ValidateFunc a |}.

Definition computed (a : Schema) : Schema :=
  {| SchemaType := SchemaType a; Required := Required a;
     Optional := Optional a; Computed := true; ForceNew := ForceNew a;
     MinItems := MinItems a; MaxItems := MaxItems a;
     ValidateFunc := ValidateFunc a |}.

Definition forceNew (a : Schema) : Schema :=
  {| SchemaType := SchemaType a; Required := Required a;
     Optional := Optional a; Computed := Computed a; ForceNew := true;
     MinItems := MinItems a; MaxItems := MaxItems a;
     ValidateFunc := ValidateFunc a |}.

Definition validate (v : Validation) (a : Schema) : Schema :=
  {| SchemaType := SchemaType a; Required := Required a;
     Optional := Optional a; Computed := Computed a; ForceNew := ForceNew a;
     MinItems := MinItems a; MaxItems := MaxItems a;
     ValidateFunc := Some v |}.

Definition items (min max : nat) (a : Schema) : Schema :=
  {| SchemaType := SchemaType a; Required := Required a;
     Optional := Optional a; Computed := Computed a; ForceNew := ForceNew a;
     MinItems := min; MaxItems := max; ValidateFunc := ValidateFunc a |}.

(** The type of a value. *)
Definition typeOf (v : Value) : ValueType :=
  match v with
  | VString _ => TypeString
  | VBool _ => TypeBool
  | VInt _ => TypeInt
  | VSet _ => TypeSet
  | VMap _ => TypeMap
  end.

Definition sameType (a b : ValueType) : bool :=
  match a, b with
  | TypeBool, TypeBool | TypeInt, TypeInt | TypeString, TypeString
  | TypeSet, TypeSet | TypeMap, TypeMap => true
  | _, _ => false
  end.

(** The schema of an attribute, in a schema map written as a list. *)
Fixpoint lookup (m : list (string * Schema)) (key : string) : option Schema :=
  match m with
  | [] => None
  | (k, a) :: m' => if String.eqb k key then Some a else lookup m' key
  end.

(** The attribute is declared, and with the type of the value. *)
Definition accepts (m : list (string * Schema)) (key : string) (v : Value)
    : bool :=
  match lookup m key with
  | Some a => sameType (SchemaType a) (typeOf v)
  | None => false
  end.

End schema.

(** Modelled from the spec: [internal/tags] is not among the sources.  The
    schemas of the tag attributes are maps of strings: [tags] is optional,
    [tags_all] is optional and computed, and the tags of a resource without
    an update are optional and force a new resource. *)
Definition TagsSchema : schema.Schema :=
  schema.optional (schema.ofType schema.TypeMap).

Definition TagsSchemaComputed : schema.Schema :=
  schema.computed (schema.optional (schema.ofType schema.TypeMap)).

Definition TagsSchemaForceNew : schema.Schema :=
  schema.forceNew (schema.optional (schema.ofType schema.TypeMap)).

(** The [Schema] of [ResourceThreatIntelSet]. *)
Definition ThreatIntelSetSchema : list (string * schema.Schema) :=
  [("arn", schema.computed (schema.ofType schema.TypeString));
   ("detector_id",
    schema.forceNew (schema.required (schema.ofType schema.TypeString)));
   ("name", schema.required (schema.ofType schema.TypeString));
   ("format",
    schema.validate
      (schema.StringInSlice
         ["TXT"; "STIX"; "OTX_CSV"; "ALIEN_VAULT"; "PROOF_POINT"; "FIRE_EYE"]
         false)
      (schema.forceNew (schema.required (schema.ofType schema.TypeString))));
   ("location", schema.required (schema.ofType schema.TypeString));
   ("activate", schema.required (schema.ofType schema.TypeBool));
   ("tags", TagsSchema);
   ("tags_all", TagsSchemaComputed)].

(** The [Schema] of [ResourceStudio]. *)
Definition StudioSchema : list (string * schema.Schema) :=
  [("arn", schema.computed (schema.ofType schema.TypeString));
   ("auth_mode",
    schema.validate (schema.StringInSlice ["SSO"; "IAM"] false)
      (schema.forceNew (schema.required (schema.ofType schema.TypeString))));
   ("default_s3_location", schema.required (schema.ofType schema.TypeString));
   ("description",
    schema.validate (schema.StringLenBetween 0 256)
      (schema.optional (schema.ofType schema.TypeString)));
   ("engine_security_group_id",
    schema.forceNew (schema.required (schema.ofType schema.TypeString)));
   ("idp_auth_url",
    schema.forceNew (schema.optional (schema.ofType schema.TypeString)));
   ("idp_relay_state_parameter_name",
    schema.forceNew (schema.optional (schema.ofType schema.TypeString)));
   ("name",
    schema.validate (schema.StringLenBetween 1 256)
      (schema.required (schema.ofType schema.TypeString)));
   ("service_role",
    schema.validate schema.ValidARN
      (schema.forceNew (schema.required (schema.ofType schema.TypeString))));
   ("subnet_ids",
    schema.required (schema.items 1 5 (schema.ofType schema.TypeSet)));
   ("tags", TagsSchema);
   ("tags_all", TagsSchemaComputed);
   ("user_role",
    schema.validate schema.ValidARN
      (schema.forceNew (schema.optional (schema.ofType schema.TypeString))));
   ("url", schema.computed (schema.ofType schema.TypeString));
   ("vpc_id",
    schema.forceNew (schema.required (schema.ofType schema.TypeString)));
   ("workspace_security_group_id",
    schema.forceNew (schema.required (schema.ofType schema.TypeString)))].

(** The [Schema] of [ResourceActivation]. *)
Definition ActivationSchema : list (string * schema.Schema) :=
  [("name", schema.forceNew (schema.optional (schema.ofType schema.TypeString)));
   ("description",
    schema.forceNew (schema.optional (schema.ofType schema.TypeString)));
   ("expired", schema.computed (schema.ofType schema.TypeBool));
   ("expiration_date",
    schema.validate schema.IsRFC3339Time
      (schema.forceNew
         (schema.computed
            (schema.optional (schema.ofType schema.TypeString)))));
   ("iam_role",
    schema.forceNew (schema.required (schema.ofType schema.TypeString)));
   ("registration_limit",
    schema.forceNew (schema.optional (schema.ofType schema.TypeInt)));
   ("registration_count", schema.computed (schema.ofType schema.TypeInt));
   ("activation_code", schema.computed (schema.ofType schema.TypeString));
   ("tags", TagsSchemaForceNew);
   ("tags_all", TagsSchemaComputed)].

Definition resourceSchema (h : Handler) : list (string * schema.Schema) :=
  match h with
  | ThreatIntelSetResource => ThreatIntelSetSchema
  | StudioResource => StudioSchema
  | ActivationResource => ActivationSchema
  end.

(** Every attribute the resource data holds is declared in the schema, with
    the type of the value it holds. *)
Definition wellTyped (m : list (string * schema.Schema)) (d : ResourceData)
    : Prop :=
  forall key v, attrs d !! key = Some v -> schema.accepts m key v = true.

(** Every value of a sequence of [d.Set] calls is accepted by the schema. *)
Definition allAccepted (m : list (string * schema.Schema))
    (l : list (string * option Value)) : Prop :=
  Forall (fun kv => match kv.2 with
                    | Some v => schema.accepts m kv.1 v = true
                    | None => True
                    end) l.

(** ** Splitting and joining *)

Section SplitFacts.

Variable sep : ascii.

Lemma Split_nonempty s : strings.Split s sep <> [].
Proof.
  destruct s as [|c r]; simpl; [discriminate|].
  destruct (Ascii.eqb c sep); [discriminate|].
  destruct (strings.Split r sep); discriminate.
Qed.

Lemma Split_length s :
  List.length (strings.Split s sep) = S (strings.Count s sep).
Proof.
  induction s as [|c r IH]; simpl; [reflexivity|].
  destruct (Ascii.eqb c sep); simpl.
  - now rewrite IH.
  - destruct (strings.Split r sep) as [|h t] eqn:E; simpl in *.
    + discriminate.
    + exact IH.
Qed.

Lemma Split_no_sep s :
  strings.Count s sep = O -> strings.Split s sep = [s].
Proof.
  induction s as [|c r IH]; simpl; [reflexivity|].
  destruct (Ascii.eqb c sep); simpl; [discriminate|].
  intros H. now rewrite (IH H).
Qed.

Lemma Split_join a b :
  strings.Split (a +:+ String sep b) sep
  = strings.Split a sep ++ strings.Split b sep.
Proof.
  induction a as [|c r IH]; simpl.
  - now rewrite Ascii.eqb_refl.
  - destruct (Ascii.eqb c sep); simpl.
    + now rewrite IH.
    + rewrite IH.
      destruct (strings.Split r sep) as [|h t] eqn:E; [|reflexivity].
      now apply Split_nonempty in E.
Qed.

Lemma Count_join a b :
  strings.Count (a +:+ String sep b) sep
  = S (strings.Count a sep + strings.Count b sep).
Proof.
  induction a as [|c r IH]; simpl.
  - now rewrite Ascii.eqb_refl.
  - rewrite IH. destruct (Ascii.eqb c sep); simpl; lia.
Qed.

Lemma Contains_Count s :
  strings.Contains s (String sep EmptyString)
  = negb (Nat.eqb (strings.Count s sep) 0).
Proof.
  induction s as [|c r IH]; simpl; [reflexivity|].
  assert (Hp : strings.HasPrefix r "" = true) by (destruct r; reflexivity).
  rewrite IH, Hp, andb_true_r, Ascii.eqb_sym.
  destruct (Ascii.eqb c sep); reflexivity.
Qed.

End SplitFacts.

Lemma Decode_Encode_ok (detectorID threatIntelSetID : string) :
  strings.Contains detectorID ":" = false ->
  strings.Contains threatIntelSetID ":" = false ->
  DecodeThreatIntelSetID (EncodeThreatIntelSetID detectorID threatIntelSetID)
  = (threatIntelSetID, detectorID, None).
Proof.
  rewrite !Contains_Count. intros Hd Ht.
  apply negb_false_iff, Nat.eqb_eq in Hd, Ht.
  unfold DecodeThreatIntelSetID, EncodeThreatIntelSetID.
  change (":" +:+ threatIntelSetID) with (String ":" threatIntelSetID).
  rewrite Split_join, (Split_no_sep _ _ Hd), (Split_no_sep _ _ Ht).
  reflexivity.
Qed.

(** C10.  For detector and threat intel set identifiers free of ":" the
    identifier [detectorID:threatIntelSetID] decodes to exactly that threat
    intel set identifier (first result) and that detector identifier (second
    result) without an error; as soon as one of the two contains ":" the
    decoding fails with the error that names the expected form. *)
Theorem C10_decode_of_encode (detectorID threatIntelSetID : string) :
  DecodeThreatIntelSetID (EncodeThreatIntelSetID detectorID threatIntelSetID)
  = if strings.Contains detectorID ":"
       || strings.Contains threatIntelSetID ":"
    then ("", "",
          Some (Errorf ThreatIntelSetIDFormat
                  [EncodeThreatIntelSetID detectorID threatIntelSetID]))
    else (threatIntelSetID, detectorID, None).
Proof.
  unfold DecodeThreatIntelSetID, EncodeThreatIntelSetID.
  rewrite !Contains_Count, Split_length.
  change (":" +:+ threatIntelSetID) with (String ":" threatIntelSetID).
  rewrite Count_join, Split_join.
  destruct (strings.Count detectorID ":") as [|n] eqn:Ed;
    destruct (strings.Count threatIntelSetID ":") as [|m] eqn:Et; simpl;
    try reflexivity.
  now rewrite (Split_no_sep _ _ Ed), (Split_no_sep _ _ Et).
Qed.

(** ** Running programs *)

Ltac prog_unfold :=
  unfold mbind, Prog_bind, mret, Prog_ret, call, deref, index; cbn [bind].

Lemma run_bind {S A B : Type} (srv : Remote S) (p : Prog A) (f : A -> Prog B)
    (s : S) :
  run srv (bind p f) s
  = match run srv p s with
    | (Returned a, s', t) =>
        let '(o, s'', t') := run srv (f a) s' in (o, s'', t ++ t')
    | (Panicked msg, s', t) => (Panicked msg, s', t)
    end.
Proof.
  revert s. induction p as [a|msg|c k IH]; intros s; simpl.
  - destruct (run srv (f a) s) as [[o s''] t']. reflexivity.
  - reflexivity.
  - destruct (respond srv c s) as [r s1]. rewrite IH.
    destruct (run srv (k r) s1) as [[[a|msg] s2] t]; simpl.
    + destruct (run srv (f a) s2) as [[o s3] t']. reflexivity.
    + reflexivity.
Qed.

Lemma run_call {S A : Type} (srv : Remote S) (c : Call) (k : Resp c -> Prog A)
    (s : S) :
  run srv (Do c k) s
  = let '(r, s') := respond srv c s in
    let '(o, s'', t) := run srv (k r) s' in
    (o, s'', Ev c r :: t).
Proof. reflexivity. Qed.

(** ** Malformed identifiers *)

Lemma Decode_malformed (id : string) :
  List.length (strings.Split id ":") <> 2%nat ->
  DecodeThreatIntelSetID id = ("", "", Some (Errorf ThreatIntelSetIDFormat [id])).
Proof.
  intros H. unfold DecodeThreatIntelSetID.
  destruct (Nat.eqb_spec (List.length (strings.Split id ":")) 2) as [E|E].
  - contradiction.
  - reflexivity.
Qed.

(** C5.  When the identifier does not split on ":" into exactly two parts,
    the read, update and delete handlers of the threat intel set each return
    one error diagnostic that carries the decoding error, whose text names
    the form <Detector ID>:<ThreatIntelSet ID>, and for every remote service
    the trace of calls is empty. *)
Theorem C5_malformed_id_no_remote_call (d : ResourceData) (meta : AWSClient)
    (S : Type) (srv : Remote S) (s : S) :
  List.length (strings.Split (Id d) ":") <> 2%nat ->
  let err := Errorf ThreatIntelSetIDFormat [Id d] in
  strings.Contains ThreatIntelSetIDFormat "<Detector ID>:<ThreatIntelSet ID>"
  = true
  /\ run srv (resourceThreatIntelSetRead d meta) s
     = (Returned
          (d, [errorDiag "reading GuardDuty Threat Intel Set (%s): %s"
                 [ArgS (Id d); ArgE err]]), s, [])
  /\ run srv (resourceThreatIntelSetUpdate d meta) s
     = (Returned
          (d, [errorDiag "updating GuardDuty Threat Intel Set (%s): %s"
                 [ArgS (Id d); ArgE err]]), s, [])
  /\ run srv (resourceThreatIntelSetDelete d meta) s
     = (Returned
          (d, [errorDiag "deleting GuardDuty Threat Intel Set (%s): %s"
                 [ArgS (Id d); ArgE err]]), s, []).
Proof.
  intros H err.
  unfold resourceThreatIntelSetRead, resourceThreatIntelSetUpdate,
    resourceThreatIntelSetDelete.
  rewrite (Decode_malformed _ H).
  repeat split; reflexivity.
Qed.

Lemma C5_witness :
  let d := resourceWithId "a:b:c" false in
  let err := Errorf ThreatIntelSetIDFormat [Id d] in
  strings.Contains ThreatIntelSetIDFormat "<Detector ID>:<ThreatIntelSet ID>"
  = true
  /\ run agreeable (resourceThreatIntelSetRead d emptyClient) tt
     = (Returned
          (d, [errorDiag "reading GuardDuty Threat Intel Set (%s): %s"
                 [ArgS (Id d); ArgE err]]), tt, [])
  /\ run agreeable (resourceThreatIntelSetUpdate d emptyClient) tt
     = (Returned
          (d, [errorDiag "updating GuardDuty Threat Intel Set (%s): %s"
                 [ArgS (Id d); ArgE err]]), tt, [])
  /\ run agreeable (resourceThreatIntelSetDelete d emptyClient) tt
     = (Returned
          (d, [errorDiag "deleting GuardDuty Threat Intel Set (%s): %s"
                 [ArgS (Id d); ArgE err]]), tt, []).
Proof.
  apply (C5_malformed_id_no_remote_call (resourceWithId "a:b:c" false)
           emptyClient unit agreeable tt).
  vm_compute. discriminate.
Defined.

(** ** The update of a studio *)

Lemma studio_read_calls {S : Type} (srv : Remote S) (d : ResourceData)
    (meta : AWSClient) (s : S) :
  calls (run srv (resourceStudioRead d meta) s).2 = [FindStudioByID (Id d)].
Proof.
  unfold resourceStudioRead. prog_unfold.
  rewrite run_call.
  destruct (respond srv (FindStudioByID (Id d)) s) as [[studio|err] s1];
    cbn.
  - rewrite andb_false_r. reflexivity.
  - match goal with |- context [if ?b then _ else _] => destruct b end;
      reflexivity.
Qed.

(** C1.  The update handler of the studio never issues the remote update
    call: whatever changed, its calls are at most one [UpdateTags] followed
    by the finder of the read; for the studio renamed from "old" to "new",
    which has a change outside the tags, the finder is the only call. *)
Theorem C1_studio_update_issues_no_update (d : ResourceData)
    (meta : AWSClient) (S : Type) (srv : Remote S) (s : S) :
  Forall notUpdateStudio (calls (run srv (resourceStudioUpdate d meta) s).2)
  /\ HasChangesExcept renamedStudio ["tags"; "tags_all"] = true
  /\ HasChange renamedStudio "name" = true
  /\ calls (run srv (resourceStudioUpdate renamedStudio meta) s).2
     = [FindStudioByID "es-1"].
Proof.
  split; [|split; [|split]].
  - unfold resourceStudioUpdate.
    destruct (HasChange d "tags_all").
    + destruct (GetChange d "tags_all") as [o n]. prog_unfold.
      rewrite run_call.
      destruct (respond srv _ s) as [[[]|err] s1]; cbn [bind].
      * rewrite run_bind.
        pose proof (studio_read_calls srv d meta s1) as H.
        destruct (run srv (resourceStudioRead d meta) s1) as [[[x|msg] s2] t];
          cbn in *; rewrite ?app_nil_r; rewrite H;
          repeat constructor.
      * cbn. repeat constructor.
    + prog_unfold. rewrite run_bind.
      pose proof (studio_read_calls srv d meta s) as H.
      destruct (run srv (resourceStudioRead d meta) s) as [[[x|msg] s2] t];
        cbn in *; rewrite ?app_nil_r; rewrite H; repeat constructor.
  - vm_compute. reflexivity.
  - vm_compute. reflexivity.
  - unfold resourceStudioUpdate.
    assert (E : HasChange renamedStudio "tags_all" = false)
      by (vm_compute; reflexivity).
    rewrite E. prog_unfold. rewrite run_bind.
    pose proof (studio_read_calls srv renamedStudio meta s) as H.
    destruct (run srv (resourceStudioRead renamedStudio meta) s)
      as [[[x|msg] s2] t]; cbn in *; rewrite ?app_nil_r; exact H.
Qed.

(** ** Deleting *)

Lemma studio_delete_calls {S : Type} (srv : Remote S) (d : ResourceData)
    (meta : AWSClient) (s : S) :
  calls (run srv (resourceStudioDelete d meta) s).2
  = [DeleteStudioWithContext {| emr.DeleteStudioInput.StudioId := Id d |}].
Proof.
  unfold resourceStudioDelete. prog_unfold. rewrite run_call.
  destruct (respond srv _ s) as [[[]|e] s1]; cbn; [reflexivity|].
  destruct (String.eqb (Code e) emr.ErrCodeInternalServerException);
    reflexivity.
Qed.

Lemma activation_delete_calls {S : Type} (srv : Remote S) (d : ResourceData)
    (meta : AWSClient) (s : S) :
  calls (run srv (resourceActivationDelete d meta) s).2
  = [DeleteActivationWithContext
       {| ssm.DeleteActivationInput.ActivationId := Id d |}].
Proof.
  unfold resourceActivationDelete. prog_unfold. rewrite run_call.
  destruct (respond srv _ s) as [[[]|e] s1]; reflexivity.
Qed.

Lemma threat_intel_set_delete_polls : deletePolls ThreatIntelSetResource.
Proof.
  exists (resourceWithId "det:tis" false), emptyClient,
    (observe (fun _ => guardduty.ThreatIntelSetStatusDeleted)), O.
  vm_compute. lia.
Qed.

Lemma delete_polls_only_threat_intel_set (h : Handler) :
  deletePolls h -> h = ThreatIntelSetResource.
Proof.
  intros (d & meta & srv & s & H).
  destruct h; [reflexivity| |]; exfalso; cbn [resourceDelete] in H.
  - pose proof (studio_delete_calls srv d meta s) as E.
    apply (f_equal (@List.length Call)) in E.
    unfold calls in E. rewrite length_map in E. rewrite E in H.
    cbn in H. lia.
  - pose proof (activation_delete_calls srv d meta s) as E.
    apply (f_equal (@List.length Call)) in E.
    unfold calls in E. rewrite length_map in E. rewrite E in H.
    cbn in H. lia.
Qed.

Lemma threat_intel_set_delete_then_wait {S : Type} (srv : Remote S)
    (d : ResourceData) (meta : AWSClient) (s s1 : S)
    (threatIntelSetID detectorId : string) :
  DecodeThreatIntelSetID (Id d) = (threatIntelSetID, detectorId, None) ->
  respond srv
    (DeleteThreatIntelSetWithContext
       {| guardduty.DeleteThreatIntelSetInput.DetectorId := detectorId;
          guardduty.DeleteThreatIntelSetInput.ThreatIntelSetId := threatIntelSetID |})
    s = (Ok tt, s1) ->
  run srv (resourceThreatIntelSetDelete d meta) s
  = match
      run srv
        (retry.WaitForStateContext deleteStateConf
           (threatintelsetRefreshStatusFunc threatIntelSetID detectorId)) s1
    with
    | (Returned w, s2, t) =>
        (Returned
           (d, match w.2 with
               | Some err =>
                   [errorDiag waitingForStatusFormat
                      [ArgS guardduty.ThreatIntelSetStatusDeleted; ArgE err]]
               | None => []
               end), s2,
         Ev (DeleteThreatIntelSetWithContext
               {| guardduty.DeleteThreatIntelSetInput.DetectorId := detectorId;
                  guardduty.DeleteThreatIntelSetInput.ThreatIntelSetId :=
                    threatIntelSetID |}) (Ok tt) :: t)
    | (Panicked msg, s2, t) =>
        (Panicked msg, s2,
         Ev (DeleteThreatIntelSetWithContext
               {| guardduty.DeleteThreatIntelSetInput.DetectorId := detectorId;
                  guardduty.DeleteThreatIntelSetInput.ThreatIntelSetId :=
                    threatIntelSetID |}) (Ok tt) :: t)
    end.
Proof.
  intros HD HR. unfold resourceThreatIntelSetDelete. rewrite HD.
  unfold mbind at 1, Prog_bind at 1, call. cbn [bind].
  rewrite run_call, HR. cbn [bind].
  unfold mbind at 1, Prog_bind at 1. rewrite run_bind.
  destruct (run srv _ s1) as [[[w|msg] s2] t]; [|reflexivity].
  destruct w as [res [err|]]; cbn; rewrite ?app_nil_r; reflexivity.
Qed.

(** C3 as stated fails: no two of the three handlers poll after the delete
    call. *)
Lemma C3_counterexample :
  ~ (exists h1 h2 : Handler, h1 <> h2 /\ deletePolls h1 /\ deletePolls h2).
Proof.
  intros (h1 & h2 & Hne & H1 & H2).
  apply delete_polls_only_threat_intel_set in H1, H2. congruence.
Qed.

(** C3, amended.  Exactly one delete handler polls, the one of the threat
    intel set: once its delete call succeeded it waits on the status with
    the pending and target sets of [deleteStateConf].  The delete handlers
    of the studio and of the activation make the delete call and nothing
    else, whatever the service answers. *)
Theorem C3_delete_polling :
  (forall h : Handler, deletePolls h <-> h = ThreatIntelSetResource)
  /\ (forall (S : Type) (srv : Remote S) d meta s,
        calls (run srv (resourceStudioDelete d meta) s).2
        = [DeleteStudioWithContext
             {| emr.DeleteStudioInput.StudioId := Id d |}])
  /\ (forall (S : Type) (srv : Remote S) d meta s,
        calls (run srv (resourceActivationDelete d meta) s).2
        = [DeleteActivationWithContext
             {| ssm.DeleteActivationInput.ActivationId := Id d |}])
  /\ (forall (S : Type) (srv : Remote S) d meta s,
        calls (run srv (resourceThreatIntelSetDelete d meta) s).2
        = match DecodeThreatIntelSetID (Id d) with
          | (threatIntelSetID, detectorId, None) =>
              let input :=
                {| guardduty.DeleteThreatIntelSetInput.DetectorId := detectorId;
                   guardduty.DeleteThreatIntelSetInput.ThreatIntelSetId :=
                     threatIntelSetID |} in
              match respond srv (DeleteThreatIntelSetWithContext input) s with
              | (Ok _, s1) =>
                  DeleteThreatIntelSetWithContext input
                  :: calls
                       (run srv
                          (retry.WaitForStateContext deleteStateConf
                             (threatintelsetRefreshStatusFunc
                                threatIntelSetID detectorId)) s1).2
              | (Fail _, _) => [DeleteThreatIntelSetWithContext input]
              end
          | (_, _, Some _) => []
          end).
Proof.
  split; [|split; [|split]].
  - intros h. split.
    + apply delete_polls_only_threat_intel_set.
    + intros ->. apply threat_intel_set_delete_polls.
  - intros. apply studio_delete_calls.
  - intros. apply activation_delete_calls.
  - intros S srv d meta s.
    destruct (DecodeThreatIntelSetID (Id d)) as [[tis det] [err|]] eqn:HD.
    + unfold resourceThreatIntelSetDelete. rewrite HD. reflexivity.
    + cbv zeta.
      match goal with
      | |- context [respond srv ?c s] =>
          destruct (respond srv c s) as [[[]|e] s1] eqn:HR
      end.
      * rewrite (threat_intel_set_delete_then_wait srv d meta s s1 tis det HD HR).
        destruct (run srv _ s1) as [[[w|msg] s2] t]; reflexivity.
      * unfold resourceThreatIntelSetDelete. rewrite HD.
        unfold mbind at 1, Prog_bind at 1, call. cbn [bind].
        rewrite run_call, HR. reflexivity.
Qed.

Lemma C3_witness : deletePolls ThreatIntelSetResource.
Proof.
  exact (proj2 (proj1 C3_delete_polling ThreatIntelSetResource)
           eq_refl).
Defined.


(** ** Reading what is gone *)

Lemma threat_intel_set_read_not_found {S : Type} (srv : Remote S)
    (d : ResourceData) (meta : AWSClient) (s s' : S) o t :
  run srv (resourceThreatIntelSetRead d meta) s = (o, s', t) ->
  existsb notFound t = true ->
  o = Returned (SetId d "", []).
Proof.
  unfold resourceThreatIntelSetRead.
  destruct (DecodeThreatIntelSetID (Id d)) as [[tis det] [err|]].
  - cbn. intros [= <- <- <-]. discriminate.
  - prog_unfold. rewrite run_call.
    destruct (respond srv _ s) as [[resp|e] s1]; cbn [unpack].
    + cbn. intros [= <- <- <-]. discriminate.
    + destruct (tfawserr.ErrMessageContains (Some (AwsError e))
                  guardduty.ErrCodeBadRequestException threatIntelSetNotOwned)
        eqn:E; cbn [run]; intros [= <- <- <-].
      * reflexivity.
      * cbn [existsb notFound]. rewrite E. discriminate.
Qed.

Lemma studio_read_not_found {S : Type} (srv : Remote S)
    (d : ResourceData) (meta : AWSClient) (s s' : S) o t :
  run srv (resourceStudioRead d meta) s = (o, s', t) ->
  existsb notFound t = true ->
  exists e : error,
    t = [Ev (FindStudioByID (Id d)) (Fail e)]
    /\ tfresource.NotFound (Some e) = true
    /\ o = Returned
             (if IsNewResource d
              then (d, [errorDiag "reading EMR Studio (%s): %s"
                          [ArgS (Id d); ArgE e]])
              else (SetId d "", [])).
Proof.
  unfold resourceStudioRead. prog_unfold. rewrite run_call.
  destruct (respond srv _ s) as [[studio|e] s1].
  - rewrite andb_false_r. cbn. intros [= <- <- <-]. discriminate.
  - destruct (tfresource.NotFound (Some e)) eqn:E.
    + destruct (IsNewResource d); cbn [negb andb run];
        intros [= <- <- <-] _; exists e; repeat split; auto.
    + rewrite andb_false_r. cbn [run]. intros [= <- <- <-].
      cbn [existsb notFound]. rewrite E. discriminate.
Qed.

Lemma activation_read_not_found {S : Type} (srv : Remote S)
    (d : ResourceData) (meta : AWSClient) (s s' : S) o t :
  run srv (resourceActivationRead d meta) s = (o, s', t) ->
  existsb notFound t = true ->
  o = if IsNewResource d then Panicked "index out of range"
      else Returned (SetId d "", []).
Proof.
  unfold resourceActivationRead. prog_unfold. rewrite run_call.
  destruct (respond srv _ s) as [[resp|e] s1].
  - destruct resp as [[|a l]].
    + destruct (IsNewResource d); cbn; intros [= <- <- <-] _; reflexivity.
    + rewrite andb_false_r. cbn. intros [= <- <- <-]. discriminate.
  - cbn. intros [= <- <- <-]. discriminate.
Qed.

(** C2 as stated fails: the read of a threat intel set that was just
    created clears the identifier and reports no error when the service
    answers that the detector is not owned. *)
Lemma C2_counterexample :
  ~ (forall (h : Handler) (d : ResourceData) (meta : AWSClient)
       (srv : Remote unit) o t,
       run srv (resourceRead h d meta) tt = (o, tt, t) ->
       existsb notFound t = true ->
       IsNewResource d = true ->
       exists d' diags,
         o = Returned (d', diags) /\ Id d' = Id d /\ HasError diags = true).
Proof.
  intros H.
  destruct (H ThreatIntelSetResource (resourceWithId "det:tis" true)
              emptyClient (rejecting detectorNotOwned) _ _ eq_refl
              eq_refl eq_refl) as (d' & diags & E & _ & He).
  vm_compute in E. injection E as <- <-. discriminate He.
Qed.

(** C2, amended.  A read that observes the "not found" answer of its
    service ends as follows.  Studio: the only exchange of the read is the
    finder's, which failed with an error [e] that is a "not found" error;
    when the resource was not just created the identifier is cleared and no
    diagnostic is returned; when it was just created the identifier is kept
    and this same error [e] of the finder is returned in an error
    diagnostic.  Threat intel set: the identifier is cleared and no
    diagnostic is returned, whether or not the resource was just created.
    Activation: when the resource was not just created the identifier is
    cleared and no diagnostic is returned. *)
Theorem C2_read_not_found (h : Handler) (d : ResourceData) (meta : AWSClient)
    (S : Type) (srv : Remote S) (s s' : S) o t :
  run srv (resourceRead h d meta) s = (o, s', t) ->
  existsb notFound t = true ->
  match h with
  | StudioResource =>
      exists e : error,
        t = [Ev (FindStudioByID (Id d)) (Fail e)]
        /\ tfresource.NotFound (Some e) = true
        /\ o = Returned
                 (if IsNewResource d
                  then (d, [errorDiag "reading EMR Studio (%s): %s"
                              [ArgS (Id d); ArgE e]])
                  else (SetId d "", []))
  | ThreatIntelSetResource => o = Returned (SetId d "", [])
  | ActivationResource =>
      IsNewResource d = false -> o = Returned (SetId d "", [])
  end.
Proof.
  intros HR HN. destruct h; cbn [resourceRead] in HR.
  - eapply threat_intel_set_read_not_found; eauto.
  - exact (studio_read_not_found srv d meta s s' o t HR HN).
  - intros Hnew.
    rewrite (activation_read_not_found srv d meta s s' o t HR HN), Hnew.
    reflexivity.
Qed.

Lemma C2_witness :
  (exists e : error,
     (run agreeable (resourceStudioRead (resourceWithId "es-1" true) emptyClient) tt).2
     = [Ev (FindStudioByID "es-1") (Fail e)]
     /\ tfresource.NotFound (Some e) = true
     /\ (run agreeable (resourceStudioRead (resourceWithId "es-1" true) emptyClient) tt).1.1
        = Returned
            (resourceWithId "es-1" true,
             [errorDiag "reading EMR Studio (%s): %s" [ArgS "es-1"; ArgE e]]))
  /\ (run (rejecting detectorNotOwned)
        (resourceThreatIntelSetRead (resourceWithId "det:tis" true) emptyClient)
        tt).1.1
     = Returned (resourceWithId "" true, [])
  /\ (run agreeable
        (resourceActivationRead (resourceWithId "act-1" false) emptyClient)
        tt).1.1
     = Returned (resourceWithId "" false, []).
Proof.
  split; [|split].
  - exact (C2_read_not_found StudioResource (resourceWithId "es-1" true)
             emptyClient unit agreeable tt tt _ _ eq_refl eq_refl).
  - exact (C2_read_not_found ThreatIntelSetResource
             (resourceWithId "det:tis" true) emptyClient unit
             (rejecting detectorNotOwned) tt tt _ _ eq_refl eq_refl).
  - exact (C2_read_not_found ActivationResource
             (resourceWithId "act-1" false) emptyClient unit agreeable tt tt
             _ _ eq_refl eq_refl eq_refl).
Defined.

(** ** Retrying the create call *)

Lemma polls_positive (conf : retry.StateChangeConf) :
  exists n : nat, retry.polls conf = S n.
Proof. unfold retry.polls. eauto. Qed.

(** The retry loop over a function that makes one call [c] and decides
    from the answer alone, by [classify], what to return and whether to
    retry. *)
Section retry_loop.

Context {St R : Type} (srv : Remote St) (c : Call).
Variable classify : Resp c -> R * option retry.RetryError.
Variable f : R -> Prog (R * option retry.RetryError).
Variable timeout : Z.

Hypothesis attempt :
  forall (r0 : R) (s : St),
    run srv (f r0) s
    = let '(resp, s1) := respond srv c s in
      (Returned (classify resp), s1, [Ev c resp]).

(** Every exchange of the loop is the call [c].  After a retryable answer
    the next exchange follows while attempts are left; after any other
    answer, and after the last attempt, the loop ends with what the answer
    gave. *)
Lemma retryLoop_exchange (n : nat) :
  forall (r0 : R) (resultErr : option error) (s s' : St) out t k ev,
    run srv (retry.retryLoop n timeout f r0 resultErr) s = (out, s', t) ->
    t !! k = Some ev ->
    exists resp : Resp c,
      ev = Ev c resp
      /\ (k < n)%nat
      /\ match (classify resp).2 with
         | Some rerr =>
             if retry.Retryable rerr && Nat.ltb (S k) n
             then exists resp2, t !! S k = Some (Ev c resp2)
             else List.length t = S k
                  /\ out = Returned ((classify resp).1, Some (retry.Err rerr))
         | None =>
             List.length t = S k
             /\ out = Returned ((classify resp).1, None)
         end.
Proof.
  induction n as [|n IH]; intros r0 resultErr s s' out t k ev.
  - cbn. intros [= <- <- <-]. discriminate.
  - cbn [retry.retryLoop]. unfold mbind, Prog_bind.
    rewrite run_bind, attempt.
    destruct (respond srv c s) as [resp s1].
    destruct (classify resp) as [r' [rerr|]] eqn:EC.
    + destruct (retry.Retryable rerr) eqn:ER.
      * destruct (run srv (retry.retryLoop n timeout f r' (Some (retry.Err rerr)))
                    s1) as [[out' s2] t'] eqn:HL.
        cbn [app]. intros [= <- <- <-]. destruct k as [|k]; cbn [lookup].
        -- intros [= <-]. exists resp. split; [reflexivity|].
           split; [lia|]. rewrite EC. cbn [snd fst]. rewrite ER.
           destruct n as [|n].
           ++ cbn in HL. injection HL as <- <- <-. cbn. auto.
           ++ cbn [andb]. change (Nat.ltb 1 (S (S n)))
                with true. cbv iota.
              cbn [retry.retryLoop] in HL. unfold mbind, Prog_bind in HL.
              rewrite run_bind, attempt in HL.
              destruct (respond srv c s1) as [resp2 s3].
              destruct (classify resp2) as [r2 [rerr2|]];
                [destruct (retry.Retryable rerr2);
                 [destruct (run srv _ s3) as [[o4 s4] t4]|]|];
                cbn in HL; injection HL as <- <- <-; exists resp2; reflexivity.
        -- intros Hk.
           destruct (IH _ _ _ _ _ _ _ _ HL Hk) as (resp1 & -> & Hlt & Hm).
           exists resp1. split; [reflexivity|]. split; [lia|].
           change (Nat.ltb (S (S k)) (S n))
             with (Nat.ltb (S k) n).
           destruct ((classify resp1).2) as [rerr1|].
           ++ destruct (retry.Retryable rerr1 && Nat.ltb (S k) n).
              ** exact Hm.
              ** destruct Hm as [Hl ->]. cbn [List.length]. rewrite Hl. auto.
           ++ destruct Hm as [Hl ->]. cbn [List.length]. rewrite Hl. auto.
      * cbn. intros [= <- <- <-]. destruct k as [|k]; [|discriminate].
        intros [= <-]. exists resp. split; [reflexivity|]. split; [lia|].
        rewrite EC. cbn [snd fst]. rewrite ER. cbn. auto.
    + cbn. intros [= <- <- <-]. destruct k as [|k]; [|discriminate].
      intros [= <-]. exists resp. split; [reflexivity|]. split; [lia|].
      rewrite EC. cbn. auto.
Qed.

(** One turn of the loop. *)
Lemma retryLoop_turn (n : nat) (r0 : R) (resultErr : option error) (s : St) :
  run srv (retry.retryLoop (S n) timeout f r0 resultErr) s
  = let '(resp, s1) := respond srv c s in
    match classify resp with
    | (r', Some rerr) =>
        if retry.Retryable rerr then
          let '(o, s2, t) :=
            run srv (retry.retryLoop n timeout f r' (Some (retry.Err rerr)))
              s1 in
          (o, s2, Ev c resp :: t)
        else (Returned (r', Some (retry.Err rerr)), s1, [Ev c resp])
    | (r', None) => (Returned (r', None), s1, [Ev c resp])
    end.
Proof.
  cbn [retry.retryLoop]. unfold mbind, Prog_bind.
  rewrite run_bind, attempt.
  destruct (respond srv c s) as [resp s1].
  destruct (classify resp) as [r' [rerr|]]; [|reflexivity].
  destruct (retry.Retryable rerr); [|reflexivity].
  destruct (run srv _ s1) as [[o s2] t]. reflexivity.
Qed.

(** With at least one attempt the loop makes a call, and it ends with
    what the answer to its last call gave. *)
Lemma retryLoop_last (n : nat) :
  forall (r0 : R) (resultErr : option error) (s s' : St) out t,
    run srv (retry.retryLoop (S n) timeout f r0 resultErr) s
    = (out, s', t) ->
    exists k resp,
      List.length t = S k
      /\ t !! k = Some (Ev c resp)
      /\ out = Returned ((classify resp).1, retry.Err <$> (classify resp).2).
Proof.
  induction n as [|n IH]; intros r0 resultErr s s' out t;
    rewrite retryLoop_turn;
    destruct (respond srv c s) as [resp s1];
    destruct (classify resp) as [r' [rerr|]] eqn:EC;
    try destruct (retry.Retryable rerr) eqn:ER.
  - cbn. intros [= <- <- <-]. exists O, resp. rewrite EC. auto.
  - cbn. intros [= <- <- <-]. exists O, resp. rewrite EC. auto.
  - cbn. intros [= <- <- <-]. exists O, resp. rewrite EC. auto.
  - destruct (run srv
                (retry.retryLoop (S n) timeout f r'
                   (Some (retry.Err rerr))) s1) as [[out' s2] t'] eqn:HL.
    intros [= <- <- <-].
    destruct (IH _ _ _ _ _ _ HL) as (k & resp1 & Hlen & Hk & ->).
    exists (S k), resp1. cbn [List.length lookup]. auto.
  - cbn. intros [= <- <- <-]. exists O, resp. rewrite EC. auto.
  - cbn. intros [= <- <- <-]. exists O, resp. rewrite EC. auto.
Qed.

End retry_loop.

(** An answer that is the failure [e] of an SDK call. *)
Lemma failure_Fail (ev : Event) (e : awserr) :
  failure ev = Some (AwsError e) ->
  match ev with
  | Ev c r =>
      match c return Resp c -> Prop with
      | FindStudioByID _ | UpdateTags _ _ _ _ => fun _ => True
      | _ => fun r => r = Fail e
      end r
  end.
Proof.
  destruct ev as [c r]. destruct c; cbn; try exact (fun _ => I);
    destruct r as [a|e']; intros [= E]; now subst.
Qed.

(** The reads make one exchange, which is not a create call. *)
Lemma studio_read_exchange {St : Type} (srv : Remote St) (d : ResourceData)
    (meta : AWSClient) (s : St) :
  exists r, (run srv (resourceStudioRead d meta) s).2
            = [Ev (FindStudioByID (Id d)) r].
Proof.
  unfold resourceStudioRead. prog_unfold. rewrite run_call.
  destruct (respond srv (FindStudioByID (Id d)) s) as [[studio|err] s1]; cbn.
  - rewrite andb_false_r. eexists. reflexivity.
  - match goal with |- context [if ?b then _ else _] => destruct b end;
      eexists; reflexivity.
Qed.

Lemma activation_read_exchange {St : Type} (srv : Remote St)
    (d : ResourceData) (meta : AWSClient) (s : St) :
  exists input r,
    (run srv (resourceActivationRead d meta) s).2
    = [Ev (DescribeActivationsWithContext input) r].
Proof.
  unfold resourceActivationRead. prog_unfold. cbv zeta. rewrite run_call.
  destruct (respond srv _ s) as [[[[|a l]]|e] s1];
    [destruct (IsNewResource d)|rewrite andb_false_r|]; cbn;
    eexists _, _; reflexivity.
Qed.

(** What the create handler of the studio does after the create call has
    failed with [e] as its exchange number [k] (counted from 0). *)
Lemma studio_create_exchange {St : Type} (srv : Remote St)
    (propagationTimeout : Z) (d : ResourceData) (meta : AWSClient)
    (s : St) (k : nat) (e : awserr) :
  let c := CreateStudioWithContext (createStudioInput d meta) in
  let r := run srv (resourceStudioCreate propagationTimeout d meta) s in
  r.2 !! k = Some (Ev c (Fail e)) ->
  if studioRetryable e && Nat.ltb (S k) (attempts propagationTimeout)
  then exists r2, r.2 !! S k = Some (Ev c r2)
  else List.length r.2 = S k
       /\ r.1.1 = Returned (d, [errorDiag "creating EMR Studio: %s"
                                  [ArgE (AwsError e)]]).
Proof.
  intros c r. subst r.
  destruct (run srv (resourceStudioCreate propagationTimeout d meta) s)
    as [[o s'] t] eqn:HR.
  cbn [fst snd]. revert HR.
  unfold resourceStudioCreate, retry.RetryContext, attempts.
  destruct (polls_positive
              {| retry.Pending := ["retryableerror"];
                 retry.Target := ["success"];
                 retry.Timeout := propagationTimeout;
                 retry.MinTimeout := 500 * retry.Millisecond |}) as [n ->].
  pose (classify := fun r : Resp c =>
          match r with
          | Ok a => (Some a, None)
          | Fail e =>
              (None, Some {| retry.Err := AwsError e;
                             retry.Retryable := studioRetryable e |})
          end).
  match goal with
  | |- context [retry.retryLoop _ _ ?f _ _] => set (f0 := f)
  end.
  assert (Hatt : forall r0 (s : St),
             run srv (f0 r0) s
             = let '(resp, s1) := respond srv c s in
               (Returned (classify resp), s1, [Ev c resp])).
  { intros r0 s0. unfold f0. prog_unfold. rewrite run_call.
    fold c. destruct (respond srv c s0) as [[a|e'] s1]; cbn [unpack].
    - reflexivity.
    - unfold classify, studioRetryable.
      destruct (tfawserr.ErrMessageContains (Some (AwsError e')) _
                  studioNoAssumeRole); [reflexivity|].
      destruct (tfawserr.ErrMessageContains (Some (AwsError e')) _
                  studioNoAccess); reflexivity. }
  unfold mbind at 1, Prog_bind at 1. rewrite run_bind.
  destruct (run srv (retry.retryLoop (S n) propagationTimeout f0 None None) s)
    as [[out s1] t1] eqn:HL.
  destruct (retryLoop_last srv c classify f0 propagationTimeout Hatt n
              _ _ _ _ _ _ HL) as (k0 & resp0 & Hlen & Hk0 & ->).
  pose proof (retryLoop_exchange srv c classify f0 propagationTimeout Hatt
                (S n) _ _ _ _ _ _ k (Ev c (Fail e)) HL) as HE.
  assert (HF : t1 !! k = Some (Ev c (Fail e)) ->
               if studioRetryable e && Nat.ltb (S k) (S n)
               then exists resp2, t1 !! S k = Some (Ev c resp2)
               else List.length t1 = S k
                    /\ Returned ((classify resp0).1,
                                 retry.Err <$> (classify resp0).2)
                       = Returned (None, Some (AwsError e))).
  { intros Hk. destruct (HE Hk) as (resp & Heq & _ & Hm).
    assert (HFe : failure (Ev c resp) = Some (AwsError e))
      by (rewrite <- Heq; reflexivity).
    apply failure_Fail in HFe. unfold c in HFe. cbn in HFe.
    rewrite HFe in Hm. exact Hm. }
  clear HE.
  remember (studioRetryable e && Nat.ltb (S k) (S n)) as b eqn:Hb.
  destruct resp0 as [a|e0]; cbn [classify fst snd fmap option_fmap
                                   option_map retry.Err] in *.
  - prog_unfold. cbn [tfresource.TimedOut bind]. rewrite run_bind.
    match goal with
    | |- context [run srv (resourceStudioRead ?d' meta) s1] =>
        destruct (studio_read_exchange srv d' meta s1) as [rr Ht2];
        destruct (run srv (resourceStudioRead d' meta) s1)
          as [[[x|msg] s2] t2]
    end; cbn [fst snd run] in *; subst t2;
      rewrite ?app_nil_r; intros [= <- <- <-] Hk;
      apply lookup_app_Some in Hk as [Hk|[_ Hk]].
    + specialize (HF Hk). destruct b.
      * destruct HF as [resp2 H2]. exists resp2.
        now apply lookup_app_l_Some.
      * destruct HF as [_ [=]].
    + destruct (k - List.length t1)%nat; [|discriminate Hk].
      injection Hk as Hk. unfold c in Hk. discriminate Hk.
    + specialize (HF Hk). destruct b.
      * destruct HF as [resp2 H2]. exists resp2.
        now apply lookup_app_l_Some.
      * destruct HF as [_ [=]].
    + destruct (k - List.length t1)%nat; [|discriminate Hk].
      injection Hk as Hk. unfold c in Hk. discriminate Hk.
  - prog_unfold. cbn. rewrite app_nil_r. intros [= <- <- <-] Hk.
    specialize (HF Hk). destruct b.
    + exact HF.
    + destruct HF as [Hl [= ->]]. split; [exact Hl|reflexivity].
Qed.

(** The same for the create handler of the activation. *)
Lemma activation_create_exchange {St : Type} (srv : Remote St)
    (propagationTimeout : Z) (d : ResourceData) (meta : AWSClient)
    (s : St) (k : nat) (e : awserr) :
  let c := CreateActivationWithContext (createActivationInput d meta) in
  let r := run srv (resourceActivationCreate propagationTimeout d meta) s in
  r.2 !! k = Some (Ev c (Fail e)) ->
  if activationRetryable e && Nat.ltb (S k) (attempts propagationTimeout)
  then exists r2, r.2 !! S k = Some (Ev c r2)
  else List.length r.2 = S k
       /\ r.1.1 = Returned (d, [errorDiag "creating SSM activation: %s"
                                  [ArgE (AwsError e)]]).
Proof.
  intros c r. subst r.
  destruct (run srv (resourceActivationCreate propagationTimeout d meta) s)
    as [[o s'] t] eqn:HR.
  cbn [fst snd]. revert HR.
  unfold resourceActivationCreate, retry.RetryContext, attempts.
  destruct (polls_positive
              {| retry.Pending := ["retryableerror"];
                 retry.Target := ["success"];
                 retry.Timeout := propagationTimeout;
                 retry.MinTimeout := 500 * retry.Millisecond |}) as [n ->].
  pose (classify := fun r : Resp c =>
          match r with
          | Ok a => (Some a, None)
          | Fail e =>
              (None, Some {| retry.Err := AwsError e;
                             retry.Retryable := activationRetryable e |})
          end).
  match goal with
  | |- context [retry.retryLoop _ _ ?f _ _] => set (f0 := f)
  end.
  assert (Hatt : forall r0 (s : St),
             run srv (f0 r0) s
             = let '(resp, s1) := respond srv c s in
               (Returned (classify resp), s1, [Ev c resp])).
  { intros r0 s0. unfold f0. prog_unfold. rewrite run_call.
    fold c. destruct (respond srv c s0) as [[a|e'] s1]; cbn [unpack].
    - reflexivity.
    - unfold classify, activationRetryable.
      destruct (tfawserr.ErrMessageContains (Some (AwsError e')) _ _);
        reflexivity. }
  unfold mbind at 1, Prog_bind at 1. rewrite run_bind.
  destruct (run srv (retry.retryLoop (S n) propagationTimeout f0 None None) s)
    as [[out s1] t1] eqn:HL.
  destruct (retryLoop_last srv c classify f0 propagationTimeout Hatt n
              _ _ _ _ _ _ HL) as (k0 & resp0 & Hlen & Hk0 & ->).
  pose proof (retryLoop_exchange srv c classify f0 propagationTimeout Hatt
                (S n) _ _ _ _ _ _ k (Ev c (Fail e)) HL) as HE.
  assert (HF : t1 !! k = Some (Ev c (Fail e)) ->
               if activationRetryable e && Nat.ltb (S k) (S n)
               then exists resp2, t1 !! S k = Some (Ev c resp2)
               else List.length t1 = S k
                    /\ Returned ((classify resp0).1,
                                 retry.Err <$> (classify resp0).2)
                       = Returned (None, Some (AwsError e))).
  { intros Hk. destruct (HE Hk) as (resp & Heq & _ & Hm).
    assert (HFe : failure (Ev c resp) = Some (AwsError e))
      by (rewrite <- Heq; reflexivity).
    apply failure_Fail in HFe. unfold c in HFe. cbn in HFe.
    rewrite HFe in Hm. exact Hm. }
  clear HE.
  remember (activationRetryable e && Nat.ltb (S k) (S n)) as b eqn:Hb.
  destruct resp0 as [a|e0]; cbn [classify fst snd fmap option_fmap
                                   option_map retry.Err] in *.
  - prog_unfold. cbn [tfresource.TimedOut bind].
    destruct (ssm.CreateActivationOutput.ActivationId a) as [activationId|].
    + rewrite run_bind.
      match goal with
      | |- context [run srv (resourceActivationRead ?d' meta) s1] =>
          destruct (activation_read_exchange srv d' meta s1)
            as (input & rr & Ht2);
          destruct (run srv (resourceActivationRead d' meta) s1)
            as [[[x|msg] s2] t2]
      end; cbn [fst snd run] in *; subst t2;
        rewrite ?app_nil_r; intros [= <- <- <-] Hk;
        apply lookup_app_Some in Hk as [Hk|[_ Hk]].
      * specialize (HF Hk). destruct b.
        -- destruct HF as [resp2 H2]. exists resp2.
           now apply lookup_app_l_Some.
        -- destruct HF as [_ [=]].
      * destruct (k - List.length t1)%nat; [|discriminate Hk].
        injection Hk as Hk. unfold c in Hk. discriminate Hk.
      * specialize (HF Hk). destruct b.
        -- destruct HF as [resp2 H2]. exists resp2.
           now apply lookup_app_l_Some.
        -- destruct HF as [_ [=]].
      * destruct (k - List.length t1)%nat; [|discriminate Hk].
        injection Hk as Hk. unfold c in Hk. discriminate Hk.
    + cbn [run]. rewrite app_nil_r. intros [= <- <- <-] Hk.
      specialize (HF Hk). destruct b.
      * exact HF.
      * destruct HF as [_ [=]].
  - prog_unfold. cbn. rewrite app_nil_r. intros [= <- <- <-] Hk.
    specialize (HF Hk). destruct b.
    + exact HF.
    + destruct HF as [Hl [= ->]]. split; [exact Hl|reflexivity].
Qed.

(** C7.  Take any exchange of the create handler of the studio or of the
    activation in which the remote create call failed with an error [e]:
    the first attempt or any later one, exchange number [k] counted from 0.
    The call is retried, that is the next exchange is the same create call
    again, exactly when [e] matches one of the handler's patterns (error
    code and message substring) and the propagation timeout leaves room
    for another attempt.  An error that does not match, at whichever
    attempt it comes, ends the handler at once: the failed call is the
    last exchange, the resource data is returned untouched, and the one
    diagnostic "creating EMR Studio: %s" or "creating SSM activation: %s"
    carries [e] unchanged; the same holds for a matching error at the last
    attempt of the window. *)
Theorem C7_create_retry (propagationTimeout : Z) (d : ResourceData)
    (meta : AWSClient) (St : Type) (srv : Remote St) (s : St) (k : nat)
    (e : awserr) :
  (let c := CreateStudioWithContext (createStudioInput d meta) in
   let r := run srv (resourceStudioCreate propagationTimeout d meta) s in
   r.2 !! k = Some (Ev c (Fail e)) ->
   ((exists r2, r.2 !! S k = Some (Ev c r2))
    <-> studioRetryable e = true
        /\ (S k < attempts propagationTimeout)%nat)
   /\ (studioRetryable e = false
       \/ (attempts propagationTimeout <= S k)%nat ->
       List.length r.2 = S k
       /\ r.1.1 = Returned
                    (d, [errorDiag "creating EMR Studio: %s"
                           [ArgE (AwsError e)]])))
  /\ (let c := CreateActivationWithContext (createActivationInput d meta) in
      let r :=
        run srv (resourceActivationCreate propagationTimeout d meta) s in
      r.2 !! k = Some (Ev c (Fail e)) ->
      ((exists r2, r.2 !! S k = Some (Ev c r2))
       <-> activationRetryable e = true
           /\ (S k < attempts propagationTimeout)%nat)
      /\ (activationRetryable e = false
          \/ (attempts propagationTimeout <= S k)%nat ->
          List.length r.2 = S k
          /\ r.1.1 = Returned
                       (d, [errorDiag "creating SSM activation: %s"
                              [ArgE (AwsError e)]]))).
Proof.
  split.
  - intros c r Hk.
    pose proof (studio_create_exchange srv propagationTimeout d meta s k e Hk)
      as H.
    fold c r in H.
    destruct (Nat.ltb_spec (S k) (attempts propagationTimeout)) as [Hlt|Hge];
      destruct (studioRetryable e); cbn [andb] in H.
    + split; [split; [auto|intros _; exact H]|].
      intros [[=]|Hle]. lia.
    + split; [split; [|intros [[=] _]]|intros _; exact H].
      intros [r2 H2]. apply lookup_lt_Some in H2. lia.
    + split; [split; [|intros [_ Hlt]; lia]|intros _; exact H].
      intros [r2 H2]. apply lookup_lt_Some in H2. lia.
    + split; [split; [|intros [[=] _]]|intros _; exact H].
      intros [r2 H2]. apply lookup_lt_Some in H2. lia.
  - intros c r Hk.
    pose proof (activation_create_exchange srv propagationTimeout d meta s k e
                  Hk) as H.
    fold c r in H.
    destruct (Nat.ltb_spec (S k) (attempts propagationTimeout)) as [Hlt|Hge];
      destruct (activationRetryable e); cbn [andb] in H.
    + split; [split; [auto|intros _; exact H]|].
      intros [[=]|Hle]. lia.
    + split; [split; [|intros [[=] _]]|intros _; exact H].
      intros [r2 H2]. apply lookup_lt_Some in H2. lia.
    + split; [split; [|intros [_ Hlt]; lia]|intros _; exact H].
      intros [r2 H2]. apply lookup_lt_Some in H2. lia.
    + split; [split; [|intros [[=] _]]|intros _; exact H].
      intros [r2 H2]. apply lookup_lt_Some in H2. lia.
Qed.

Lemma C7_witness :
  let d := resourceWithId "" true in
  let cs := CreateStudioWithContext (createStudioInput d emptyClient) in
  let ca := CreateActivationWithContext (createActivationInput d emptyClient) in
  let studio :=
    run (failingInTurn [roleNotReady] accessDenied)
      (resourceStudioCreate 120000 d emptyClient) O in
  let activation :=
    run (failingInTurn [notExistingRole] accessDenied)
      (resourceActivationCreate 120000 d emptyClient) O in
  ((exists r2, studio.2 !! 1%nat = Some (Ev cs r2))
   /\ List.length studio.2 = 2%nat
      /\ studio.1.1
         = Returned (d, [errorDiag "creating EMR Studio: %s"
                           [ArgE (AwsError accessDenied)]]))
  /\ ((exists r2, activation.2 !! 1%nat = Some (Ev ca r2))
      /\ List.length activation.2 = 2%nat
         /\ activation.1.1
            = Returned (d, [errorDiag "creating SSM activation: %s"
                              [ArgE (AwsError accessDenied)]])).
Proof.
  assert (HW : (1 < attempts 120000)%nat) by (apply Nat.ltb_lt; reflexivity).
  cbv zeta. split; split.
  - apply (proj1 (proj1 (C7_create_retry 120000 (resourceWithId "" true)
                           emptyClient nat
                           (failingInTurn [roleNotReady] accessDenied) O 0
                           roleNotReady) eq_refl)).
    split; [reflexivity|exact HW].
  - apply (proj2 (proj1 (C7_create_retry 120000 (resourceWithId "" true)
                           emptyClient nat
                           (failingInTurn [roleNotReady] accessDenied) O 1
                           accessDenied) eq_refl)).
    left. reflexivity.
  - apply (proj1 (proj2 (C7_create_retry 120000 (resourceWithId "" true)
                           emptyClient nat
                           (failingInTurn [notExistingRole] accessDenied) O 0
                           notExistingRole) eq_refl)).
    split; [reflexivity|exact HW].
  - apply (proj2 (proj2 (C7_create_retry 120000 (resourceWithId "" true)
                           emptyClient nat
                           (failingInTurn [notExistingRole] accessDenied) O 1
                           accessDenied) eq_refl)).
    left. reflexivity.
Defined.

(** ** Errors while deleting *)

Lemma waitLoop_failure {S : Type} (srv : Remote S) (conf : retry.StateChangeConf)
    (threatIntelSetID detectorID : string) (ev : Event) (err : error)
    (n : nat) :
  forall (last : string) (s s' : S) o t,
    run srv
      (retry.waitLoop n conf
         (threatintelsetRefreshStatusFunc threatIntelSetID detectorID) last) s
    = (o, s', t) ->
    In ev t -> failure ev = Some err ->
    exists res, o = Returned (res, Some err).
Proof.
  induction n as [|n IH]; intros last s s' o t.
  - cbn. intros [= <- <- <-] [].
  - cbn [retry.waitLoop]. unfold threatintelsetRefreshStatusFunc.
    prog_unfold. rewrite run_call.
    destruct (respond srv _ s) as [[resp|e] s1].
    + destruct (guardduty.GetThreatIntelSetOutput.Status resp) as [st|];
        cbn [bind].
      * destruct (existsb (String.eqb st) (retry.Target conf)).
        { cbn. intros [= <- <- <-] [<-|[]]. discriminate. }
        destruct (existsb (String.eqb st) (retry.Pending conf)).
        { destruct (run srv _ s1) as [[o1 s2] t1] eqn:HR.
          intros [= <- <- <-] [<-|HI]; [discriminate|].
          intros HF. exact (IH _ _ _ _ _ HR HI HF). }
        cbn. intros [= <- <- <-] [<-|[]]. discriminate.
      * cbn. intros [= <- <- <-] [<-|[]]. discriminate.
    + cbn. intros [= <- <- <-] [<-|[]]. cbn. intros [= <-]. eauto.
Qed.

(** C8.  Whenever a remote call fails during a delete handler, the handler
    returns with the resource as it was, and either the failure is the one
    that is swallowed (the studio's delete call failing with the error code
    [InternalServerException]) and no diagnostic is returned, or the handler
    returns one error diagnostic that carries the error unchanged. *)
Theorem C8_delete_errors (h : Handler) (d : ResourceData) (meta : AWSClient)
    (S : Type) (srv : Remote S) (s s' : S) o t (ev : Event) (err : error) :
  run srv (resourceDelete h d meta) s = (o, s', t) ->
  In ev t ->
  failure ev = Some err ->
  exists diags,
    o = Returned (d, diags)
    /\ if swallowed h err then diags = []
       else exists format args,
              diags = [errorDiag format args] /\ In (ArgE err) args.
Proof.
  destruct h; cbn [resourceDelete swallowed].
  - unfold resourceThreatIntelSetDelete.
    destruct (DecodeThreatIntelSetID (Id d)) as [[tis det] [e|]].
    + cbn. intros [= <- <- <-] [].
    + unfold mbind at 1, Prog_bind at 1, call. cbn [bind]. rewrite run_call.
      destruct (respond srv _ s) as [[[]|e] s1].
      * unfold mbind at 1, Prog_bind at 1. rewrite run_bind.
        unfold retry.WaitForStateContext.
        destruct (run srv _ s1) as [[o1 s2] t1] eqn:HR.
        destruct o1 as [w|msg].
        { destruct (run srv _ s2) as [[o2 s3] t2] eqn:HR2.
          intros [= <- <- <-] [<-|HI]; [discriminate|].
          intros HF.
          assert (HI1 : In ev t1).
          { destruct w as [res [e|]]; cbn in HR2; injection HR2 as <- <- <-;
              rewrite app_nil_r in HI; exact HI. }
          destruct (waitLoop_failure srv _ _ _ _ _ _ _ _ _ _ _ HR HI1 HF)
            as [res [= ->]].
          cbn in HR2. injection HR2 as <- <- <-.
          eexists. split; [reflexivity|].
          eexists _, _. split; [reflexivity|]. cbn. auto. }
        { intros [= <- <- <-] [<-|HI]; [discriminate|].
          intros HF.
          destruct (waitLoop_failure srv _ _ _ _ _ _ _ _ _ _ _ HR HI HF)
            as [res [=]]. }
      * cbn. intros [= <- <- <-] [<-|[]]. cbn. intros [= <-].
        eexists. split; [reflexivity|].
        eexists _, _. split; [reflexivity|]. cbn. auto.
  - unfold resourceStudioDelete. prog_unfold. rewrite run_call.
    destruct (respond srv _ s) as [[[]|e] s1].
    + cbn. intros [= <- <- <-] [<-|[]]. discriminate.
    + cbn [unpack tfawserr.ErrCodeEquals].
      destruct (String.eqb (Code e) emr.ErrCodeInternalServerException) eqn:E;
        cbn [run]; intros [= <- <- <-] [<-|[]]; cbn [failure];
        intros [= <-]; cbn [tfawserr.ErrCodeEquals]; rewrite E.
      * eexists. split; reflexivity.
      * eexists. split; [reflexivity|].
        eexists _, _. split; [reflexivity|]. cbn. auto.
  - unfold resourceActivationDelete. prog_unfold. rewrite run_call.
    destruct (respond srv _ s) as [[[]|e] s1].
    + cbn. intros [= <- <- <-] [<-|[]]. discriminate.
    + cbn. intros [= <- <- <-] [<-|[]]. cbn. intros [= <-].
      eexists. split; [reflexivity|].
      eexists _, _. split; [reflexivity|]. cbn. auto.
Qed.

Lemma C8_witness :
  exists diags,
    (run (rejecting internalServerError)
       (resourceStudioDelete (resourceWithId "es-1" false) emptyClient) tt).1.1
    = Returned (resourceWithId "es-1" false, diags)
    /\ diags = [].
Proof.
  exact (C8_delete_errors StudioResource (resourceWithId "es-1" false)
           emptyClient unit (rejecting internalServerError) tt tt _ _
           (Ev (DeleteStudioWithContext
                  {| emr.DeleteStudioInput.StudioId := "es-1" |})
               (Fail internalServerError))
           (AwsError internalServerError)
           eq_refl (or_introl eq_refl) eq_refl).
Defined.

(** ** Waiting for a status *)

Lemma existsb_eqb_In (x : string) (l : list string) :
  existsb (String.eqb x) l = true <-> In x l.
Proof.
  rewrite existsb_exists. split.
  - intros (y & Hy & E). apply String.eqb_eq in E. now subst.
  - intros H. exists x. split; [exact H|apply String.eqb_refl].
Qed.

Lemma existsb_eqb_not_In (x : string) (l : list string) :
  ~ In x l -> existsb (String.eqb x) l = false.
Proof.
  intros H. destruct (existsb (String.eqb x) l) eqn:E; [|reflexivity].
  apply existsb_eqb_In in E. contradiction.
Qed.

Section Waiting.

Variable conf : retry.StateChangeConf.
Variables threatIntelSetID detectorID : string.
Variable obs : nat -> string.

Hypothesis disjoint : disjointStates conf.

Lemma waitLoop_pending_step (n k : nat) (last : string) :
  In (obs k) (retry.Pending conf) ->
  run (observe obs)
    (retry.waitLoop (S n) conf
       (threatintelsetRefreshStatusFunc threatIntelSetID detectorID) last) k
  = let '(o, k', t) :=
      run (observe obs)
        (retry.waitLoop n conf
           (threatintelsetRefreshStatusFunc threatIntelSetID detectorID)
           (obs k)) (S k) in
    (o, k', reads threatIntelSetID detectorID obs k 1 ++ t).
Proof.
  intros HP. cbn [retry.waitLoop]. unfold threatintelsetRefreshStatusFunc.
  prog_unfold. rewrite run_call. cbn [observe respond statusOutput
    guardduty.GetThreatIntelSetOutput.Status bind].
  rewrite (existsb_eqb_not_In _ _ (disjoint _ HP)).
  rewrite (proj2 (existsb_eqb_In _ _) HP).
  reflexivity.
Qed.

Lemma waitLoop_target_step (n k : nat) (last : string) :
  In (obs k) (retry.Target conf) ->
  run (observe obs)
    (retry.waitLoop (S n) conf
       (threatintelsetRefreshStatusFunc threatIntelSetID detectorID) last) k
  = (Returned (Some (statusOutput (obs k)), None), S k,
     reads threatIntelSetID detectorID obs k 1).
Proof.
  intros HT. cbn [retry.waitLoop]. unfold threatintelsetRefreshStatusFunc.
  prog_unfold. rewrite run_call. cbn [observe respond statusOutput
    guardduty.GetThreatIntelSetOutput.Status bind].
  rewrite (proj2 (existsb_eqb_In _ _) HT).
  reflexivity.
Qed.

Lemma reads_app (k n m : nat) :
  reads threatIntelSetID detectorID obs k (n + m)
  = reads threatIntelSetID detectorID obs k n
    ++ reads threatIntelSetID detectorID obs (k + n) m.
Proof.
  revert k. induction n as [|n IH]; intros k; cbn [reads Nat.add].
  - now rewrite Nat.add_0_r.
  - cbn. rewrite IH. now rewrite Nat.add_succ_r.
Qed.

(** After [n] pending statuses the first target status ends the wait with
    success, at the read that shows it. *)
Lemma waitLoop_reaches_target (n : nat) :
  forall (fuel k : nat) (last : string),
    (n < fuel)%nat ->
    (forall i, (i < n)%nat -> In (obs (k + i)) (retry.Pending conf)) ->
    In (obs (k + n)) (retry.Target conf) ->
    run (observe obs)
      (retry.waitLoop fuel conf
         (threatintelsetRefreshStatusFunc threatIntelSetID detectorID) last) k
    = (Returned (Some (statusOutput (obs (k + n))), None), S (k + n),
       reads threatIntelSetID detectorID obs k (S n)).
Proof.
  induction n as [|n IH]; intros fuel k last Hf HP HT.
  - destruct fuel as [|fuel]; [lia|]. rewrite Nat.add_0_r in *.
    now apply waitLoop_target_step.
  - destruct fuel as [|fuel]; [lia|].
    rewrite waitLoop_pending_step.
    2:{ specialize (HP O ltac:(lia)). now rewrite Nat.add_0_r in HP. }
    rewrite (IH fuel (S k) (obs k)).
    + rewrite Nat.add_succ_r. reflexivity.
    + lia.
    + intros i Hi. specialize (HP (S i) ltac:(lia)).
      now rewrite Nat.add_succ_r in HP.
    + now rewrite Nat.add_succ_r in HT.
Qed.

(** While every status read before the timeout is pending, the wait ends
    with the timeout error after the last read that fits. *)
Lemma waitLoop_times_out (fuel : nat) :
  forall (k : nat) (last : string),
    (forall i, (i < fuel)%nat -> In (obs (k + i)) (retry.Pending conf)) ->
    run (observe obs)
      (retry.waitLoop fuel conf
         (threatintelsetRefreshStatusFunc threatIntelSetID detectorID) last) k
    = (Returned
         (None,
          Some (TimeoutError None
                  (match fuel with O => last | S m => obs (k + m) end)
                  (retry.Timeout conf) (retry.Target conf))),
       (k + fuel)%nat,
       reads threatIntelSetID detectorID obs k fuel).
Proof.
  induction fuel as [|fuel IH]; intros k last HP.
  - cbn. now rewrite Nat.add_0_r.
  - rewrite waitLoop_pending_step.
    2:{ specialize (HP O ltac:(lia)). now rewrite Nat.add_0_r in HP. }
    rewrite (IH (S k) (obs k)).
    + rewrite Nat.add_succ_r. cbn [reads app].
      destruct fuel as [|m]; [now rewrite !Nat.add_0_r|].
      now rewrite !Nat.add_succ_r.
    + intros i Hi. specialize (HP (S i) ltac:(lia)).
      now rewrite Nat.add_succ_r in HP.
Qed.

End Waiting.

Lemma createStateConf_disjoint : disjointStates createStateConf.
Proof.
  intros st HP HT. cbn in HP, HT.
  repeat destruct HP as [<-|HP]; try contradiction;
    repeat destruct HT as [HT|HT]; try contradiction; discriminate HT.
Qed.

Lemma deleteStateConf_disjoint : disjointStates deleteStateConf.
Proof.
  intros st HP HT. cbn in HP, HT.
  repeat destruct HP as [<-|HP]; try contradiction;
    repeat destruct HT as [HT|HT]; try contradiction; discriminate HT.
Qed.

(** C6.  Both waits of the threat intel set (after create and after delete)
    have a timeout of five minutes and a minimum interval of three seconds,
    which leaves room for 101 status reads.  Against a service that reports
    the statuses [obs 0], [obs 1], ...: when the first [n] statuses are
    pending and status [n] is a target, the wait returns success having made
    exactly [n + 1] reads, so it returns at the read that first shows the
    target (for pending, pending, target: at the third read); when all the
    statuses read before the timeout are pending, the wait returns the
    timeout error, and the create and the delete handler return it in an
    error diagnostic. *)
Theorem C6_poll_loop (obs : nat -> string) (conf : retry.StateChangeConf)
    (threatIntelSetID detectorID : string) :
  In conf [createStateConf; deleteStateConf] ->
  (retry.Timeout conf = (5 * retry.Minute)%Z
   /\ retry.MinTimeout conf = (3 * retry.Second)%Z
   /\ retry.polls conf = 101%nat)
  /\ (forall n : nat,
        (n < retry.polls conf)%nat ->
        (forall i, (i < n)%nat -> In (obs i) (retry.Pending conf)) ->
        In (obs n) (retry.Target conf) ->
        run (observe obs)
          (retry.WaitForStateContext conf
             (threatintelsetRefreshStatusFunc threatIntelSetID detectorID)) O
        = (Returned (Some (statusOutput (obs n)), None), S n,
           reads threatIntelSetID detectorID obs O (S n)))
  /\ ((forall i, (i < retry.polls conf)%nat ->
         In (obs i) (retry.Pending conf)) ->
      let timeout :=
        TimeoutError None (obs 100%nat) (retry.Timeout conf)
          (retry.Target conf) in
      run (observe obs)
        (retry.WaitForStateContext conf
           (threatintelsetRefreshStatusFunc threatIntelSetID detectorID)) O
      = (Returned (None, Some timeout), 101%nat,
         reads threatIntelSetID detectorID obs O 101)
      /\ (conf = createStateConf ->
          forall d meta,
            GetString d "detector_id" = detectorID ->
            threatIntelSetID = "tis1" ->
            (run (observe obs) (resourceThreatIntelSetCreate d meta) O).1.1
            = Returned
                (d, [errorDiag
                       "creating GuardDuty Threat Intel Set (%s): waiting for completion: %s"
                       [ArgS (GetString d "name"); ArgE timeout]]))
      /\ (conf = deleteStateConf ->
          forall d meta,
            DecodeThreatIntelSetID (Id d)
            = (threatIntelSetID, detectorID, None) ->
            (run (observe obs) (resourceThreatIntelSetDelete d meta) O).1.1
            = Returned
                (d, [errorDiag waitingForStatusFormat
                       [ArgS guardduty.ThreatIntelSetStatusDeleted;
                        ArgE timeout]]))).
Proof.
  intros Hconf.
  assert (Hd : disjointStates conf).
  { destruct Hconf as [<-|[<-|[]]];
      [apply createStateConf_disjoint|apply deleteStateConf_disjoint]. }
  assert (Hp : retry.polls conf = 101%nat).
  { destruct Hconf as [<-|[<-|[]]]; vm_compute; reflexivity. }
  split; [|split].
  - destruct Hconf as [<-|[<-|[]]]; repeat split; assumption.
  - intros n Hn HP HT. unfold retry.WaitForStateContext.
    apply (waitLoop_reaches_target conf threatIntelSetID detectorID obs Hd n
             (retry.polls conf) O ""); auto.
  - intros HP timeout.
    assert (HW :
      run (observe obs)
        (retry.WaitForStateContext conf
           (threatintelsetRefreshStatusFunc threatIntelSetID detectorID)) O
      = (Returned (None, Some timeout), 101%nat,
         reads threatIntelSetID detectorID obs O 101)).
    { unfold retry.WaitForStateContext.
      rewrite (waitLoop_times_out conf threatIntelSetID detectorID obs Hd
                 (retry.polls conf) O "" HP).
      rewrite Hp. reflexivity. }
    split; [exact HW|split].
    + intros -> d meta Hdet ->. unfold resourceThreatIntelSetCreate.
      unfold mbind at 1, Prog_bind at 1, call. cbn [bind]. rewrite run_call.
      cbn [observe respond deref
             guardduty.CreateThreatIntelSetOutput.ThreatIntelSetId].
      unfold mbind at 1, Prog_bind at 1. cbn [bind].
      unfold mbind at 1, Prog_bind at 1. rewrite run_bind.
      rewrite Hdet, HW. reflexivity.
    + intros -> d meta HD. unfold resourceThreatIntelSetDelete. rewrite HD.
      unfold mbind at 1, Prog_bind at 1, call. cbn [bind]. rewrite run_call.
      cbn [observe respond agreeable fst]. cbn [bind].
      unfold mbind at 1, Prog_bind at 1. rewrite run_bind.
      rewrite HW. reflexivity.
Qed.

Lemma C6_witness :
  run (observe activeAtThirdRead)
    (retry.WaitForStateContext createStateConf
       (threatintelsetRefreshStatusFunc "tis1" "det")) O
  = (Returned (Some (statusOutput guardduty.ThreatIntelSetStatusActive), None),
     3%nat, reads "tis1" "det" activeAtThirdRead O 3)
  /\ (run (observe deletePendingForever)
        (resourceThreatIntelSetDelete (resourceWithId "det:tis1" false)
           emptyClient) O).1.1
     = Returned
         (resourceWithId "det:tis1" false,
          [errorDiag waitingForStatusFormat
             [ArgS guardduty.ThreatIntelSetStatusDeleted;
              ArgE (TimeoutError None guardduty.ThreatIntelSetStatusDeletePending
                      (5 * retry.Minute)
                      [guardduty.ThreatIntelSetStatusDeleted])]]).
Proof.
  split.
  - apply (proj1 (proj2 (C6_poll_loop activeAtThirdRead createStateConf
                           "tis1" "det" (or_introl eq_refl))) 2%nat).
    + vm_compute. lia.
    + intros i Hi. destruct i as [|[|i]]; [left; reflexivity..|lia].
    + left. reflexivity.
  - apply (proj2 (proj2 (proj2 (proj2 (C6_poll_loop deletePendingForever
                           deleteStateConf "tis1" "det"
                           (or_intror (or_introl eq_refl))))
                   (fun i _ => or_intror (or_intror (or_intror (or_intror
                                 (or_introl eq_refl))))))) eq_refl).
    reflexivity.
Defined.

(** ** Tags after a read *)

Lemma GetMap_SetAttr_eq (d : ResourceData) (key : string)
    (m : gmap string string) :
  GetMap (SetAttr d key (Some (VMap m))) key = m.
Proof.
  unfold GetMap, GetOk, lookupAttr, SetAttr. cbn [attrs].
  rewrite lookup_insert_eq. cbn [isZero].
  case_bool_decide; [now subst|reflexivity].
Qed.

Lemma GetMap_SetAttr_ne (d : ResourceData) (key key' : string)
    (v : option Value) :
  key' <> key -> GetMap (SetAttr d key' v) key = GetMap d key.
Proof.
  intros H. unfold GetMap, GetOk, lookupAttr, SetAttr. cbn [attrs].
  destruct v; [rewrite lookup_insert_ne|rewrite lookup_delete_ne]; auto.
Qed.

Lemma RemoveDefaultConfig_subseteq (defaultTags tags : gmap string string) :
  tftags.RemoveDefaultConfig defaultTags tags ⊆ tags.
Proof. apply map_filter_subseteq. Qed.

Lemma tags_after_set (d : ResourceData) (defaultTags tags : gmap string string) :
  let d' :=
    SetAttr
      (SetAttr d "tags"
         (Some (VMap (tftags.RemoveDefaultConfig defaultTags tags))))
      "tags_all" (Some (VMap tags)) in
  GetMap d' "tags_all" = tags
  /\ GetMap d' "tags" = tftags.RemoveDefaultConfig defaultTags tags.
Proof.
  cbv zeta. split.
  - apply GetMap_SetAttr_eq.
  - rewrite GetMap_SetAttr_ne by discriminate. apply GetMap_SetAttr_eq.
Qed.

(** C9.  After a read that found the resource and returned no diagnostic,
    the stored [tags] are the stored [tags_all] with the default-injected
    tags removed, so [tags] is included in [tags_all]: every tag of [tags]
    is in [tags_all] with the same value. *)
Theorem C9_tags_included_in_tags_all (h : Handler) (d : ResourceData)
    (meta : AWSClient) (S : Type) (srv : Remote S) (s s' : S)
    (d' : ResourceData) (t : list Event) :
  run srv (resourceRead h d meta) s = (Returned (d', []), s', t) ->
  existsb notFound t = false ->
  GetMap d' "tags"
  = tftags.RemoveDefaultConfig (DefaultTagsConfig meta) (GetMap d' "tags_all")
  /\ GetMap d' "tags" ⊆ GetMap d' "tags_all".
Proof.
  intros HR HF.
  assert (G : exists d0 tags,
             d' = SetAttr
                    (SetAttr d0 "tags"
                       (Some (VMap (tftags.RemoveDefaultConfig
                                      (DefaultTagsConfig meta) tags))))
                    "tags_all" (Some (VMap tags))).
  { destruct h; cbn [resourceRead] in HR.
    - unfold resourceThreatIntelSetRead in HR.
      destruct (DecodeThreatIntelSetID (Id d)) as [[tis det] [err|]].
      + cbn in HR. discriminate HR.
      + revert HR. prog_unfold. rewrite run_call.
        destruct (respond srv _ s) as [[resp|e] s1]; cbn [unpack].
        * cbn [run]. intros [= <- <- <-]. eauto.
        * destruct (tfawserr.ErrMessageContains (Some (AwsError e))
                      guardduty.ErrCodeBadRequestException
                      threatIntelSetNotOwned) eqn:E;
            cbn [run]; intros [= <- <- <-].
          cbn [existsb notFound] in HF. rewrite E in HF. discriminate HF.
    - revert HR. unfold resourceStudioRead. prog_unfold. rewrite run_call.
      destruct (respond srv _ s) as [[studio|e] s1].
      + rewrite andb_false_r. cbn [run bind]. intros [= <- <- <-]. eauto.
      + destruct (tfresource.NotFound (Some e)) eqn:E.
        * destruct (IsNewResource d); cbn [negb andb run];
            intros [= <- <- <-].
          cbn [existsb notFound] in HF. rewrite E in HF. discriminate HF.
        * rewrite andb_false_r. cbn [run]. intros [= <- <- <-].
    - revert HR. unfold resourceActivationRead. prog_unfold. rewrite run_call.
      destruct (respond srv _ s) as [[resp|e] s1].
      + destruct resp as [[|a l]].
        * destruct (IsNewResource d); cbn; intros [= <- <- <-].
          cbn in HF. discriminate HF.
        * rewrite andb_false_r. cbn [run bind lookup list_lookup].
          cbn. intros [= <- <- <-]. eauto.
      + cbn. intros [= <- <- <-]. }
  destruct G as (d0 & tags & ->).
  destruct (tags_after_set d0 (DefaultTagsConfig meta) tags) as [Hall Htags].
  cbv zeta in Hall, Htags. rewrite Hall, Htags.
  split; [reflexivity|apply RemoveDefaultConfig_subseteq].
Qed.

(** ** Create followed by read, against the echoing service *)

Lemma GetOk_SetAttr_eq (d : ResourceData) (key : string) (v : option Value) :
  GetOk (SetAttr d key v) key
  = match v with
    | Some x => if isZero x then None else Some x
    | None => None
    end.
Proof.
  unfold GetOk, lookupAttr, SetAttr. cbn [attrs].
  destruct v; [now rewrite lookup_insert_eq|now rewrite lookup_delete_eq].
Qed.

Lemma GetOk_SetAttr_ne (d : ResourceData) (key key' : string)
    (v : option Value) :
  key' <> key -> GetOk (SetAttr d key' v) key = GetOk d key.
Proof.
  intros H. unfold GetOk, lookupAttr, SetAttr. cbn [attrs].
  destruct v; [rewrite lookup_insert_ne|rewrite lookup_delete_ne]; auto.
Qed.

Lemma GetString_set (d : ResourceData) (key : string) (v : option string) :
  GetString (SetAttr d key (VString <$> v)) key = StringValue v.
Proof.
  unfold GetString. rewrite GetOk_SetAttr_eq.
  destruct v as [s|]; cbn; [|reflexivity].
  destruct (String.eqb_spec s ""); [now subst|reflexivity].
Qed.

Lemma GetString_set_some (d : ResourceData) (key s : string) :
  GetString (SetAttr d key (Some (VString s))) key = s.
Proof. apply (GetString_set d key (Some s)). Qed.

Lemma GetInt_set (d : ResourceData) (key : string) (v : option Z) :
  GetInt (SetAttr d key (VInt <$> v)) key = default 0%Z v.
Proof.
  unfold GetInt. rewrite GetOk_SetAttr_eq.
  destruct v as [n|]; cbn; [|reflexivity].
  destruct (Z.eqb_spec n 0); [now subst|reflexivity].
Qed.

Lemma GetBool_set (d : ResourceData) (key : string) (b : bool) :
  GetBool (SetAttr d key (Some (VBool b))) key = b.
Proof.
  unfold GetBool. rewrite GetOk_SetAttr_eq. now destruct b.
Qed.

Lemma GetSet_set (d : ResourceData) (key : string) (xs : gset string) :
  GetSet (SetAttr d key (Some (VSet xs))) key = xs.
Proof.
  unfold GetSet. rewrite GetOk_SetAttr_eq. cbn [isZero].
  case_bool_decide; [now subst|reflexivity].
Qed.

Lemma GetString_unset (d : ResourceData) (key : string) :
  GetOk d key = None -> GetString d key = "".
Proof. unfold GetString. now intros ->. Qed.

Lemma GetInt_unset (d : ResourceData) (key : string) :
  GetOk d key = None -> GetInt d key = 0%Z.
Proof. unfold GetInt. now intros ->. Qed.

Lemma GetString_SetAttr_ne (d : ResourceData) (key key' : string)
    (v : option Value) :
  key' <> key -> GetString (SetAttr d key' v) key = GetString d key.
Proof. intros H. unfold GetString. now rewrite GetOk_SetAttr_ne. Qed.

Lemma GetInt_SetAttr_ne (d : ResourceData) (key key' : string)
    (v : option Value) :
  key' <> key -> GetInt (SetAttr d key' v) key = GetInt d key.
Proof. intros H. unfold GetInt. now rewrite GetOk_SetAttr_ne. Qed.

Lemma GetBool_SetAttr_ne (d : ResourceData) (key key' : string)
    (v : option Value) :
  key' <> key -> GetBool (SetAttr d key' v) key = GetBool d key.
Proof. intros H. unfold GetBool. now rewrite GetOk_SetAttr_ne. Qed.

Lemma GetSet_SetAttr_ne (d : ResourceData) (key key' : string)
    (v : option Value) :
  key' <> key -> GetSet (SetAttr d key' v) key = GetSet d key.
Proof. intros H. unfold GetSet. now rewrite GetOk_SetAttr_ne. Qed.

Ltac get_other :=
  repeat first
    [ rewrite GetString_SetAttr_ne by discriminate
    | rewrite GetInt_SetAttr_ne by discriminate
    | rewrite GetBool_SetAttr_ne by discriminate
    | rewrite GetSet_SetAttr_ne by discriminate
    | rewrite GetMap_SetAttr_ne by discriminate ].

Section ActivationEcho.

Variables (d : ResourceData) (meta : AWSClient).

Let input := createActivationInput d meta.

Lemma createActivationInput_name :
  StringValue (ssm.CreateActivationInput.DefaultInstanceName input)
  = GetString d "name".
Proof.
  subst input. unfold createActivationInput.
  destruct (GetOk d "name") eqn:E1; destruct (GetOk d "description");
    destruct (GetOk d "expiration_date"); destruct (GetOk d "iam_role");
    destruct (GetOk d "registration_limit");
    destruct (Nat.ltb 0 _); cbn;
    try reflexivity; symmetry; now apply GetString_unset.
Qed.

Lemma createActivationInput_description :
  StringValue (ssm.CreateActivationInput.Description input)
  = GetString d "description".
Proof.
  subst input. unfold createActivationInput.
  destruct (GetOk d "name"); destruct (GetOk d "description") eqn:E1;
    destruct (GetOk d "expiration_date"); destruct (GetOk d "iam_role");
    destruct (GetOk d "registration_limit");
    destruct (Nat.ltb 0 _); cbn;
    try reflexivity; symmetry; now apply GetString_unset.
Qed.

Lemma createActivationInput_limit :
  default 0%Z (ssm.CreateActivationInput.RegistrationLimit input)
  = GetInt d "registration_limit".
Proof.
  subst input. unfold createActivationInput.
  destruct (GetOk d "name"); destruct (GetOk d "description");
    destruct (GetOk d "expiration_date"); destruct (GetOk d "iam_role");
    destruct (GetOk d "registration_limit") eqn:E1;
    destruct (Nat.ltb 0 _); cbn;
    try reflexivity; symmetry; now apply GetInt_unset.
Qed.

Lemma createActivationInput_role :
  ssm.CreateActivationInput.IamRole input
  = match GetOk d "iam_role" with
    | Some _ => GetString d "iam_role"
    | None => GetString d "name"
    end.
Proof.
  subst input. unfold createActivationInput.
  destruct (GetOk d "name"); destruct (GetOk d "description");
    destruct (GetOk d "expiration_date"); destruct (GetOk d "iam_role");
    destruct (GetOk d "registration_limit");
    destruct (Nat.ltb 0 _); reflexivity.
Qed.

Lemma createActivationInput_expiration :
  ssm.CreateActivationInput.ExpirationDate input
  = match GetOk d "expiration_date" with
    | Some _ => Some (time.Parse (GetString d "expiration_date"))
    | None => None
    end.
Proof.
  subst input. unfold createActivationInput, GetString.
  destruct (GetOk d "name"); destruct (GetOk d "description");
    destruct (GetOk d "expiration_date") as [[]|];
    destruct (GetOk d "iam_role");
    destruct (GetOk d "registration_limit");
    destruct (Nat.ltb 0 _); reflexivity.
Qed.

End ActivationEcho.

Lemma activation_create_read_echo (propagationTimeout : Z) (d : ResourceData)
    (meta : AWSClient) (st : Stored) :
  exists d' st' t,
    run echo (resourceActivationCreate propagationTimeout d meta) st
    = (Returned (d', []), st', t)
    /\ Id d' = echoActivationId
    /\ GetString d' "name" = GetString d "name"
    /\ GetString d' "description" = GetString d "description"
    /\ GetInt d' "registration_limit" = GetInt d "registration_limit"
    /\ GetString d' "iam_role"
       = match GetOk d "iam_role" with
         | Some _ => GetString d "iam_role"
         | None => GetString d "name"
         end
    /\ GetString d' "expiration_date"
       = match GetOk d "expiration_date" with
         | Some _ =>
             time.Format (time.Parse (GetString d "expiration_date"))
         | None => time.Format time.zero
         end.
Proof.
  unfold resourceActivationCreate, retry.RetryContext.
  destruct (polls_positive
              {| retry.Pending := ["retryableerror"];
                 retry.Target := ["success"];
                 retry.Timeout := propagationTimeout;
                 retry.MinTimeout := 500 * retry.Millisecond |}) as [n ->].
  cbn [retry.retryLoop]. prog_unfold. rewrite run_call.
  cbn [echo respond unpack tfawserr.ErrMessageContains bind
         tfresource.TimedOut ssm.CreateActivationOutput.ActivationId].
  rewrite run_bind. unfold resourceActivationRead. prog_unfold.
  rewrite run_call.
  cbn [echo respond storedActivation asksFor
         ssm.DescribeActivationsInput.Filters
         ssm.DescribeActivationsFilter.FilterKey
         ssm.DescribeActivationsFilter.FilterValues Id SetId SetAttr].
  change (String.eqb "ActivationIds" "ActivationIds") with true.
  change (String.eqb echoActivationId echoActivationId) with true.
  cbn [andb ssm.DescribeActivationsOutput.ActivationList List.length Nat.eqb
         andb negb IsNewResource lookup list_lookup bind run].
  rewrite andb_false_r.
  cbn [lookup list_lookup bind run app fst snd].
  eexists _, _, _. split; [reflexivity|].
  cbn [echoActivation ssm.Activation.DefaultInstanceName
         ssm.Activation.Description ssm.Activation.ExpirationDate
         ssm.Activation.Expired ssm.Activation.IamRole
         ssm.Activation.RegistrationLimit ssm.Activation.RegistrationsCount
         ssm.Activation.Tags].
  repeat split.
  - get_other. rewrite GetString_set. apply createActivationInput_name.
  - get_other. rewrite GetString_set. apply createActivationInput_description.
  - get_other. rewrite GetInt_set. apply createActivationInput_limit.
  - get_other. rewrite GetString_set. apply createActivationInput_role.
  - get_other. rewrite GetString_set_some.
    rewrite createActivationInput_expiration.
    destruct (GetOk d "expiration_date"); reflexivity.
Qed.

Lemma threat_intel_set_create_read_echo (d : ResourceData) (meta : AWSClient)
    (st : Stored) :
  strings.Contains (GetString d "detector_id") ":" = false ->
  exists d' st' t,
    run echo (resourceThreatIntelSetCreate d meta) st
    = (Returned (d', []), st', t)
    /\ Id d'
       = EncodeThreatIntelSetID (GetString d "detector_id") echoThreatIntelSetId
    /\ GetString d' "detector_id" = GetString d "detector_id"
    /\ GetString d' "name" = GetString d "name"
    /\ GetString d' "format" = GetString d "format"
    /\ GetString d' "location" = GetString d "location"
    /\ GetBool d' "activate" = GetBool d "activate".
Proof.
  intros Hdet. unfold resourceThreatIntelSetCreate.
  unfold mbind at 1, Prog_bind at 1, call. cbn [bind]. rewrite run_call.
  cbn [echo respond deref
         guardduty.CreateThreatIntelSetOutput.ThreatIntelSetId].
  unfold mbind at 1, Prog_bind at 1. cbn [bind].
  unfold mbind at 1, Prog_bind at 1. rewrite run_bind.
  unfold retry.WaitForStateContext.
  destruct (polls_positive createStateConf) as [n ->].
  cbn [retry.waitLoop]. unfold threatintelsetRefreshStatusFunc.
  prog_unfold. rewrite run_call.
  cbn [echo respond storedThreatIntelSet
         guardduty.GetThreatIntelSetInput.DetectorId
         guardduty.GetThreatIntelSetInput.ThreatIntelSetId
         guardduty.CreateThreatIntelSetInput.DetectorId].
  rewrite !String.eqb_refl. cbn [andb].
  cbn [echoThreatIntelSet guardduty.GetThreatIntelSetOutput.Status bind
         guardduty.CreateThreatIntelSetInput.Activate].
  assert (HT : existsb
                 (String.eqb
                    (if GetBool d "activate"
                     then guardduty.ThreatIntelSetStatusActive
                     else guardduty.ThreatIntelSetStatusInactive))
                 (retry.Target createStateConf) = true)
    by (destruct (GetBool d "activate"); reflexivity).
  rewrite HT. cbn [run snd StringValue default from_option id].
  rewrite run_bind. unfold resourceThreatIntelSetRead. cbn [Id SetId].
  rewrite (Decode_Encode_ok _ echoThreatIntelSetId Hdet eq_refl).
  prog_unfold. rewrite run_call.
  cbn [echo respond storedThreatIntelSet
         guardduty.GetThreatIntelSetInput.DetectorId
         guardduty.GetThreatIntelSetInput.ThreatIntelSetId
         guardduty.CreateThreatIntelSetInput.DetectorId].
  rewrite !String.eqb_refl. cbn [andb unpack run fst snd app].
  eexists _, _, _. split; [reflexivity|].
  cbn [echoThreatIntelSet guardduty.GetThreatIntelSetOutput.Status
         guardduty.GetThreatIntelSetOutput.Format
         guardduty.GetThreatIntelSetOutput.Location
         guardduty.GetThreatIntelSetOutput.Name
         guardduty.GetThreatIntelSetOutput.Tags
         guardduty.CreateThreatIntelSetInput.Activate
         guardduty.CreateThreatIntelSetInput.Format
         guardduty.CreateThreatIntelSetInput.Location
         guardduty.CreateThreatIntelSetInput.Name
         guardduty.CreateThreatIntelSetInput.Tags StringValue default].
  repeat split.
  - get_other. now rewrite GetString_set_some.
  - get_other. now rewrite GetString_set.
  - get_other. now rewrite GetString_set.
  - get_other. now rewrite GetString_set.
  - get_other. rewrite GetBool_set. now destruct (GetBool d "activate").
Qed.

Lemma optional_string (d : ResourceData) (key : string) :
  StringValue
    (match GetOk d key with
     | Some _ => Some (GetString d key)
     | None => None
     end)
  = GetString d key.
Proof.
  destruct (GetOk d key) eqn:E; [reflexivity|].
  symmetry. now apply GetString_unset.
Qed.

Lemma studio_create_read_echo (propagationTimeout : Z) (d : ResourceData)
    (meta : AWSClient) (st : Stored) :
  exists d' st' t,
    run echo (resourceStudioCreate propagationTimeout d meta) st
    = (Returned (d', []), st', t)
    /\ Id d' = echoStudioId
    /\ (forall key,
          In key ["auth_mode"; "default_s3_location"; "description";
                  "engine_security_group_id"; "idp_auth_url";
                  "idp_relay_state_parameter_name"; "name"; "service_role";
                  "user_role"; "vpc_id"; "workspace_security_group_id"] ->
          GetString d' key = GetString d key)
    /\ GetSet d' "subnet_ids" = GetSet d "subnet_ids".
Proof.
  unfold resourceStudioCreate, retry.RetryContext.
  destruct (polls_positive
              {| retry.Pending := ["retryableerror"];
                 retry.Target := ["success"];
                 retry.Timeout := propagationTimeout;
                 retry.MinTimeout := 500 * retry.Millisecond |}) as [n ->].
  cbn [retry.retryLoop]. prog_unfold. rewrite run_call.
  cbn [echo respond unpack tfawserr.ErrMessageContains bind
         tfresource.TimedOut emr.CreateStudioOutput.StudioId
         StringValue default from_option id].
  rewrite run_bind. unfold resourceStudioRead. prog_unfold.
  rewrite run_call.
  cbn [echo respond storedStudio Id SetId].
  change (String.eqb echoStudioId echoStudioId) with true.
  cbn [tfresource.NotFound]. rewrite andb_false_r.
  cbn [bind run app fst snd].
  eexists _, _, _. split; [reflexivity|].
  cbn [echoStudio createStudioInput
         emr.Studio.AuthMode emr.Studio.DefaultS3Location
         emr.Studio.Description emr.Studio.EngineSecurityGroupId
         emr.Studio.IdpAuthUrl emr.Studio.IdpRelayStateParameterName
         emr.Studio.Name emr.Studio.ServiceRole emr.Studio.StudioArn
         emr.Studio.SubnetIds emr.Studio.Tags emr.Studio.Url
         emr.Studio.UserRole emr.Studio.VpcId
         emr.Studio.WorkspaceSecurityGroupId
         emr.CreateStudioInput.AuthMode emr.CreateStudioInput.DefaultS3Location
         emr.CreateStudioInput.Description
         emr.CreateStudioInput.EngineSecurityGroupId
         emr.CreateStudioInput.IdpAuthUrl
         emr.CreateStudioInput.IdpRelayStateParameterName
         emr.CreateStudioInput.Name emr.CreateStudioInput.ServiceRole
         emr.CreateStudioInput.SubnetIds emr.CreateStudioInput.Tags
         emr.CreateStudioInput.UserRole emr.CreateStudioInput.VpcId
         emr.CreateStudioInput.WorkspaceSecurityGroupId].
  split; [reflexivity|split].
  - intros key Hkey. cbn [In] in Hkey.
    repeat destruct Hkey as [<-|Hkey]; try contradiction;
      get_other; rewrite GetString_set;
      first [reflexivity|apply optional_string].
  - get_other. rewrite GetSet_set. apply list_to_set_elements_L.
Qed.

(** The role of an activation that is submitted without one is read back
    as its name: the request is built with the name in the place of the
    role, and the role only overwrites it when it is set. *)
Lemma activation_without_role_reads_name :
  exists d' st' t,
    run echo
      (resourceActivationCreate (2 * retry.Minute) activationWithoutRole
         emptyClient) nothingStored
    = (Returned (d', []), st', t)
    /\ GetString activationWithoutRole "iam_role" = ""
    /\ GetString d' "iam_role" = "web".
Proof. eexists _, _, _. vm_compute. repeat split; reflexivity. Qed.

(** C4 as stated fails: an expiration date submitted with a fraction of a
    second, which is a valid RFC 3339 time, is read back without the
    fraction. *)
Lemma C4_counterexample :
  ~ (forall (d : ResourceData) (meta : AWSClient) d' diags st t,
       GetOk d "expiration_date" <> None ->
       run echo (resourceActivationCreate (2 * retry.Minute) d meta)
         nothingStored
       = (Returned (d', diags), st, t) ->
       GetString d' "expiration_date" = GetString d "expiration_date").
Proof.
  intros H.
  destruct (activation_create_read_echo (2 * retry.Minute)
              activationWithFraction emptyClient nothingStored)
    as (d' & st' & t & HR & _ & _ & _ & _ & _ & He).
  assert (Hset : GetOk activationWithFraction "expiration_date" <> None)
    by (vm_compute; discriminate).
  specialize (H activationWithFraction emptyClient d' [] st' t Hset HR).
  rewrite He in H. vm_compute in H. discriminate H.
Qed.

(** C4, amended.  Against the service that stores the submitted values and
    echoes them back, create followed by read returns no diagnostic and
    leaves these attributes as they were submitted.  Activation, when a role
    is submitted: the name, the description, the role and the registration
    limit, and the expiration date when formatting the parsed date as RFC
    3339 gives back the submitted text.  Threat intel set, when the detector
    identifier has no ":": the detector, the name, the format, the location
    and the activation flag.  Studio: the name, the description, the
    authentication mode, the S3 location, the roles, the identity provider
    settings, the network settings and the subnets. *)
Theorem C4_create_then_read (propagationTimeout : Z) (d : ResourceData)
    (meta : AWSClient) (st : Stored) :
  (GetString d "iam_role" <> "" ->
   exists d' st' t,
     run echo (resourceActivationCreate propagationTimeout d meta) st
     = (Returned (d', []), st', t)
     /\ GetString d' "name" = GetString d "name"
     /\ GetString d' "description" = GetString d "description"
     /\ GetString d' "iam_role" = GetString d "iam_role"
     /\ GetInt d' "registration_limit" = GetInt d "registration_limit"
     /\ (time.Format (time.Parse (GetString d "expiration_date"))
         = GetString d "expiration_date" ->
         GetString d' "expiration_date" = GetString d "expiration_date"))
  /\ (strings.Contains (GetString d "detector_id") ":" = false ->
      exists d' st' t,
        run echo (resourceThreatIntelSetCreate d meta) st
        = (Returned (d', []), st', t)
        /\ GetString d' "detector_id" = GetString d "detector_id"
        /\ GetString d' "name" = GetString d "name"
        /\ GetString d' "format" = GetString d "format"
        /\ GetString d' "location" = GetString d "location"
        /\ GetBool d' "activate" = GetBool d "activate")
  /\ (exists d' st' t,
        run echo (resourceStudioCreate propagationTimeout d meta) st
        = (Returned (d', []), st', t)
        /\ (forall key,
              In key ["auth_mode"; "default_s3_location"; "description";
                      "engine_security_group_id"; "idp_auth_url";
                      "idp_relay_state_parameter_name"; "name";
                      "service_role"; "user_role"; "vpc_id";
                      "workspace_security_group_id"] ->
              GetString d' key = GetString d key)
        /\ GetSet d' "subnet_ids" = GetSet d "subnet_ids").
Proof.
  split; [|split].
  - intros Hrole.
    destruct (activation_create_read_echo propagationTimeout d meta st)
      as (d' & st' & t & HR & _ & Hn & Hd & Hl & Hr & He).
    exists d', st', t. repeat split; auto.
    + rewrite Hr. destruct (GetOk d "iam_role") eqn:E; [reflexivity|].
      apply GetString_unset in E. contradiction.
    + intros Hcanon. rewrite He.
      destruct (GetOk d "expiration_date") eqn:E; [exact Hcanon|].
      apply GetString_unset in E. rewrite E in Hcanon.
      vm_compute in Hcanon. discriminate Hcanon.
  - intros Hdet.
    destruct (threat_intel_set_create_read_echo d meta st Hdet)
      as (d' & st' & t & HR & _ & H).
    exists d', st', t. split; [exact HR|exact H].
  - destruct (studio_create_read_echo propagationTimeout d meta st)
      as (d' & st' & t & HR & _ & H).
    exists d', st', t. split; [exact HR|exact H].
Qed.

Lemma C4_witness :
  (exists d' st' t,
     run echo
       (resourceActivationCreate (2 * retry.Minute) activationToTheSecond
          emptyClient) nothingStored
     = (Returned (d', []), st', t)
     /\ GetString d' "name" = "web"
     /\ GetString d' "iam_role" = "service-role"
     /\ GetString d' "expiration_date" = "2030-01-01T00:00:00Z")
  /\ (exists d' st' t,
        run echo (resourceThreatIntelSetCreate activeThreatIntelSet emptyClient)
          nothingStored
        = (Returned (d', []), st', t)
        /\ GetString d' "name" = "bad-ips"
        /\ GetBool d' "activate" = true)
  /\ (exists d' st' t,
        run echo
          (resourceStudioCreate (2 * retry.Minute) taggedStudio
             clientWithDefaultTags) nothingStored
        = (Returned (d', []), st', t)
        /\ GetString d' "name" = "studio"
        /\ GetSet d' "subnet_ids" = GetSet taggedStudio "subnet_ids").
Proof.
  split; [|split].
  - destruct (proj1 (C4_create_then_read (2 * retry.Minute)
                       activationToTheSecond emptyClient nothingStored))
      as (d' & st' & t & HR & Hn & _ & Hr & _ & He).
    { vm_compute. discriminate. }
    exists d', st', t. split; [exact HR|]. split; [|split].
    + rewrite Hn. reflexivity.
    + rewrite Hr. reflexivity.
    + rewrite He; reflexivity.
  - destruct (proj1 (proj2 (C4_create_then_read (2 * retry.Minute)
                       activeThreatIntelSet emptyClient nothingStored)))
      as (d' & st' & t & HR & _ & Hn & _ & _ & Ha).
    { reflexivity. }
    exists d', st', t. split; [exact HR|]. split.
    + rewrite Hn. reflexivity.
    + rewrite Ha. reflexivity.
  - destruct (proj2 (proj2 (C4_create_then_read (2 * retry.Minute)
                       taggedStudio clientWithDefaultTags nothingStored)))
      as (d' & st' & t & HR & Hk & Hs).
    exists d', st', t. split; [exact HR|]. split.
    + rewrite (Hk "name") by (cbn; auto 10). reflexivity.
    + exact Hs.
Defined.

Lemma C9_witness :
  exists d',
    (run echo
       (resourceStudioRead (resourceWithId echoStudioId false)
          clientWithDefaultTags) taggedStudioStored).1.1
    = Returned (d', [])
    /\ GetMap d' "tags" ⊆ GetMap d' "tags_all"
    /\ GetMap d' "tags_all" !! "env" = Some "prod"
    /\ GetMap d' "tags_all" !! "team" = Some "data"
    /\ GetMap d' "tags" !! "env" = None
    /\ GetMap d' "tags" !! "team" = Some "data".
Proof.
  eexists. split; [reflexivity|]. split.
  - exact (proj2 (C9_tags_included_in_tags_all StudioResource
                    (resourceWithId echoStudioId false) clientWithDefaultTags
                    Stored echo taggedStudioStored _ _ _ eq_refl eq_refl)).
  - vm_compute. repeat split; reflexivity.
Defined.

(** * Further properties of the handlers *)

(** ** Decoding an identifier *)

Lemma Split_one (sep : ascii) (s b : string) :
  strings.Split s sep = [b] -> s = b /\ strings.Count s sep = O.
Proof.
  intros H. pose proof (Split_length sep s) as L. rewrite H in L.
  cbn in L. injection L as L. symmetry in L.
  rewrite (Split_no_sep sep s L) in H. injection H as H. auto.
Qed.

Lemma Split_two (sep : ascii) (s : string) :
  forall a b : string,
    strings.Split s sep = [a; b] ->
    s = a +:+ String sep b
    /\ strings.Count a sep = O /\ strings.Count b sep = O.
Proof.
  induction s as [|c r IH]; intros a b; cbn [strings.Split].
  - discriminate.
  - destruct (Ascii.eqb c sep) eqn:E.
    + intros [= <- H]. apply Ascii.eqb_eq in E. subst c.
      apply Split_one in H as [-> H]. cbn. auto.
    + destruct (strings.Split r sep) as [|h t] eqn:Hs; [discriminate|].
      intros [= <- ->]. destruct (IH h b eq_refl) as (-> & Ha & Hb).
      cbn. rewrite E. auto.
Qed.

(** X1.  An identifier that decodes without an error is the detector
    identifier, a ":" and the threat intel set identifier that the decoding
    returns, and neither of the two contains a ":". *)
Theorem X1_encode_of_decode (id threatIntelSetID detectorID : string) :
  DecodeThreatIntelSetID id = (threatIntelSetID, detectorID, None) ->
  id = EncodeThreatIntelSetID detectorID threatIntelSetID
  /\ strings.Contains detectorID ":" = false
  /\ strings.Contains threatIntelSetID ":" = false.
Proof.
  unfold DecodeThreatIntelSetID.
  destruct (strings.Split id ":") as [|a [|b [|c l]]] eqn:H; cbn;
    try discriminate.
  intros [= <- <-]. apply Split_two in H as (-> & Ha & Hb).
  rewrite !Contains_Count, Ha, Hb. auto.
Qed.

Lemma X1_witness :
  "12abc34d567e8fa901bc2d34e56789f0:c6b0a5d7"
  = EncodeThreatIntelSetID "12abc34d567e8fa901bc2d34e56789f0" "c6b0a5d7"
  /\ strings.Contains "12abc34d567e8fa901bc2d34e56789f0" ":" = false
  /\ strings.Contains "c6b0a5d7" ":" = false.
Proof.
  exact (X1_encode_of_decode "12abc34d567e8fa901bc2d34e56789f0:c6b0a5d7"
           "c6b0a5d7" "12abc34d567e8fa901bc2d34e56789f0" eq_refl).
Defined.

(** ** Sequences of [d.Set] calls *)

Lemma attrs_SetAttr (d : ResourceData) (k key : string) (v : option Value) :
  attrs (SetAttr d k v) !! key
  = if String.eqb k key then v else attrs d !! key.
Proof.
  unfold SetAttr. cbn [attrs].
  destruct (String.eqb_spec k key) as [->|Hne].
  - destruct v; [apply lookup_insert_eq|apply lookup_delete_eq].
  - destruct v; [now apply lookup_insert_ne|now apply lookup_delete_ne].
Qed.

Lemma assign_cons (d : ResourceData) (k : string) (v : option Value)
    (l : list (string * option Value)) :
  assign d ((k, v) :: l) = assign (SetAttr d k v) l.
Proof. reflexivity. Qed.

Lemma attrs_assign (l : list (string * option Value)) :
  forall (d : ResourceData) (key : string),
    attrs (assign d l) !! key = assigned key l (attrs d !! key).
Proof.
  induction l as [|[k v] l IH]; intros d key; [reflexivity|].
  rewrite assign_cons, IH. cbn [assigned]. now rewrite attrs_SetAttr.
Qed.

Lemma assign_fields (l : list (string * option Value)) :
  forall d : ResourceData,
    Id (assign d l) = Id d
    /\ IsNewResource (assign d l) = IsNewResource d
    /\ state (assign d l) = state d.
Proof.
  induction l as [|[k v] l IH]; intros d; [auto|].
  rewrite assign_cons.
  destruct (IH (SetAttr d k v)) as (-> & -> & ->). auto.
Qed.

Lemma ResourceData_eq (d1 d2 : ResourceData) :
  Id d1 = Id d2 -> IsNewResource d1 = IsNewResource d2 ->
  state d1 = state d2 ->
  (forall key, attrs d1 !! key = attrs d2 !! key) ->
  d1 = d2.
Proof.
  destruct d1, d2. cbn. intros -> -> -> H. f_equal. now apply map_eq.
Qed.

Lemma assigned_notin (key : string) (l : list (string * option Value)) :
  forall before,
    ~ In key (map fst l) -> assigned key l before = before.
Proof.
  induction l as [|[k v] l IH]; intros before H; [reflexivity|].
  cbn [assigned]. cbn in H.
  destruct (String.eqb_spec k key) as [->|Hne]; [tauto|].
  apply IH. tauto.
Qed.

Lemma assigned_twice (key : string) (l : list (string * option Value)) :
  forall before,
    assigned key l (assigned key l before) = assigned key l before.
Proof.
  induction l as [|[k v] l IH]; intros before; [reflexivity|].
  cbn [assigned]. destruct (String.eqb k key); [reflexivity|apply IH].
Qed.

Lemma assign_twice (d : ResourceData) (l : list (string * option Value)) :
  assign (assign d l) l = assign d l.
Proof.
  destruct (assign_fields l (assign d l)) as (H1 & H2 & H3).
  apply ResourceData_eq; auto.
  intros key. rewrite attrs_assign. rewrite (attrs_assign l d).
  apply assigned_twice.
Qed.

(** ** What a read leaves behind *)

Lemma threat_intel_set_read_shape {S : Type} (srv : Remote S)
    (d : ResourceData) (meta : AWSClient) (s : S) :
  let '(threatIntelSetId, detectorId, err) := DecodeThreatIntelSetID (Id d) in
  let c :=
    GetThreatIntelSetWithContext
      {| guardduty.GetThreatIntelSetInput.DetectorId := detectorId;
         guardduty.GetThreatIntelSetInput.ThreatIntelSetId := threatIntelSetId |} in
  run srv (resourceThreatIntelSetRead d meta) s
  = match err with
    | Some err =>
        (Returned
           (d, [errorDiag "reading GuardDuty Threat Intel Set (%s): %s"
                  [ArgS (Id d); ArgE err]]), s, [])
    | None =>
        match respond srv c s with
        | (Ok resp, s1) =>
            (Returned
               (assign d
                  (threatIntelSetAttributes meta threatIntelSetId detectorId
                     resp), []),
             s1, [Ev c (Ok resp)])
        | (Fail e, s1) =>
            (Returned
               (if tfawserr.ErrMessageContains (Some (AwsError e))
                     guardduty.ErrCodeBadRequestException
                     threatIntelSetNotOwned
                then (SetId d "", [])
                else (d, [errorDiag
                            "reading GuardDuty Threat Intel Set (%s): %s"
                            [ArgS (Id d); ArgE (AwsError e)]])),
             s1, [Ev c (Fail e)])
        end
    end.
Proof.
  unfold resourceThreatIntelSetRead.
  destruct (DecodeThreatIntelSetID (Id d)) as [[tis det] [err|]];
    [reflexivity|].
  prog_unfold. cbv zeta. rewrite run_call.
  destruct (respond srv _ s) as [[resp|e] s1]; [reflexivity|].
  destruct (tfawserr.ErrMessageContains _ _ _); reflexivity.
Qed.

Lemma studio_read_shape {S : Type} (srv : Remote S)
    (d : ResourceData) (meta : AWSClient) (s : S) :
  run srv (resourceStudioRead d meta) s
  = match respond srv (FindStudioByID (Id d)) s with
    | (Ok studio, s1) =>
        (Returned (assign d (studioAttributes meta studio), []), s1,
         [Ev (FindStudioByID (Id d)) (Ok studio)])
    | (Fail e, s1) =>
        (Returned
           (if negb (IsNewResource d) && tfresource.NotFound (Some e)
            then (SetId d "", [])
            else (d, [errorDiag "reading EMR Studio (%s): %s"
                        [ArgS (Id d); ArgE e]])),
         s1, [Ev (FindStudioByID (Id d)) (Fail e)])
    end.
Proof.
  unfold resourceStudioRead. prog_unfold. rewrite run_call.
  destruct (respond srv _ s) as [[studio|e] s1].
  - rewrite andb_false_r. reflexivity.
  - destruct (negb (IsNewResource d) && tfresource.NotFound (Some e));
      reflexivity.
Qed.

Lemma activation_read_shape {S : Type} (srv : Remote S)
    (d : ResourceData) (meta : AWSClient) (s : S) :
  let c := DescribeActivationsWithContext (describeActivationsInput (Id d)) in
  run srv (resourceActivationRead d meta) s
  = match respond srv c s with
    | (Ok resp, s1) =>
        (match ssm.DescribeActivationsOutput.ActivationList resp with
         | [] =>
             if IsNewResource d then Panicked "index out of range"
             else Returned (SetId d "", [])
         | activation :: _ =>
             Returned (assign d (activationAttributes meta activation), [])
         end, s1, [Ev c (Ok resp)])
    | (Fail e, s1) =>
        (Returned (d, [errorDiag "reading SSM activation: %s"
                         [ArgE (AwsError e)]]),
         s1, [Ev c (Fail e)])
    end.
Proof.
  unfold resourceActivationRead. prog_unfold. cbv zeta. rewrite run_call.
  unfold describeActivationsInput.
  destruct (respond srv _ s) as [[[[|a l]]|e] s1].
  - destruct (IsNewResource d); reflexivity.
  - rewrite andb_false_r. reflexivity.
  - reflexivity.
Qed.

Lemma read_result {S : Type} (srv : Remote S) (h : Handler)
    (d d' : ResourceData) (meta : AWSClient) (s s' : S) diags t :
  run srv (resourceRead h d meta) s = (Returned (d', diags), s', t) ->
  d' = d \/ d' = SetId d ""
  \/ exists l, d' = assign d l /\ map fst l = readKeys h.
Proof.
  destruct h; cbn [resourceRead].
  - pose proof (threat_intel_set_read_shape srv d meta s) as H.
    destruct (DecodeThreatIntelSetID (Id d)) as [[tis det] [err|]];
      cbv zeta in H; rewrite H.
    + intros [= <- _ _ _]. auto.
    + destruct (respond srv _ s) as [[resp|e] s1].
      * intros E. right. right.
        exists (threatIntelSetAttributes meta tis det resp).
        split; [congruence|reflexivity].
      * destruct (tfawserr.ErrMessageContains _ _ _);
          intros [= <- _ _ _]; auto.
  - rewrite studio_read_shape.
    destruct (respond srv _ s) as [[studio|e] s1].
    + intros E. right. right. exists (studioAttributes meta studio).
      split; [congruence|reflexivity].
    + destruct (negb (IsNewResource d) && tfresource.NotFound (Some e));
        intros [= <- _ _ _]; auto.
  - pose proof (activation_read_shape srv d meta s) as H. cbv zeta in H.
    rewrite H. destruct (respond srv _ s) as [[[[|a l]]|e] s1].
    + cbn. destruct (IsNewResource d); intros [= <- _ _ _]. auto.
    + intros E. right. right. exists (activationAttributes meta a).
      split; [cbn [ssm.DescribeActivationsOutput.ActivationList] in E;
              congruence|reflexivity].
    + intros [= <- _ _ _]. auto.
Qed.

(** X2.  Whatever the service answers, a read that returns leaves the prior
    state and the just-created mark of the resource data as they were, keeps
    the identifier or clears it, and changes no attribute other than the
    ones the handler writes. *)
Theorem X2_read_frame (h : Handler) (d d' : ResourceData) (meta : AWSClient)
    (S : Type) (srv : Remote S) (s s' : S) diags t :
  run srv (resourceRead h d meta) s = (Returned (d', diags), s', t) ->
  state d' = state d
  /\ IsNewResource d' = IsNewResource d
  /\ (Id d' = Id d \/ Id d' = "")
  /\ (forall key, ~ In key (readKeys h) -> attrs d' !! key = attrs d !! key).
Proof.
  intros H. destruct (read_result srv h d d' meta s s' diags t H)
    as [->|[->|(l & -> & Hl)]]; try (cbn; now auto).
  destruct (assign_fields l d) as (-> & -> & ->).
  repeat split; auto.
  intros key Hk. rewrite attrs_assign. apply assigned_notin. now rewrite Hl.
Qed.

Lemma X2_witness :
  let r :=
    run echo
      (resourceStudioRead (resourceWithId echoStudioId false)
         clientWithDefaultTags) taggedStudioStored in
  match r.1.1 with
  | Returned (d', _) =>
      state d' = ∅ /\ IsNewResource d' = false
      /\ (Id d' = echoStudioId \/ Id d' = "")
      /\ (forall key,
            ~ In key (readKeys StudioResource) -> attrs d' !! key = None)
  | Panicked _ => False
  end.
Proof.
  exact (X2_read_frame StudioResource (resourceWithId echoStudioId false) _
           clientWithDefaultTags Stored echo taggedStudioStored _ _ _
           eq_refl).
Defined.

(** X3.  Reading again changes nothing: after a read that found the
    resource and returned no diagnostic, a second read to which the service
    gives the same answer returns the same resource data, again without a
    diagnostic. *)
Theorem X3_read_again (h : Handler) (d d1 : ResourceData) (meta : AWSClient)
    (S : Type) (srv : Remote S) (s s1 s2 : S) (t : list Event) :
  run srv (resourceRead h d meta) s = (Returned (d1, []), s1, t) ->
  existsb notFound t = false ->
  (forall c r, In (Ev c r) t -> respond srv c s1 = (r, s2)) ->
  run srv (resourceRead h d1 meta) s1 = (Returned (d1, []), s2, t).
Proof.
  destruct h; cbn [resourceRead].
  - pose proof (threat_intel_set_read_shape srv d meta s) as H.
    pose proof (threat_intel_set_read_shape srv d1 meta s1) as H1.
    destruct (DecodeThreatIntelSetID (Id d)) as [[tis det] [err|]] eqn:HD;
      cbv zeta in H; rewrite H; [intros [=]|].
    destruct (respond srv _ s) as [[resp|e] s'].
    + intros E _ Hsame.
      assert (E1 : d1 = assign d (threatIntelSetAttributes meta tis det resp))
        by congruence.
      assert (E2 : t = [Ev (GetThreatIntelSetWithContext
                              {| guardduty.GetThreatIntelSetInput.DetectorId := det;
                                 guardduty.GetThreatIntelSetInput.ThreatIntelSetId := tis |})
                          (Ok resp)]) by congruence.
      subst d1 t.
      destruct (assign_fields (threatIntelSetAttributes meta tis det resp) d)
        as (HI & _ & _).
      rewrite HI, HD in H1. cbv zeta in H1. rewrite H1.
      rewrite (Hsame _ _ (or_introl eq_refl)). now rewrite assign_twice.
    + destruct (tfawserr.ErrMessageContains (Some (AwsError e)) _ _) eqn:Hc.
      * intros [= <- <- <-]. cbn [existsb notFound]. rewrite Hc. discriminate.
      * intros [=].
  - rewrite !studio_read_shape.
    destruct (respond srv _ s) as [[studio|e] s'].
    + intros E _ Hsame.
      assert (E1 : d1 = assign d (studioAttributes meta studio)) by congruence.
      assert (E2 : t = [Ev (FindStudioByID (Id d)) (Ok studio)]) by congruence.
      subst d1 t.
      destruct (assign_fields (studioAttributes meta studio) d) as (HI & _ & _).
      rewrite HI. rewrite (Hsame _ _ (or_introl eq_refl)).
      now rewrite assign_twice.
    + destruct (tfresource.NotFound (Some e)) eqn:Hc.
      * destruct (IsNewResource d); cbn [negb andb]; intros [= <- <- <-].
        cbn [existsb notFound]. rewrite Hc. discriminate.
      * rewrite andb_false_r. intros [=].
  - pose proof (activation_read_shape srv d meta s) as H.
    pose proof (activation_read_shape srv d1 meta s1) as H1.
    cbv zeta in H, H1. rewrite H.
    destruct (respond srv _ s) as [[[[|a l]]|e] s'].
    + cbn [ssm.DescribeActivationsOutput.ActivationList].
      destruct (IsNewResource d); intros [= <- <- <-]. discriminate.
    + cbn [ssm.DescribeActivationsOutput.ActivationList].
      intros E _ Hsame.
      assert (E1 : d1 = assign d (activationAttributes meta a)) by congruence.
      assert (E2 : t = [Ev (DescribeActivationsWithContext
                              (describeActivationsInput (Id d)))
                          (Ok {| ssm.DescribeActivationsOutput.ActivationList :=
                                   a :: l |})]) by congruence.
      subst d1 t.
      destruct (assign_fields (activationAttributes meta a) d) as (HI & _ & _).
      rewrite HI in H1. rewrite H1.
      rewrite (Hsame _ _ (or_introl eq_refl)).
      cbn [ssm.DescribeActivationsOutput.ActivationList].
      now rewrite assign_twice.
    + intros [=].
Qed.

Lemma X3_witness :
  let d := resourceWithId echoStudioId false in
  let r := run echo (resourceStudioRead d clientWithDefaultTags)
             taggedStudioStored in
  match r.1.1 with
  | Returned (d1, _) =>
      run echo (resourceStudioRead d1 clientWithDefaultTags) taggedStudioStored
      = (Returned (d1, []), taggedStudioStored, r.2)
  | Panicked _ => False
  end.
Proof.
  refine (X3_read_again StudioResource (resourceWithId echoStudioId false) _
            clientWithDefaultTags Stored echo taggedStudioStored
            taggedStudioStored taggedStudioStored _ eq_refl eq_refl _).
  intros c r [E|[]].
  change ((fun ev => match ev with
                     | Ev c r =>
                         respond echo c taggedStudioStored
                         = (r, taggedStudioStored)
                     end) (Ev c r)).
  rewrite <- E. reflexivity.
Defined.

(** X4.  When the identifier decodes and the service describes the threat
    intel set, the read returns no diagnostic, keeps the identifier, and
    stores: the ARN built from the partition, region and account of the
    client and the two parts of the identifier; the detector of the
    identifier; the name, format and location of the description; and the
    activation flag, which is true exactly when the described status is
    ACTIVE. *)
Theorem X4_threat_intel_set_read_found (d : ResourceData) (meta : AWSClient)
    (S : Type) (srv : Remote S) (s s1 : S)
    (threatIntelSetId detectorId : string)
    (resp : guardduty.GetThreatIntelSetOutput.t) :
  DecodeThreatIntelSetID (Id d) = (threatIntelSetId, detectorId, None) ->
  respond srv
    (GetThreatIntelSetWithContext
       {| guardduty.GetThreatIntelSetInput.DetectorId := detectorId;
          guardduty.GetThreatIntelSetInput.ThreatIntelSetId := threatIntelSetId |})
    s = (Ok resp, s1) ->
  exists d',
    (run srv (resourceThreatIntelSetRead d meta) s).1 = (Returned (d', []), s1)
    /\ Id d' = Id d
    /\ GetString d' "arn"
       = "arn:" +:+ Partition meta +:+ ":guardduty:" +:+ Region meta +:+ ":"
         +:+ AccountID meta +:+ ":detector/" +:+ detectorId
         +:+ "/threatintelset/" +:+ threatIntelSetId
    /\ GetString d' "detector_id" = detectorId
    /\ GetString d' "name"
       = StringValue (guardduty.GetThreatIntelSetOutput.Name resp)
    /\ GetString d' "format"
       = StringValue (guardduty.GetThreatIntelSetOutput.Format resp)
    /\ GetString d' "location"
       = StringValue (guardduty.GetThreatIntelSetOutput.Location resp)
    /\ (GetBool d' "activate" = true
        <-> guardduty.GetThreatIntelSetOutput.Status resp = Some "ACTIVE").
Proof.
  intros HD HR.
  pose proof (threat_intel_set_read_shape srv d meta s) as H.
  rewrite HD in H. cbv zeta in H. rewrite HR in H. rewrite H.
  eexists. split; [reflexivity|].
  destruct (assign_fields
              (threatIntelSetAttributes meta threatIntelSetId detectorId resp)
              d) as (HI & _ & _).
  split; [exact HI|].
  cbn [assign foldl threatIntelSetAttributes fst snd].
  repeat split.
  - get_other. rewrite GetString_set_some. reflexivity.
  - get_other. now rewrite GetString_set_some.
  - get_other. now rewrite GetString_set.
  - get_other. now rewrite GetString_set.
  - get_other. now rewrite GetString_set.
  - get_other. rewrite GetBool_set. intros E. apply String.eqb_eq in E.
    destruct (guardduty.GetThreatIntelSetOutput.Status resp);
      cbn in E; [now subst|discriminate].
  - get_other. rewrite GetBool_set. now intros ->.
Qed.

Lemma X4_witness :
  exists d',
    (run (observe activeAtThirdRead)
       (resourceThreatIntelSetRead (resourceWithId "det:tis1" false)
          emptyClient) O).1
    = (Returned (d', []), 1%nat)
    /\ Id d' = "det:tis1"
    /\ GetString d' "arn"
       = "arn:aws:guardduty:eu-west-1:123456789012:detector/det/threatintelset/tis1"
    /\ GetBool d' "activate" = false.
Proof.
  destruct (X4_threat_intel_set_read_found (resourceWithId "det:tis1" false)
              emptyClient nat (observe activeAtThirdRead) O 1%nat
              "tis1" "det" (statusOutput (activeAtThirdRead O))
              eq_refl eq_refl)
    as (d' & HR & HI & Harn & _ & _ & _ & _ & Hact).
  exists d'. repeat split; auto.
  destruct (GetBool d' "activate"); [|reflexivity].
  destruct Hact as [Hact _]. specialize (Hact eq_refl). discriminate Hact.
Defined.

(** ** Updating a threat intel set *)

Lemma threat_intel_set_read_calls {S : Type} (srv : Remote S)
    (d : ResourceData) (meta : AWSClient) (s : S)
    (threatIntelSetId detectorId : string) :
  DecodeThreatIntelSetID (Id d) = (threatIntelSetId, detectorId, None) ->
  exists r,
    (run srv (resourceThreatIntelSetRead d meta) s).2
    = [Ev (GetThreatIntelSetWithContext
             {| guardduty.GetThreatIntelSetInput.DetectorId := detectorId;
                guardduty.GetThreatIntelSetInput.ThreatIntelSetId :=
                  threatIntelSetId |}) r].
Proof.
  intros HD. pose proof (threat_intel_set_read_shape srv d meta s) as H.
  rewrite HD in H. cbv zeta in H. rewrite H.
  destruct (respond srv _ s) as [[resp|e] s1]; eexists; reflexivity.
Qed.

Lemma threat_intel_set_update_cases {S : Type} (srv : Remote S)
    (d : ResourceData) (meta : AWSClient) (s s' : S) o t
    (threatIntelSetID detectorId : string) :
  DecodeThreatIntelSetID (Id d) = (threatIntelSetID, detectorId, None) ->
  run srv (resourceThreatIntelSetUpdate d meta) s = (o, s', t) ->
  let U :=
    UpdateThreatIntelSetWithContext
      (updateThreatIntelSetInput d threatIntelSetID detectorId) in
  let T :=
    UpdateTags GuardDuty (GetString d "arn")
      (mapOf (GetChange d "tags_all").1) (mapOf (GetChange d "tags_all").2) in
  let G :=
    GetThreatIntelSetWithContext
      {| guardduty.GetThreatIntelSetInput.DetectorId := detectorId;
         guardduty.GetThreatIntelSetInput.ThreatIntelSetId :=
           threatIntelSetID |} in
  let pre1 :=
    if HasChanges d ["activate"; "location"; "name"]
    then [Ev U (Ok tt)] else [] in
  let pre2 := if HasChange d "tags_all" then [Ev T (Ok tt)] else [] in
  (HasChanges d ["activate"; "location"; "name"] = true
   /\ exists e,
        t = [Ev U (Fail e)]
        /\ o = Returned
                 (d, [errorDiag "updating GuardDuty Threat Intel Set (%s): %s"
                        [ArgS (Id d); ArgE (AwsError e)]]))
  \/ (HasChange d "tags_all" = true
      /\ exists err,
           t = pre1 ++ [Ev T (Fail err)]
           /\ o = Returned
                    (d, [errorDiag
                           "updating GuardDuty Threat Intel Set (%s): setting tags: %s"
                           [ArgS (Id d); ArgE err]]))
  \/ (exists r, t = pre1 ++ pre2 ++ [Ev G r]).
Proof.
  intros HD. unfold resourceThreatIntelSetUpdate. rewrite HD.
  cbv zeta. fold (updateThreatIntelSetInput d threatIntelSetID detectorId).
  assert (Tail : forall s0 o s' t,
    run srv
      (err ← (if HasChange d "tags_all"
              then
                let '(o, n) := GetChange d "tags_all" in
                r ← call (UpdateTags GuardDuty (GetString d "arn")
                            (mapOf o) (mapOf n));
                Ret match r with
                    | Ok _ => None
                    | Fail err => Some err
                    end
              else Ret None);
       match err with
       | Some err0 =>
           Ret (d, AppendErrorf []
                     "updating GuardDuty Threat Intel Set (%s): setting tags: %s"
                     [ArgS (Id d); ArgE err0])
       | None =>
           x ← resourceThreatIntelSetRead d meta; Ret (x.1, [] ++ x.2)
       end) s0 = (o, s', t) ->
    (HasChange d "tags_all" = true
     /\ exists err,
          t = [Ev (UpdateTags GuardDuty (GetString d "arn")
                     (mapOf (GetChange d "tags_all").1)
                     (mapOf (GetChange d "tags_all").2)) (Fail err)]
          /\ o = Returned
                   (d, [errorDiag
                          "updating GuardDuty Threat Intel Set (%s): setting tags: %s"
                          [ArgS (Id d); ArgE err]]))
    \/ (exists r,
          t = (if HasChange d "tags_all"
               then [Ev (UpdateTags GuardDuty (GetString d "arn")
                           (mapOf (GetChange d "tags_all").1)
                           (mapOf (GetChange d "tags_all").2)) (Ok tt)]
               else [])
              ++ [Ev (GetThreatIntelSetWithContext
                        {| guardduty.GetThreatIntelSetInput.DetectorId :=
                             detectorId;
                           guardduty.GetThreatIntelSetInput.ThreatIntelSetId :=
                             threatIntelSetID |}) r])).
  { intros s0 o0 s0' t0.
    destruct (HasChange d "tags_all").
    - destruct (GetChange d "tags_all") as [old new]. cbn [fst snd].
      prog_unfold. rewrite run_call.
      destruct (respond srv _ s0) as [[[]|err] s1]; cbn [bind].
      + rewrite run_bind.
        destruct (threat_intel_set_read_calls srv d meta s1 _ _ HD) as [r Hr].
        destruct (run srv (resourceThreatIntelSetRead d meta) s1)
          as [[[x|msg] s2] tr]; cbn [snd] in Hr; subst tr;
          cbn [run]; intros [= <- <- <-]; right; exists r; reflexivity.
      + cbn [run]. intros [= <- <- <-]. left. split; [reflexivity|].
        exists err. split; reflexivity.
    - prog_unfold. rewrite run_bind.
      destruct (threat_intel_set_read_calls srv d meta s0 _ _ HD) as [r Hr].
      destruct (run srv (resourceThreatIntelSetRead d meta) s0)
        as [[[x|msg] s2] tr]; cbn [snd] in Hr; subst tr;
        cbn [run]; intros [= <- <- <-]; right; exists r; reflexivity. }
  destruct (HasChanges d ["activate"; "location"; "name"]).
  - unfold mbind at 1, Prog_bind at 1, call. cbn [bind]. rewrite run_call.
    destruct (respond srv _ s) as [[[]|e] s1].
    + destruct (run srv _ s1) as [[o1 s2] t1] eqn:HR.
      intros [= <- <- <-].
      destruct (Tail _ _ _ _ HR) as [(Ht & err & -> & ->)|(r & ->)].
      * right. left. split; [exact Ht|]. exists err. split; reflexivity.
      * right. right. exists r. reflexivity.
    + cbn [run]. intros [= <- <- <-]. left. split; [reflexivity|].
      exists e. split; reflexivity.
  - intros HR.
    destruct (Tail _ _ _ _ HR) as [(Ht & err & -> & ->)|(r & ->)].
    + right. left. split; [exact Ht|]. exists err. split; reflexivity.
    + right. right. exists r. reflexivity.
Qed.

Lemma calls_app (t1 t2 : list Event) :
  calls (t1 ++ t2) = calls t1 ++ calls t2.
Proof. unfold calls. apply map_app. Qed.

(** X5.  The update of a threat intel set with a well-formed identifier
    makes its calls in a fixed order: the update of the attributes, present
    exactly when the name, the location or the activation flag changed and
    carrying only the changed ones; the update of the tags, present exactly
    when [tags_all] changed, with the stored ARN and the old and new tags;
    the read.  The calls made are always an initial part of this sequence,
    and the whole of it when no call fails. *)
Theorem X5_threat_intel_set_update_calls (d : ResourceData)
    (meta : AWSClient) (S : Type) (srv : Remote S) (s : S)
    (threatIntelSetID detectorId : string) :
  DecodeThreatIntelSetID (Id d) = (threatIntelSetID, detectorId, None) ->
  let t := (run srv (resourceThreatIntelSetUpdate d meta) s).2 in
  calls t `prefix_of` threatIntelSetUpdateCalls d
  /\ (allSucceeded t -> calls t = threatIntelSetUpdateCalls d).
Proof.
  intros HD t.
  destruct (run srv (resourceThreatIntelSetUpdate d meta) s)
    as [[o s'] t0] eqn:HR. cbn [snd] in t. subst t.
  unfold threatIntelSetUpdateCalls, updateTagsCalls. rewrite HD.
  destruct (threat_intel_set_update_cases srv d meta s s' o t0 _ _ HD HR)
    as [(Hc & e & -> & _)|[(Ht & err & -> & _)|(r & ->)]].
  - rewrite Hc. split.
    + eexists. reflexivity.
    + intros Hall. inversion Hall as [|? ? Hf _]. discriminate Hf.
  - rewrite Ht. split.
    + rewrite calls_app.
      destruct (HasChanges d ["activate"; "location"; "name"]);
        eexists; cbn; reflexivity.
    + intros Hall. apply Forall_app in Hall as [_ Hall].
      inversion Hall as [|? ? Hf _]. discriminate Hf.
  - assert (E : calls
                  ((if HasChanges d ["activate"; "location"; "name"]
                    then [Ev (UpdateThreatIntelSetWithContext
                                (updateThreatIntelSetInput d threatIntelSetID
                                   detectorId)) (Ok tt)]
                    else [])
                   ++ (if HasChange d "tags_all"
                       then [Ev (UpdateTags GuardDuty (GetString d "arn")
                                   (mapOf (GetChange d "tags_all").1)
                                   (mapOf (GetChange d "tags_all").2)) (Ok tt)]
                       else [])
                   ++ [Ev (GetThreatIntelSetWithContext
                             {| guardduty.GetThreatIntelSetInput.DetectorId :=
                                  detectorId;
                                guardduty.GetThreatIntelSetInput.ThreatIntelSetId :=
                                  threatIntelSetID |}) r])
                = (if HasChanges d ["activate"; "location"; "name"]
                   then [UpdateThreatIntelSetWithContext
                           (updateThreatIntelSetInput d threatIntelSetID
                              detectorId)]
                   else [])
                  ++ (if HasChange d "tags_all"
                      then [UpdateTags GuardDuty (GetString d "arn")
                              (mapOf (GetChange d "tags_all").1)
                              (mapOf (GetChange d "tags_all").2)]
                      else [])
                  ++ [GetThreatIntelSetWithContext
                        {| guardduty.GetThreatIntelSetInput.DetectorId :=
                             detectorId;
                           guardduty.GetThreatIntelSetInput.ThreatIntelSetId :=
                             threatIntelSetID |}]).
    { destruct (HasChanges d ["activate"; "location"; "name"]);
        destruct (HasChange d "tags_all"); reflexivity. }
    rewrite E. split; [reflexivity|auto].
Qed.

(** X6.  When the update call or the tagging call of the update of a threat
    intel set fails, the handler stops there: it returns the resource data
    unchanged with one error diagnostic that carries the identifier and the
    error, and it does not read the threat intel set. *)
Theorem X6_threat_intel_set_update_failure (d : ResourceData)
    (meta : AWSClient) (S : Type) (srv : Remote S) (s s' : S) o t
    (threatIntelSetID detectorId : string) (ev : Event) (err : error) :
  DecodeThreatIntelSetID (Id d) = (threatIntelSetID, detectorId, None) ->
  run srv (resourceThreatIntelSetUpdate d meta) s = (o, s', t) ->
  In ev t ->
  failure ev = Some err ->
  isThreatIntelSetRead (callOf ev) = false ->
  (exists format,
     o = Returned (d, [errorDiag format [ArgS (Id d); ArgE err]]))
  /\ Forall (fun c => isThreatIntelSetRead c = false) (calls t).
Proof.
  intros HD HR Hin Hf Hnr.
  destruct (threat_intel_set_update_cases srv d meta s s' o t _ _ HD HR)
    as [(Hc & e & -> & ->)|[(Ht & e & -> & ->)|(r & ->)]].
  - destruct Hin as [<-|[]]. cbn in Hf. injection Hf as <-.
    split; [eexists; reflexivity|]. repeat constructor.
  - apply in_app_or in Hin as [Hin|[<-|[]]].
    + destruct (HasChanges d ["activate"; "location"; "name"]);
        [destruct Hin as [<-|[]]; discriminate Hf|destruct Hin].
    + cbn in Hf. injection Hf as <-.
      split; [eexists; reflexivity|].
      destruct (HasChanges d ["activate"; "location"; "name"]);
        repeat constructor.
  - exfalso.
    apply in_app_or in Hin as [Hin|Hin];
      [|apply in_app_or in Hin as [Hin|[<-|[]]]].
    + destruct (HasChanges d ["activate"; "location"; "name"]);
        [destruct Hin as [<-|[]]; discriminate Hf|destruct Hin].
    + destruct (HasChange d "tags_all");
        [destruct Hin as [<-|[]]; discriminate Hf|destruct Hin].
    + discriminate Hnr.
Qed.

Lemma X5_witness :
  calls (run agreeable
           (resourceThreatIntelSetUpdate renamedThreatIntelSet emptyClient)
           tt).2
  = [UpdateThreatIntelSetWithContext
       {| guardduty.UpdateThreatIntelSetInput.DetectorId := "det";
          guardduty.UpdateThreatIntelSetInput.ThreatIntelSetId := "tis1";
          guardduty.UpdateThreatIntelSetInput.Name := Some "new";
          guardduty.UpdateThreatIntelSetInput.Location := None;
          guardduty.UpdateThreatIntelSetInput.Activate := None |};
     UpdateTags GuardDuty
       "arn:aws:guardduty:::detector/det/threatintelset/tis1"
       ∅ {[ "team" := "data" ]};
     GetThreatIntelSetWithContext
       {| guardduty.GetThreatIntelSetInput.DetectorId := "det";
          guardduty.GetThreatIntelSetInput.ThreatIntelSetId := "tis1" |}].
Proof.
  rewrite (proj2 (X5_threat_intel_set_update_calls renamedThreatIntelSet
                    emptyClient unit agreeable tt "tis1" "det" eq_refl)).
  - vm_compute. reflexivity.
  - vm_compute. repeat constructor.
Defined.

Lemma X6_witness :
  (exists format,
     (run (rejecting accessDenied)
        (resourceThreatIntelSetUpdate renamedThreatIntelSet emptyClient)
        tt).1.1
     = Returned
         (renamedThreatIntelSet,
          [errorDiag format [ArgS "det:tis1"; ArgE (AwsError accessDenied)]]))
  /\ Forall (fun c => isThreatIntelSetRead c = false)
       (calls
          (run (rejecting accessDenied)
             (resourceThreatIntelSetUpdate renamedThreatIntelSet emptyClient)
             tt).2).
Proof.
  refine (X6_threat_intel_set_update_failure renamedThreatIntelSet emptyClient
            unit (rejecting accessDenied) tt tt _ _ "tis1" "det"
            (Ev (UpdateThreatIntelSetWithContext
                   (updateThreatIntelSetInput renamedThreatIntelSet
                      "tis1" "det")) (Fail accessDenied))
            (AwsError accessDenied) eq_refl eq_refl _ eq_refl eq_refl).
  vm_compute. left. reflexivity.
Defined.

(** ** Creating *)

Lemma retry_first_success {S R : Type} (srv : Remote S) (timeout : Z)
    (f : R -> Prog (R * option retry.RetryError)) (r0 r1 : R) (s s1 : S) t :
  run srv (f r0) s = (Returned (r1, None), s1, t) ->
  run srv (retry.RetryContext timeout f r0) s = (Returned (r1, None), s1, t).
Proof.
  intros H. unfold retry.RetryContext.
  destruct (polls_positive
              {| retry.Pending := ["retryableerror"];
                 retry.Target := ["success"];
                 retry.Timeout := timeout;
                 retry.MinTimeout := 500 * retry.Millisecond |}) as [n ->].
  cbn [retry.retryLoop]. unfold mbind, Prog_bind. rewrite run_bind, H.
  cbn. now rewrite app_nil_r.
Qed.

(** X7.  When the service accepts the creation of an activation but answers
    without an activation identifier, the create handler returns the error
    diagnostic "ActivationId was nil", leaves the resource data as it was
    (no identifier is stored) and makes no further call. *)
Theorem X7_activation_create_without_id (propagationTimeout : Z)
    (d : ResourceData) (meta : AWSClient) (S : Type) (srv : Remote S)
    (s s1 : S) (resp : ssm.CreateActivationOutput.t) :
  respond srv (CreateActivationWithContext (createActivationInput d meta)) s
  = (Ok resp, s1) ->
  ssm.CreateActivationOutput.ActivationId resp = None ->
  run srv (resourceActivationCreate propagationTimeout d meta) s
  = (Returned (d, [errorDiag "ActivationId was nil" []]), s1,
     [Ev (CreateActivationWithContext (createActivationInput d meta))
        (Ok resp)]).
Proof.
  intros HR Hid. unfold resourceActivationCreate.
  unfold mbind at 1, Prog_bind at 1. rewrite run_bind.
  erewrite retry_first_success.
  2:{ prog_unfold. rewrite run_call, HR. reflexivity. }
  cbn [tfresource.TimedOut]. prog_unfold. cbn [run]. rewrite Hid.
  reflexivity.
Qed.

Lemma X7_witness :
  let d := resourceWithId "" true in
  run agreeable (resourceActivationCreate (2 * retry.Minute) d emptyClient) tt
  = (Returned (d, [errorDiag "ActivationId was nil" []]), tt,
     [Ev (CreateActivationWithContext (createActivationInput d emptyClient))
        (Ok {| ssm.CreateActivationOutput.ActivationCode := None;
               ssm.CreateActivationOutput.ActivationId := None |})]).
Proof.
  exact (X7_activation_create_without_id (2 * retry.Minute)
           (resourceWithId "" true) emptyClient unit agreeable tt tt _
           eq_refl eq_refl).
Defined.

(** X8.  The handlers of the threat intel set dereference two fields of
    the service's answers without a check.  When the create call succeeds
    but its answer has no identifier, the create handler panics right after
    that call; when the delete call succeeded and the first status read of
    the wait succeeds but its answer has no status, the delete handler
    panics at that read.  In neither case is a diagnostic returned. *)
Theorem X8_threat_intel_set_nil_dereference (d : ResourceData)
    (meta : AWSClient) (S : Type) (srv : Remote S) (s s1 s2 : S) :
  (forall resp,
     respond srv
       (CreateThreatIntelSetWithContext (createThreatIntelSetInput d meta)) s
     = (Ok resp, s1) ->
     guardduty.CreateThreatIntelSetOutput.ThreatIntelSetId resp = None ->
     run srv (resourceThreatIntelSetCreate d meta) s
     = (Panicked nilDereference, s1,
        [Ev (CreateThreatIntelSetWithContext
               (createThreatIntelSetInput d meta)) (Ok resp)]))
  /\ (forall threatIntelSetID detectorId r,
        DecodeThreatIntelSetID (Id d) = (threatIntelSetID, detectorId, None) ->
        let del :=
          DeleteThreatIntelSetWithContext
            {| guardduty.DeleteThreatIntelSetInput.DetectorId := detectorId;
               guardduty.DeleteThreatIntelSetInput.ThreatIntelSetId :=
                 threatIntelSetID |} in
        let get :=
          GetThreatIntelSetWithContext
            {| guardduty.GetThreatIntelSetInput.DetectorId := detectorId;
               guardduty.GetThreatIntelSetInput.ThreatIntelSetId :=
                 threatIntelSetID |} in
        respond srv del s = (Ok tt, s1) ->
        respond srv get s1 = (Ok r, s2) ->
        guardduty.GetThreatIntelSetOutput.Status r = None ->
        run srv (resourceThreatIntelSetDelete d meta) s
        = (Panicked nilDereference, s2, [Ev del (Ok tt); Ev get (Ok r)])).
Proof.
  split.
  - intros resp HR Hid. unfold resourceThreatIntelSetCreate.
    fold (createThreatIntelSetInput d meta).
    unfold mbind at 1, Prog_bind at 1, call. cbn [bind].
    rewrite run_call, HR, Hid. reflexivity.
  - intros tis det r HD del get HR1 HR2 Hst.
    rewrite (threat_intel_set_delete_then_wait srv d meta s s1 tis det HD HR1).
    unfold retry.WaitForStateContext.
    destruct (polls_positive deleteStateConf) as [n ->].
    cbn [retry.waitLoop]. unfold threatintelsetRefreshStatusFunc.
    prog_unfold. rewrite run_call. fold get. rewrite HR2, Hst. reflexivity.
Qed.

Lemma X8_witness :
  let d := resourceWithId "det:tis1" true in
  run agreeable (resourceThreatIntelSetCreate d emptyClient) tt
  = (Panicked nilDereference, tt,
     [Ev (CreateThreatIntelSetWithContext
            (createThreatIntelSetInput d emptyClient))
         (Ok {| guardduty.CreateThreatIntelSetOutput.ThreatIntelSetId := None |})])
  /\ (run agreeable (resourceThreatIntelSetDelete d emptyClient) tt).1.1
     = Panicked nilDereference.
Proof.
  pose proof (X8_threat_intel_set_nil_dereference
                (resourceWithId "det:tis1" true) emptyClient unit agreeable
                tt tt tt) as [H1 H2].
  split.
  - exact (H1 _ eq_refl eq_refl).
  - rewrite (H2 "tis1" "det" _ eq_refl eq_refl eq_refl eq_refl). reflexivity.
Defined.

(** X9.  When the service creates the activation with the identifier [id]
    and then describes it, the create handler returns no diagnostic after
    exactly these two calls; it stores [id] as the identifier, keeps the
    activation code of the create answer (the read does not touch it), and
    takes the other attributes from the first described activation.  An
    activation described without an expiration date is stored with the
    zero time, "0001-01-01T00:00:00Z". *)
Theorem X9_activation_create_success (propagationTimeout : Z)
    (d : ResourceData) (meta : AWSClient) (S : Type) (srv : Remote S)
    (s s1 s2 : S) (resp : ssm.CreateActivationOutput.t) (id : string)
    (out : ssm.DescribeActivationsOutput.t) (a : ssm.Activation.t)
    (l : list ssm.Activation.t) :
  let create := CreateActivationWithContext (createActivationInput d meta) in
  let describe := DescribeActivationsWithContext (describeActivationsInput id) in
  respond srv create s = (Ok resp, s1) ->
  ssm.CreateActivationOutput.ActivationId resp = Some id ->
  respond srv describe s1 = (Ok out, s2) ->
  ssm.DescribeActivationsOutput.ActivationList out = a :: l ->
  exists d',
    run srv (resourceActivationCreate propagationTimeout d meta) s
    = (Returned (d', []), s2, [Ev create (Ok resp); Ev describe (Ok out)])
    /\ Id d' = id
    /\ GetString d' "activation_code"
       = StringValue (ssm.CreateActivationOutput.ActivationCode resp)
    /\ GetString d' "name"
       = StringValue (ssm.Activation.DefaultInstanceName a)
    /\ GetString d' "iam_role" = StringValue (ssm.Activation.IamRole a)
    /\ GetInt d' "registration_count"
       = default 0%Z (ssm.Activation.RegistrationsCount a)
    /\ GetString d' "expiration_date"
       = time.Format (default time.zero (ssm.Activation.ExpirationDate a))
    /\ (ssm.Activation.ExpirationDate a = None ->
        GetString d' "expiration_date" = "0001-01-01T00:00:00Z").
Proof.
  intros create describe HR1 Hid HR2 Hl.
  unfold resourceActivationCreate.
  unfold mbind at 1, Prog_bind at 1. rewrite run_bind.
  erewrite retry_first_success.
  2:{ prog_unfold. rewrite run_call. fold create. rewrite HR1. reflexivity. }
  cbn [tfresource.TimedOut]. prog_unfold. cbn [run]. rewrite Hid.
  rewrite run_bind.
  pose proof (activation_read_shape srv
                (SetAttr (SetId d id) "activation_code"
                   (VString <$> ssm.CreateActivationOutput.ActivationCode resp))
                meta s1) as H.
  cbv zeta in H. cbn [Id SetAttr SetId] in H. fold describe in H.
  rewrite HR2, Hl in H.
  unfold mbind, Prog_bind, call, index in H. cbn [bind] in H.
  fold create. cbn [Id SetAttr SetId].
  match goal with
  | H : ?x = _ |- context [match ?y with _ => _ end] =>
      change y with x; rewrite H
  end.
  cbn [run fst snd app].
  eexists. split; [reflexivity|].
  cbn [assign foldl activationAttributes fst snd].
  repeat split.
  - get_other. now rewrite GetString_set.
  - get_other. now rewrite GetString_set.
  - get_other. now rewrite GetString_set.
  - get_other. now rewrite GetInt_set.
  - get_other. now rewrite GetString_set_some.
  - intros ->. get_other. now rewrite GetString_set_some.
Qed.

Lemma X9_witness :
  exists d' t,
    run echo
      (resourceActivationCreate (2 * retry.Minute) activationToTheSecond
         emptyClient) nothingStored
    = (Returned (d', []),
       {| storedThreatIntelSet := None; storedStudio := None;
          storedActivation :=
            Some (createActivationInput activationToTheSecond emptyClient) |},
       t)
    /\ Id d' = "act-1"
    /\ GetString d' "activation_code" = "code".
Proof.
  destruct (X9_activation_create_success (2 * retry.Minute)
              activationToTheSecond emptyClient Stored echo nothingStored
              _ _ _ echoActivationId _ _ [] eq_refl eq_refl eq_refl eq_refl)
    as (d' & HR & HI & Hc & _).
  exists d'. eexists. split; [exact HR|]. split; [exact HI|exact Hc].
Defined.

(** X10.  The first call of the create handler of an activation is the
    create call, and the role of its request is the submitted role when one
    is set and the submitted name otherwise: without a role, the name is
    sent in the role's place. *)
Theorem X10_activation_request_role (propagationTimeout : Z)
    (d : ResourceData) (meta : AWSClient) (S : Type) (srv : Remote S)
    (s : S) :
  exists input r t,
    (run srv (resourceActivationCreate propagationTimeout d meta) s).2
    = Ev (CreateActivationWithContext input) r :: t
    /\ ssm.CreateActivationInput.IamRole input
       = match GetOk d "iam_role" with
         | Some _ => GetString d "iam_role"
         | None => GetString d "name"
         end.
Proof.
  exists (createActivationInput d meta).
  unfold resourceActivationCreate, retry.RetryContext.
  destruct (polls_positive
              {| retry.Pending := ["retryableerror"];
                 retry.Target := ["success"];
                 retry.Timeout := propagationTimeout;
                 retry.MinTimeout := 500 * retry.Millisecond |}) as [n ->].
  cbn [retry.retryLoop]. prog_unfold. rewrite run_call.
  destruct (respond srv _ s) as [r s1].
  match goal with
  | |- context [run srv ?p s1] => destruct (run srv p s1) as [[o s2] t]
  end.
  exists r, t. split; [reflexivity|apply createActivationInput_role].
Qed.

(** ** Composition of the create handlers *)

(** X11.  Once the create call of a threat intel set has succeeded with the
    identifier [id], the create handler waits for the status of that set;
    when the wait ends with an error, the handler returns it in an error
    diagnostic and the resource data stays as it was, without an
    identifier; when the wait succeeds, the handler stores the identifier
    [detector:id] and its result is that of the read. *)
Theorem X11_threat_intel_set_create_composition (d : ResourceData)
    (meta : AWSClient) (S : Type) (srv : Remote S) (s s1 : S)
    (resp : guardduty.CreateThreatIntelSetOutput.t) (id : string) :
  let create :=
    CreateThreatIntelSetWithContext (createThreatIntelSetInput d meta) in
  respond srv create s = (Ok resp, s1) ->
  guardduty.CreateThreatIntelSetOutput.ThreatIntelSetId resp = Some id ->
  run srv (resourceThreatIntelSetCreate d meta) s
  = match
      run srv
        (retry.WaitForStateContext createStateConf
           (threatintelsetRefreshStatusFunc id (GetString d "detector_id")))
        s1
    with
    | (Returned (_, Some err), s2, tw) =>
        (Returned
           (d, [errorDiag
                  "creating GuardDuty Threat Intel Set (%s): waiting for completion: %s"
                  [ArgS (GetString d "name"); ArgE err]]),
         s2, Ev create (Ok resp) :: tw)
    | (Returned (_, None), s2, tw) =>
        match
          run srv
            (resourceThreatIntelSetRead
               (SetId d
                  (EncodeThreatIntelSetID (GetString d "detector_id") id))
               meta) s2
        with
        | (o, s3, tr) => (o, s3, Ev create (Ok resp) :: tw ++ tr)
        end
    | (Panicked msg, s2, tw) => (Panicked msg, s2, Ev create (Ok resp) :: tw)
    end.
Proof.
  intros create HR Hid. unfold resourceThreatIntelSetCreate.
  fold (createThreatIntelSetInput d meta). fold create.
  unfold mbind at 1, Prog_bind at 1, call. cbn [bind].
  rewrite run_call, HR, Hid. cbn [deref].
  unfold mbind at 1, Prog_bind at 1. cbn [bind].
  unfold mbind at 1, Prog_bind at 1. rewrite run_bind.
  destruct (run srv _ s1) as [[[[res [err|]]|msg] s2] tw];
    cbn [snd StringValue default from_option Datatypes.id].
  - cbn. now rewrite app_nil_r.
  - unfold mbind, Prog_bind. rewrite run_bind.
    destruct (run srv _ s2) as [[[[d' diags]|msg] s3] tr]; cbn;
      rewrite ?app_nil_r; reflexivity.
  - reflexivity.
Qed.

Lemma X11_witness :
  (run (observe errorForever)
     (resourceThreatIntelSetCreate activeThreatIntelSet emptyClient) O).1.1
  = Returned
      (activeThreatIntelSet,
       [errorDiag
          "creating GuardDuty Threat Intel Set (%s): waiting for completion: %s"
          [ArgS "bad-ips";
           ArgE (UnexpectedStateError "ERROR" ["ACTIVE"; "INACTIVE"])]]).
Proof.
  rewrite (X11_threat_intel_set_create_composition activeThreatIntelSet
             emptyClient nat (observe errorForever) O O _ "tis1"
             eq_refl eq_refl).
  reflexivity.
Defined.

(** X12.  When the first create call of a studio succeeds, the create
    handler makes no second attempt: it stores the studio identifier of the
    answer (the empty identifier when the answer has none) and its result
    is that of the read of the resource with this identifier. *)
Theorem X12_studio_create_composition (propagationTimeout : Z)
    (d : ResourceData) (meta : AWSClient) (S : Type) (srv : Remote S)
    (s s1 : S) (out : emr.CreateStudioOutput.t) :
  let create := CreateStudioWithContext (createStudioInput d meta) in
  respond srv create s = (Ok out, s1) ->
  run srv (resourceStudioCreate propagationTimeout d meta) s
  = match
      run srv
        (resourceStudioRead
           (SetId d (StringValue (emr.CreateStudioOutput.StudioId out))) meta)
        s1
    with
    | (o, s2, tr) => (o, s2, Ev create (Ok out) :: tr)
    end.
Proof.
  intros create HR. unfold resourceStudioCreate.
  unfold mbind at 1, Prog_bind at 1. rewrite run_bind.
  erewrite retry_first_success.
  2:{ prog_unfold. rewrite run_call. fold create. rewrite HR. reflexivity. }
  cbn [tfresource.TimedOut]. prog_unfold. cbn [run]. rewrite run_bind.
  destruct (run srv _ s1) as [[[[d' diags]|msg] s2] tr]; cbn;
    rewrite ?app_nil_r; reflexivity.
Qed.

Lemma X12_witness :
  calls
    (run echo
       (resourceStudioCreate (2 * retry.Minute) taggedStudio
          clientWithDefaultTags) nothingStored).2
  = [CreateStudioWithContext (createStudioInput taggedStudio clientWithDefaultTags);
     FindStudioByID "es-1"].
Proof.
  rewrite (X12_studio_create_composition (2 * retry.Minute) taggedStudio
             clientWithDefaultTags Stored echo nothingStored _ _ eq_refl).
  reflexivity.
Defined.

(** ** Updating a studio *)

(** X13.  The update of a studio updates the tags, exactly when [tags_all]
    changed and with the identifier and the old and new tags, and then
    reads the studio: the calls made are an initial part of this sequence
    and the whole of it when no call fails.  When the update of the tags
    fails, the handler returns the resource data unchanged with one error
    diagnostic carrying the identifier and the error, and does not read. *)
Theorem X13_studio_update_calls (d : ResourceData) (meta : AWSClient)
    (S : Type) (srv : Remote S) (s : S) :
  let r := run srv (resourceStudioUpdate d meta) s in
  let tag :=
    UpdateTags EMR (Id d) (mapOf (GetChange d "tags_all").1)
      (mapOf (GetChange d "tags_all").2) in
  calls r.2 `prefix_of` studioUpdateCalls d
  /\ (allSucceeded r.2 -> calls r.2 = studioUpdateCalls d)
  /\ (forall err s1,
        HasChange d "tags_all" = true ->
        respond srv tag s = (Fail err, s1) ->
        r = (Returned
               (d, [errorDiag "updating EMR Studio (%s) tags: %s"
                      [ArgS (Id d); ArgE err]]),
             s1, [Ev tag (Fail err)])).
Proof.
  cbv zeta. unfold resourceStudioUpdate, studioUpdateCalls, updateTagsCalls.
  destruct (HasChange d "tags_all").
  - destruct (GetChange d "tags_all") as [old new]. cbn [fst snd].
    prog_unfold. rewrite run_call.
    destruct (respond srv _ s) as [[[]|err] s1]; cbn [bind].
    + rewrite run_bind.
      pose proof (studio_read_calls srv d meta s1) as Hc.
      destruct (run srv (resourceStudioRead d meta) s1)
        as [[[x|msg] s2] tr]; cbn [snd] in Hc; cbn [run snd calls map app];
        rewrite ?app_nil_r; fold (calls tr); rewrite Hc;
        (split; [reflexivity|split; [reflexivity|intros ? ? _ [=]]]).
    + cbn [run snd calls map]. split; [|split].
      * eexists. reflexivity.
      * intros Hall. inversion Hall as [|? ? Hf _]. discriminate Hf.
      * intros err' s1' _ [= <- <-]. reflexivity.
  - prog_unfold. rewrite run_bind.
    pose proof (studio_read_calls srv d meta s) as Hc.
    destruct (run srv (resourceStudioRead d meta) s)
      as [[[x|msg] s2] tr]; cbn [snd] in Hc; cbn [run snd app];
      rewrite ?app_nil_r; rewrite Hc;
      (split; [reflexivity|split; [reflexivity|intros ? ? [=]]]).
Qed.

Lemma X13_witness :
  run (rejecting accessDenied)
    (resourceStudioUpdate retaggedStudio emptyClient) tt
  = (Returned
       (retaggedStudio,
        [errorDiag "updating EMR Studio (%s) tags: %s"
           [ArgS "es-1"; ArgE (AwsError accessDenied)]]),
     tt,
     [Ev (UpdateTags EMR "es-1" {[ "team" := "data" ]} {[ "team" := "ml" ]})
        (Fail (AwsError accessDenied))]).
Proof.
  rewrite (proj2 (proj2 (X13_studio_update_calls retaggedStudio emptyClient
                           unit (rejecting accessDenied) tt))
             (AwsError accessDenied) tt).
  - vm_compute. reflexivity.
  - vm_compute. reflexivity.
  - vm_compute. reflexivity.
Defined.

(** ** The schema and what the reads store *)

Lemma assigned_some (key : string) (l : list (string * option Value)) :
  forall before v,
    assigned key l before = Some v ->
    before = Some v \/ In (key, Some v) l.
Proof.
  induction l as [|[k x] l IH]; intros before v; cbn [assigned]; [auto|].
  intros H. apply IH in H as [H|H]; [|right; now right].
  destruct (String.eqb_spec k key) as [->|Hne]; [|now left].
  right. left. now subst.
Qed.

Lemma assign_wellTyped (m : list (string * schema.Schema)) (d : ResourceData)
    (l : list (string * option Value)) :
  wellTyped m d -> allAccepted m l -> wellTyped m (assign d l).
Proof.
  intros Hd Hl key v. rewrite attrs_assign. intros H.
  apply assigned_some in H as [H|H]; [now apply Hd|].
  unfold allAccepted in Hl. rewrite List.Forall_forall in Hl.
  exact (Hl _ H).
Qed.

Ltac accepted :=
  unfold allAccepted; cbv zeta;
  repeat (apply List.Forall_cons; [cbn [fst snd];
          try match goal with
              | |- context [_ <$> ?o] => destruct o
              end; reflexivity|]);
  apply List.Forall_nil.

Lemma threatIntelSetAttributes_accepted (meta : AWSClient)
    (threatIntelSetId detectorId : string)
    (resp : guardduty.GetThreatIntelSetOutput.t) :
  allAccepted ThreatIntelSetSchema
    (threatIntelSetAttributes meta threatIntelSetId detectorId resp).
Proof. unfold threatIntelSetAttributes. accepted. Qed.

Lemma studioAttributes_accepted (meta : AWSClient) (studio : emr.Studio.t) :
  allAccepted StudioSchema (studioAttributes meta studio).
Proof. unfold studioAttributes. accepted. Qed.

Lemma activationAttributes_accepted (meta : AWSClient)
    (activation : ssm.Activation.t) :
  allAccepted ActivationSchema (activationAttributes meta activation).
Proof. unfold activationAttributes. accepted. Qed.

Lemma read_result_accepted {S : Type} (srv : Remote S) (h : Handler)
    (d d' : ResourceData) (meta : AWSClient) (s s' : S) diags t :
  run srv (resourceRead h d meta) s = (Returned (d', diags), s', t) ->
  d' = d \/ d' = SetId d ""
  \/ exists l, d' = assign d l /\ allAccepted (resourceSchema h) l.
Proof.
  destruct h; cbn [resourceRead resourceSchema].
  - pose proof (threat_intel_set_read_shape srv d meta s) as H.
    destruct (DecodeThreatIntelSetID (Id d)) as [[tis det] [err|]];
      cbv zeta in H; rewrite H.
    + intros [= <- _ _ _]. auto.
    + destruct (respond srv _ s) as [[resp|e] s1].
      * intros E. right. right.
        exists (threatIntelSetAttributes meta tis det resp).
        split; [congruence|apply threatIntelSetAttributes_accepted].
      * destruct (tfawserr.ErrMessageContains _ _ _);
          intros [= <- _ _ _]; auto.
  - rewrite studio_read_shape.
    destruct (respond srv _ s) as [[studio|e] s1].
    + intros E. right. right. exists (studioAttributes meta studio).
      split; [congruence|apply studioAttributes_accepted].
    + destruct (negb (IsNewResource d) && tfresource.NotFound (Some e));
        intros [= <- _ _ _]; auto.
  - pose proof (activation_read_shape srv d meta s) as H. cbv zeta in H.
    rewrite H. destruct (respond srv _ s) as [[[[|a l]]|e] s1].
    + cbn. destruct (IsNewResource d); intros [= <- _ _ _]. auto.
    + intros E. right. right. exists (activationAttributes meta a).
      split; [cbn [ssm.DescribeActivationsOutput.ActivationList] in E;
              congruence|apply activationAttributes_accepted].
    + intros [= <- _ _ _]. auto.
Qed.

(** X14.  The reads keep the resource data within the schema of their
    resource: when every attribute of the resource data is declared in the
    schema with the type of its value, the same holds after the read,
    whatever the service answered.  So every attribute a read writes is
    declared, with the type of the value written. *)
Theorem X14_read_keeps_schema (h : Handler) (d d' : ResourceData)
    (meta : AWSClient) (S : Type) (srv : Remote S) (s s' : S) diags t :
  wellTyped (resourceSchema h) d ->
  run srv (resourceRead h d meta) s = (Returned (d', diags), s', t) ->
  wellTyped (resourceSchema h) d'.
Proof.
  intros Hd HR.
  destruct (read_result_accepted srv h d d' meta s s' diags t HR)
    as [->|[->|(l & -> & Hl)]]; [exact Hd|exact Hd|].
  now apply assign_wellTyped.
Qed.

Lemma X14_witness :
  match
    (run echo
       (resourceStudioRead (resourceWithId echoStudioId false)
          clientWithDefaultTags) taggedStudioStored).1.1
  with
  | Returned (d', _) => wellTyped StudioSchema d'
  | Panicked _ => False
  end.
Proof.
  refine (X14_read_keeps_schema StudioResource
            (resourceWithId echoStudioId false) _ clientWithDefaultTags
            Stored echo taggedStudioStored _ _ _ _ eq_refl).
  intros key v H. cbn in H. rewrite lookup_empty in H. discriminate H.
Defined.

(** ** Further facts on identifiers, reads and deletes *)

(** X15.  The decoding of an identifier succeeds exactly when the
    identifier contains exactly one ":"; the empty identifier, an
    identifier without ":" and an identifier with two or more are
    rejected. *)
Theorem X15_decode_succeeds_iff_one_separator (id : string) :
  (DecodeThreatIntelSetID id).2 = None <-> strings.Count id ":" = 1%nat.
Proof.
  unfold DecodeThreatIntelSetID. rewrite Split_length.
  destruct (strings.Count id ":") as [|[|n]]; cbn; split;
    intros H; try reflexivity; discriminate H.
Qed.

(** X16.  A read returns at most one diagnostic, and a read that returns
    one has not changed the resource data. *)
Theorem X16_read_error_keeps_data (h : Handler) (d d' : ResourceData)
    (meta : AWSClient) (S : Type) (srv : Remote S) (s s' : S) diags t :
  run srv (resourceRead h d meta) s = (Returned (d', diags), s', t) ->
  diags = []
  \/ (d' = d /\ exists format args, diags = [errorDiag format args]).
Proof.
  destruct h; cbn [resourceRead].
  - pose proof (threat_intel_set_read_shape srv d meta s) as H.
    destruct (DecodeThreatIntelSetID (Id d)) as [[tis det] [err|]];
      cbv zeta in H; rewrite H.
    + intros [= <- <- _ _]. right. eauto.
    + destruct (respond srv _ s) as [[resp|e] s1].
      * intros [= _ <- _ _]. now left.
      * destruct (tfawserr.ErrMessageContains _ _ _);
          intros [= <- <- _ _]; [now left|right; eauto].
  - rewrite studio_read_shape.
    destruct (respond srv _ s) as [[studio|e] s1].
    + intros [= _ <- _ _]. now left.
    + destruct (negb (IsNewResource d) && tfresource.NotFound (Some e));
        intros [= <- <- _ _]; [now left|right; eauto].
  - pose proof (activation_read_shape srv d meta s) as H. cbv zeta in H.
    rewrite H. destruct (respond srv _ s) as [[[[|a l]]|e] s1].
    + cbn. destruct (IsNewResource d); intros [= <- <- _ _]. now left.
    + cbn [ssm.DescribeActivationsOutput.ActivationList].
      intros [= _ <- _ _]. now left.
    + intros [= <- <- _ _]. right. eauto.
Qed.

Lemma X16_witness :
  let d := resourceWithId "es-1" false in
  [errorDiag "reading EMR Studio (%s): %s"
     [ArgS "es-1"; ArgE (AwsError accessDenied)]] = []
  \/ (d = d
      /\ exists format args,
           [errorDiag "reading EMR Studio (%s): %s"
              [ArgS "es-1"; ArgE (AwsError accessDenied)]]
           = [errorDiag format args]).
Proof.
  exact (X16_read_error_keeps_data StudioResource (resourceWithId "es-1" false)
           _ emptyClient unit (rejecting accessDenied) tt tt _ _ eq_refl).
Defined.

(** X17.  A delete handler never changes the resource data, and it returns
    no diagnostic or exactly one error diagnostic. *)
Theorem X17_delete_keeps_data (h : Handler) (d d' : ResourceData)
    (meta : AWSClient) (S : Type) (srv : Remote S) (s s' : S) diags t :
  run srv (resourceDelete h d meta) s = (Returned (d', diags), s', t) ->
  d' = d /\ (diags = [] \/ exists format args, diags = [errorDiag format args]).
Proof.
  destruct h; cbn [resourceDelete].
  - destruct (DecodeThreatIntelSetID (Id d)) as [[tis det] [err|]] eqn:HD.
    + unfold resourceThreatIntelSetDelete. rewrite HD.
      cbn. intros [= <- <- _ _]. split; [reflexivity|right; eauto].
    + destruct (respond srv
                  (DeleteThreatIntelSetWithContext
                     {| guardduty.DeleteThreatIntelSetInput.DetectorId := det;
                        guardduty.DeleteThreatIntelSetInput.ThreatIntelSetId :=
                          tis |}) s) as [[[]|e] s1] eqn:HR.
      * rewrite (threat_intel_set_delete_then_wait srv d meta s s1 tis det
                   HD HR).
        destruct (run srv _ s1) as [[[[res [err|]]|msg] s2] tw];
          cbn [snd]; intros [= <- <- _ _];
          (split; [reflexivity|]); [right; eauto|now left].
      * unfold resourceThreatIntelSetDelete. rewrite HD.
        unfold mbind at 1, Prog_bind at 1, call. cbn [bind].
        rewrite run_call, HR. cbn. intros [= <- <- _ _].
        split; [reflexivity|right; eauto].
  - unfold resourceStudioDelete. prog_unfold. rewrite run_call.
    destruct (respond srv _ s) as [[[]|e] s1]; cbn [unpack].
    + cbn. intros [= <- <- _ _]. auto.
    + destruct (tfawserr.ErrCodeEquals _ _); cbn; intros [= <- <- _ _];
        (split; [reflexivity|]); [now left|right; eauto].
  - unfold resourceActivationDelete. prog_unfold. rewrite run_call.
    destruct (respond srv _ s) as [[[]|e] s1]; cbn; intros [= <- <- _ _];
      (split; [reflexivity|]); [now left|right; eauto].
Qed.

Lemma X17_witness :
  let d := resourceWithId "det:tis1" false in
  match
    (run (observe deletePendingForever)
       (resourceThreatIntelSetDelete d emptyClient) O).1.1
  with
  | Returned (d', diags) =>
      d' = d
      /\ (diags = [] \/ exists format args, diags = [errorDiag format args])
  | Panicked _ => False
  end.
Proof.
  exact (X17_delete_keeps_data ThreatIntelSetResource
           (resourceWithId "det:tis1" false) _ emptyClient nat
           (observe deletePendingForever) O _ _ _ eq_refl).
Defined.
